(** * The Redis example service adapter: manifest generator and binder

    A shallow embedding of [adapter/redis_manifest_generator.go] and
    [adapter/redis_binding.go], and the properties of the two operations
    [GenerateManifest] and [CreateBinding].

    Go values are embedded as follows.
    - [string] is a Go string (a sequence of bytes);
    - [int] is [Z] (64 bit; only [strconv.Atoi] and the conversion from
      [float64] can leave the range, and both are written out);
    - [float64] is the IEEE 754 datum [spec_float];
    - a [map[string]T] is a [gmap string T]; a nil map reads like the empty
      one, and where the code tests a map against [nil] the map is an
      [option];
    - an [interface{}] is a [value];
    - a Go function returning [(T, error)] returns an [outcome T], which also
      records a run-time panic;
    - a method that writes to [StderrLogger] returns an [M T]: the lines
      written and the outcome;
    - the order in which a [range] loop visits a map, the result of the
      password generator and the conversions that Go leaves to the
      implementation are arguments of the functions that depend on them. *)

From Stdlib Require Import ZArith String Ascii List.
From Stdlib Require Import Floats.SpecFloat.
From stdpp Require Import base option list gmap strings pretty fin_maps.

Local Set Warnings "-register-all".
Local Open Scope string_scope.
Local Open Scope list_scope.

(** ** Values of type [interface{}] *)

Definition float64 : Type := spec_float.

(** The dynamic types that occur in manifests decoded from YAML and in
    request parameters decoded from JSON. The keys of a
    [map[interface{}]interface{}] are the string keys: the adapter reads
    such maps at string constants only. A map held in an interface is
    not nil: a YAML mapping decodes to a map that is made, a YAML null to
    the nil interface. *)
Inductive value : Type :=
| VNil                                  (* the nil interface *)
| VBool (b : bool)
| VInt (n : Z)                          (* int *)
| VFloat (f : float64)                  (* float64 *)
| VString (s : string)
| VList (l : list value)                (* []interface{} *)
| VStrMap (m : gmap string value)       (* map[string]interface{} *)
| VMap (m : gmap string value).         (* map[interface{}]interface{} *)

(** ** Outcomes *)

Inductive panic : Type :=
| IndexOutOfRange        (* index out of range *)
| InterfaceConversion.   (* failed type assertion [x.(T)] *)

Inductive outcome (A : Type) : Type :=
| Ok (a : A)             (* returned with a nil error *)
| Err (e : string)       (* returned a non-nil error with message [e] *)
| Panic (p : panic).     (* did not return *)
Arguments Ok {A} a.
Arguments Err {A} e.
Arguments Panic {A} p.

#[global] Instance outcome_ret : MRet outcome := @Ok.
#[global] Instance outcome_bind : MBind outcome := fun A B k o =>
  match o with
  | Ok a => k a
  | Err e => Err e
  | Panic p => Panic p
  end.

#[global] Instance outcome_fmap : FMap outcome := fun A B f o =>
  match o with
  | Ok a => Ok (f a)
  | Err e => Err e
  | Panic p => Panic p
  end.

(** What a method with a logger does: the lines printed to
    [StderrLogger], in order, and the outcome. *)
Record M (A : Type) : Type := Run { logged : list string; result : outcome A }.
Arguments Run {A} logged result.
Arguments logged {A} m.
Arguments result {A} m.

#[global] Instance M_ret : MRet M := fun A a => Run [] (Ok a).
#[global] Instance M_bind : MBind M := fun A B k m =>
  match result m with
  | Ok a => Run (logged m ++ logged (k a)) (result (k a))
  | Err e => Run (logged m) (Err e)
  | Panic p => Run (logged m) (Panic p)
  end.

Definition lift {A} (o : outcome A) : M A := Run [] o.
Definition Println (line : string) : M unit := Run [line] (Ok tt).

(** ** Strings *)

(** [strings.Join] *)
Fixpoint Join (elems : list string) (sep : string) : string :=
  match elems with
  | [] => EmptyString
  | [e] => e
  | e :: rest => e +:+ sep +:+ Join rest sep
  end.

(** [strconv.Quote] of a string of printable characters without quotes
    and backslashes, which is how [strconv.Atoi] shows its argument. *)
Definition Quote (s : string) : string :=
  String "034" (s +:+ String "034" EmptyString).

(** ** Regular expressions

    The fragment of [regexp] syntax used by the adapter. Both expressions
    open with [^], so a match starts at the first byte; [$] is the end of
    the text (no multi-line flag). Repetition is applied to character
    classes only. *)
Inductive regex : Type :=
| Chr (c : ascii)              (* a literal byte *)
| Many1 (p : ascii -> bool)    (* [c+], greedy, for a class [c] *)
| Cat (r1 r2 : regex)
| Opt (r : regex)              (* [(?:r)?], greedy *)
| Grp (i : nat) (r : regex)    (* the i-th capturing group *)
| Eot.                         (* [$] *)

(** The remainders after one or more bytes of the class, longest first. *)
Fixpoint many1 (p : ascii -> bool) (s : string) : list string :=
  match s with
  | String x s' => if p x then many1 p s' ++ [s'] else []
  | EmptyString => []
  end.

(** The text consumed between [s] and its suffix [rest]. *)
Definition consumed (s rest : string) : string :=
  substring 0 (String.length s - String.length rest) s.
Arguments consumed : simpl never.

(** All the ways to match a prefix of [s], in the order a backtracking
    matcher tries them: the remainder and the submatches of each. *)
Fixpoint exec (r : regex) (s : string) (caps : list string)
  : list (string * list string) :=
  match r with
  | Chr c =>
      match s with
      | String x s' => if Ascii.eqb x c then [(s', caps)] else []
      | EmptyString => []
      end
  | Many1 p => (fun s' => (s', caps)) <$> many1 p s
  | Cat r1 r2 => m ← exec r1 s caps; exec r2 m.1 m.2
  | Opt r => exec r s caps ++ [(s, caps)]
  | Grp i r => (fun m => (m.1, <[i := consumed s m.1]> m.2)) <$> exec r s caps
  | Eot =>
      match s with
      | EmptyString => [(s, caps)]
      | String _ _ => []
      end
  end.

(** [Regexp.FindStringSubmatch] for an expression with [n] groups that
    opens with [^]: the leftmost-first match, element 0 the whole match,
    groups that did not take part empty; nil when nothing matches. *)
Definition FindStringSubmatch (n : nat) (r : regex) (s : string) : list string :=
  match exec r s (replicate (S n) EmptyString) with
  | (rest, caps) :: _ => <[0%nat := consumed s rest]> caps
  | [] => []
  end.

(** [Regexp.FindAllStringSubmatch] with [n = -1]: an expression that opens
    with [^] matches at most once. *)
Definition FindAllStringSubmatch (n : nat) (r : regex) (s : string)
  : list (list string) :=
  match FindStringSubmatch n r s with
  | [] => []
  | m => [m]
  end.

Fixpoint lit (s : string) : regex -> regex :=
  match s with
  | EmptyString => fun k => k
  | String c s' => fun k => Cat (Chr c) (lit s' k)
  end.

Definition is_digit (c : ascii) : bool :=
  (48 <=? nat_of_ascii c)%nat && (nat_of_ascii c <=? 57)%nat.

(** ** [strconv.Atoi] *)

Definition MaxInt : Z := 2 ^ 63 - 1.
Definition MinInt : Z := - 2 ^ 63.

Fixpoint digits_value (acc : Z) (s : string) : option Z :=
  match s with
  | EmptyString => Some acc
  | String c s' =>
      if is_digit c
      then digits_value (10 * acc + (Z.of_nat (nat_of_ascii c) - 48)) s'
      else None
  end.

Definition NumError (s msg : string) : string :=
  "strconv.Atoi: parsing " +:+ Quote s +:+ ": " +:+ msg.

Definition Atoi (s : string) : outcome Z :=
  let '(neg, body) :=
    match s with
    | String "+" s' => (false, s')
    | String "-" s' => (true, s')
    | _ => (false, s)
    end in
  match body with
  | EmptyString => Err (NumError s "invalid syntax")
  | _ =>
      match digits_value 0 body with
      | None => Err (NumError s "invalid syntax")
      | Some n =>
          let v := if neg then (- n)%Z else n in
          if (MinInt <=? v)%Z && (v <=? MaxInt)%Z then Ok v
          else Err (NumError s "value out of range")
      end
  end.

(** ** Type assertions and map indexing *)

#[global] Instance value_inhabited : Inhabited value := populate VNil.

(** [x == nil] *)
Definition is_nil (x : value) : bool :=
  match x with VNil => true | _ => false end.

(** [x.(T)] in its one-result form panics when the dynamic type of [x]
    is not [T]; [m !!! k] is the Go index expression [m[k]], the zero
    value when the key is absent. *)
Definition assert_string (x : value) : outcome string :=
  match x with VString s => Ok s | _ => Panic InterfaceConversion end.
Definition assert_bool (x : value) : outcome bool :=
  match x with VBool b => Ok b | _ => Panic InterfaceConversion end.
Definition assert_int (x : value) : outcome Z :=
  match x with VInt n => Ok n | _ => Panic InterfaceConversion end.
Definition assert_float64 (x : value) : outcome float64 :=
  match x with VFloat f => Ok f | _ => Panic InterfaceConversion end.
Definition assert_map (x : value) : outcome (gmap string value) :=
  match x with VMap m => Ok m | _ => Panic InterfaceConversion end.

(** [for k, v := range m] visits every entry of [m] once, in an order
    that the runtime picks for each loop: [ks] is the order of the keys
    in one run of the loop. *)
Definition range_order {A} (m : gmap string A) (ks : list string) : Prop :=
  ks ≡ₚ (map_to_list m).*1.

Definition range {A} (ks : list string) (m : gmap string A) : list (string * A) :=
  omap (fun k => pair k <$> m !! k) ks.

(** The integer part of a finite [float64]. *)
Definition float64_trunc (f : float64) : option Z :=
  match f with
  | S754_zero _ => Some 0%Z
  | S754_finite sign m e =>
      let z := Z.shiftl (Z.pos m) e in Some (if sign then (- z)%Z else z)
  | S754_infinity _ | S754_nan => None
  end.

(** ** [encoding/base64]

    [StdEncoding]: the standard alphabet, padded with [=]. A byte is a
    number below 256. *)
Definition encodeStd : string :=
  "ABCDEFGHIJKLMNOPQRSTUVWXYZabcdefghijklmnopqrstuvwxyz0123456789+/".

(** The character of the alphabet at index [i]. *)
Definition encodeStd_at (i : N) : ascii :=
  default "A"%char (String.get (N.to_nat i) encodeStd).

(** [StdEncoding.Encode]: three bytes give four characters; a last
    group of two bytes gives three characters and one [=], a last group
    of one byte two characters and two [=]. *)
Fixpoint Encode (src : list N) : string :=
  match src with
  | b1 :: b2 :: b3 :: rest =>
      let val := N.lor (N.lor (N.shiftl b1 16) (N.shiftl b2 8)) b3 in
      String (encodeStd_at (N.land (N.shiftr val 18) 63))
        (String (encodeStd_at (N.land (N.shiftr val 12) 63))
           (String (encodeStd_at (N.land (N.shiftr val 6) 63))
              (String (encodeStd_at (N.land val 63)) (Encode rest))))
  | [b1; b2] =>
      let val := N.lor (N.shiftl b1 16) (N.shiftl b2 8) in
      String (encodeStd_at (N.land (N.shiftr val 18) 63))
        (String (encodeStd_at (N.land (N.shiftr val 12) 63))
           (String (encodeStd_at (N.land (N.shiftr val 6) 63))
              (String "="%char EmptyString)))
  | [b1] =>
      let val := N.shiftl b1 16 in
      String (encodeStd_at (N.land (N.shiftr val 18) 63))
        (String (encodeStd_at (N.land (N.shiftr val 12) 63))
           (String "="%char (String "="%char EmptyString)))
  | [] => EmptyString
  end.

(** [StdEncoding.EncodedLen] *)
Definition EncodedLen (n : nat) : nat := ((n + 2) / 3 * 4)%nat.

(** ** The types of the on-demand services SDK

    Only the fields that the adapter reads or writes. *)
Module bosh.
Module Release.
Record t : Type := mk { Name : string; Version : string }.
End Release.
Module Stemcell.
Record t : Type := mk { Alias : string; OS : string; Version : string }.
End Stemcell.
Module Job.
Record t : Type := mk { Name : string; Release : string }.
End Job.
Module Network.
Record t : Type := mk { Name : string }.
End Network.
Module InstanceGroup.
Record t : Type := mk {
    Name : string;
    Instances : Z;
    Jobs : list Job.t;
    VMType : string;
    VMExtensions : list string;
    PersistentDiskType : string;
    Stemcell : string;
    Networks : list Network.t;
    AZs : list string;
    Properties : gmap string value }.
End InstanceGroup.
Module Update.
Record t : Type := mk {
    Canaries : Z;
    CanaryWatchTime : string;
    UpdateWatchTime : string;
    MaxInFlight : value;
    Serial : option bool }.
End Update.
Module BoshManifest.
Record t : Type := mk {
    Name : string;
    Releases : list Release.t;
    Stemcells : list Stemcell.t;
    InstanceGroups : list InstanceGroup.t;
    Update : Update.t;
    Properties : gmap string value }.
End BoshManifest.
(** [BoshVMs]: instance group name to the addresses of its instances *)
Abbreviation BoshVMs := (gmap string (list string)).
End bosh.

Module serviceadapter.
Module ServiceRelease.
Record t : Type := mk { Name : string; Version : string; Jobs : list string }.
End ServiceRelease.
Module Stemcell.
Record t : Type := mk { OS : string; Version : string }.
End Stemcell.
Module ServiceDeployment.
Record t : Type := mk {
    DeploymentName : string;
    Releases : list ServiceRelease.t;
    Stemcell : Stemcell.t }.
End ServiceDeployment.
Module InstanceGroup.
Record t : Type := mk {
    Name : string;
    VMType : string;
    VMExtensions : list string;
    PersistentDiskType : string;
    Networks : list string;
    Instances : Z;
    AZs : list string }.
End InstanceGroup.
Module Update.
Record t : Type := mk {
    Canaries : Z;
    MaxInFlight : value;
    CanaryWatchTime : string;
    UpdateWatchTime : string;
    Serial : option bool }.
End Update.
Module Plan.
Record t : Type := mk {
    Properties : gmap string value;
    InstanceGroups : list InstanceGroup.t;
    Update : option Update.t }.
End Plan.
(** [RequestParameters], through its three accessors. *)
Module RequestParameters.
Record t : Type := mk {
    ArbitraryParams : gmap string value;
    ArbitraryContext : gmap string value;
    Platform : string }.
End RequestParameters.
(** [ManifestSecrets] is a [map[string]string]; [None] is the nil map. *)
Abbreviation ManifestSecrets := (option (gmap string string)).
Module Binding.
Record t : Type := mk { Credentials : gmap string value }.
End Binding.
End serviceadapter.

Import bosh serviceadapter.

(** ** Package [adapter] *)

Module adapter.

(** *** [adapter/redis_manifest_generator.go] *)

Definition RedisServerJobName : string := "redis-server".
Definition RedisServerPersistencePropertyKey : string := "persistence".
Definition RedisServerPort : Z := 6379.

Definition findIllegalArbitraryParams (ks : list string)
    (arbitraryParams : gmap string value) : list string :=
  foldl (fun illegalParams kv =>
           if decide (kv.1 ≠ "maxclients") then illegalParams ++ [kv.1]
           else illegalParams)
        [] (range ks arbitraryParams).

Definition findRedisServerInstanceGroup (plan : Plan.t)
  : option serviceadapter.InstanceGroup.t :=
  find (fun instanceGroup =>
          bool_decide (serviceadapter.InstanceGroup.Name instanceGroup = RedisServerJobName))
       (Plan.InstanceGroups plan).

(** [^(\d+)(?:\.(\d+))?(?:\+dev\.(\d+))?$] *)
Definition versionRegexp : regex :=
  Cat (Grp 1 (Many1 is_digit))
  (Cat (Opt (Cat (Chr ".") (Grp 2 (Many1 is_digit))))
  (Cat (Opt (lit "+dev." (Grp 3 (Many1 is_digit))))
  Eot)).

Definition parseReleaseVersion (versionString : string) : outcome (Z * Z * Z) :=
  let submatches := FindStringSubmatch 3 versionRegexp versionString in
  if decide (length submatches = 0%nat)
  then Err (versionString +:+ " is not a valid BOSH release version")
  else
    major ← Atoi (submatches !!! 1%nat);
    minor ← (if decide (submatches !!! 2%nat ≠ EmptyString)
             then Atoi (submatches !!! 2%nat) else Ok 0%Z);
    patch ← (if decide (submatches !!! 3%nat ≠ EmptyString)
             then Atoi (submatches !!! 3%nat) else Ok 0%Z);
    Ok (major, minor, patch).

Definition generateUpdateBlock (update : option serviceadapter.Update.t)
  : bosh.Update.t :=
  match update with
  | Some update =>
      {| bosh.Update.Canaries := serviceadapter.Update.Canaries update;
         bosh.Update.MaxInFlight := serviceadapter.Update.MaxInFlight update;
         bosh.Update.CanaryWatchTime := serviceadapter.Update.CanaryWatchTime update;
         bosh.Update.UpdateWatchTime := serviceadapter.Update.UpdateWatchTime update;
         bosh.Update.Serial := serviceadapter.Update.Serial update |}
  | None =>
      {| bosh.Update.Canaries := 1;
         bosh.Update.CanaryWatchTime := "30000-240000";
         bosh.Update.UpdateWatchTime := "30000-240000";
         bosh.Update.MaxInFlight := VInt 4;
         bosh.Update.Serial := None |}
  end.

Definition findReleaseForJob (requiredJob : string)
    (releases : list ServiceRelease.t) : outcome ServiceRelease.t :=
  let releasesThatProvideRequiredJob :=
    foldl (fun acc release =>
             foldl (fun acc providedJob =>
                      if decide (providedJob = requiredJob)
                      then acc ++ [release] else acc)
                   acc (ServiceRelease.Jobs release))
          [] releases in
  if decide (length releasesThatProvideRequiredJob = 0%nat)
  then Err ("no release provided for job " +:+ requiredJob)
  else if decide (1 < length releasesThatProvideRequiredJob)%nat
  then
    let releaseNames := ServiceRelease.Name <$> releasesThatProvideRequiredJob in
    Err ("job " +:+ requiredJob +:+ " defined in multiple releases: "
         +:+ Join releaseNames ", ")
  else
    match releasesThatProvideRequiredJob with
    | release :: _ => Ok release
    | [] => Panic IndexOutOfRange
    end.

Definition gatherJobs (releases : list ServiceRelease.t) : outcome (list Job.t) :=
  let jobs := [] in
  release ← findReleaseForJob RedisServerJobName releases;
  Ok (jobs ++ [ {| Job.Name := RedisServerJobName;
                   Job.Release := ServiceRelease.Name release |} ]).

Definition redisPlanProperties (manifest : BoshManifest.t)
  : outcome (gmap string value) :=
  match BoshManifest.InstanceGroups manifest with
  | instanceGroup :: _ =>
      assert_map (bosh.InstanceGroup.Properties instanceGroup !!! "redis")
  | [] => Panic IndexOutOfRange
  end.

Definition oldGreaterThanNew
    (oldMajorVersion oldMinorVersion oldPatchVersion
     newMajorVersion newMinorVersion newPatchVersion : Z) : bool :=
  if decide (oldMajorVersion ≠ newMajorVersion)
  then bool_decide (oldMajorVersion > newMajorVersion)%Z
  else if decide (oldMinorVersion ≠ newMinorVersion)
  then bool_decide (oldMinorVersion > newMinorVersion)%Z
  else bool_decide (oldPatchVersion > newPatchVersion)%Z.

Definition findOldManifestRedisRelease (redisReleaseName : string)
    (previousManifestReleases : list Release.t) : outcome Release.t :=
  match find (fun oldManifestRelease =>
                bool_decide (Release.Name oldManifestRelease = redisReleaseName))
             previousManifestReleases with
  | Some oldManifestRelease => Ok oldManifestRelease
  | None =>
      Err ("no release with name " +:+ redisReleaseName
           +:+ " found in previous manifest")
  end.

Definition validUpgradePath (previousManifest : BoshManifest.t)
    (serviceReleases : list ServiceRelease.t) : outcome unit :=
  newRedisRelease ← findReleaseForJob RedisServerJobName serviceReleases;
  oldRedisRelease ← findOldManifestRedisRelease
                      (ServiceRelease.Name newRedisRelease)
                      (BoshManifest.Releases previousManifest);
  if decide (ServiceRelease.Version newRedisRelease = "latest"
             ∨ Release.Version oldRedisRelease = "latest")
  then Ok tt
  else
    '(newMajorVersion, newMinorVersion, newPatchVersion) ←
      parseReleaseVersion (ServiceRelease.Version newRedisRelease);
    '(oldMajorVersion, oldMinorVersion, oldPatchVersion) ←
      parseReleaseVersion (Release.Version oldRedisRelease);
    if oldGreaterThanNew oldMajorVersion oldMinorVersion oldPatchVersion
                         newMajorVersion newMinorVersion newPatchVersion
    then Err ("error generating manifest: new release version "
              +:+ ServiceRelease.Version newRedisRelease
              +:+ " is lower than existing release version "
              +:+ Release.Version oldRedisRelease)
    else Ok tt.

(** [rand_Read n] is [rand.Read] on a buffer of [n] bytes: the bytes
    that it filled the buffer with, or its error. The line of
    [log.Printf] goes to the standard logger of package [log], which is
    the logger of this [M]. *)
Definition randomPasswordGenerator (rand_Read : nat -> outcome (list N)) : M string :=
  let length := 20%nat in
  match rand_Read length with
  | Err err =>
      Println ("Error generating random bytes, " +:+ err);;
      lift (Err err)
  | Panic p => lift (Panic p)
  | Ok randomBytes => mret (Encode randomBytes)
  end.

Section Adapter.

(** [CurrentPasswordGenerator] is a package variable holding the
    generator; what matters to [GenerateManifest] is how the one call of
    it ends. The default, [randomPasswordGenerator], reads the system's
    entropy source. *)
Variable CurrentPasswordGenerator : outcome string.

(** Go leaves the conversion of a [float64] to [int] to the
    implementation when the integer part is not an [int]. *)
Variable float64_to_int_unrepresentable : float64 -> Z.

(** [int(f)] *)
Definition int_of_float64 (f : float64) : Z :=
  match float64_trunc f with
  | Some z =>
      if bool_decide (MinInt ≤ z ≤ MaxInt)%Z then z
      else float64_to_int_unrepresentable f
  | None => float64_to_int_unrepresentable f
  end.

Definition passwordForRedisServer
    (previousManifestProperties : option (gmap string value)) : outcome string :=
  match previousManifestProperties with
  | Some previousManifestProperties =>
      assert_string (previousManifestProperties !!! "password")
  | None => CurrentPasswordGenerator
  end.

Definition maxClientsForRedisServer (arbitraryParams : gmap string value)
    (previousManifestProperties : option (gmap string value)) : outcome Z :=
  match arbitraryParams !! "maxclients" with
  | Some configuredMax =>
      f ← assert_float64 configuredMax; Ok (int_of_float64 f)
  | None =>
      match previousManifestProperties with
      | Some previousManifestProperties =>
          assert_int (previousManifestProperties !!! "maxclients")
      | None => Ok 10000%Z
      end
  end.

Definition persistenceForRedisServer (planProperties : gmap string value)
  : M string :=
  match planProperties !! RedisServerPersistencePropertyKey with
  | None =>
      Println ("the plan property '" +:+ RedisServerPersistencePropertyKey
               +:+ "' is missing");;
      lift (Err EmptyString)
  | Some persistenceConfig =>
      b ← lift (assert_bool persistenceConfig);
      mret (if b : bool then "yes" else "no")
  end.

Definition redisServerProperties (deploymentName : string)
    (planProperties arbitraryParams : gmap string value)
    (previousManifest : option BoshManifest.t) : M (gmap string value) :=
  previousRedisProperties ←
    match previousManifest with
    | Some previousManifest => lift (Some <$> redisPlanProperties previousManifest)
    | None => mret None
    end;
  persistence ← persistenceForRedisServer planProperties;
  password ← lift (passwordForRedisServer previousRedisProperties);
  maxClients ← lift (maxClientsForRedisServer arbitraryParams previousRedisProperties);
  mret ({[ "redis" :=
             VMap {[ "persistence" := VString persistence;
                     "password" := VString password;
                     "maxclients" := VInt maxClients ]} ]} : gmap string value).

(** [ks] is the order in which the loop of [findIllegalArbitraryParams]
    visits the keys of the arbitrary parameters in this call. *)
Definition GenerateManifest (ks : list string)
    (serviceDeployment : ServiceDeployment.t) (plan : Plan.t)
    (requestParams : RequestParameters.t)
    (previousManifest : option BoshManifest.t) (previousPlan : option Plan.t)
  : M BoshManifest.t :=
  let arbitraryParameters := RequestParameters.ArbitraryParams requestParams in
  let illegalArbParams := findIllegalArbitraryParams ks arbitraryParameters in
  if decide (length illegalArbParams ≠ 0%nat)
  then lift (Err ("unsupported parameter(s) for this service plan: "
                  +:+ Join illegalArbParams ", "))
  else
    match previousManifest return M unit with
    | Some previousManifest =>
        lift (validUpgradePath previousManifest
                (ServiceDeployment.Releases serviceDeployment))
    | None => mret tt
    end;;
    let stemcellAlias := "only-stemcell" in
    match findRedisServerInstanceGroup plan with
    | None =>
        Println ("no " +:+ RedisServerJobName
                 +:+ " instance group definition found");;
        lift (Err "Contact your operator, service configuration issue occurred")
    | Some redisServerInstanceGroup =>
        let networks :=
          bosh.Network.mk <$> serviceadapter.InstanceGroup.Networks redisServerInstanceGroup in
        redisProperties ←
          redisServerProperties (ServiceDeployment.DeploymentName serviceDeployment)
            (Plan.Properties plan) arbitraryParameters previousManifest;
        let releases :=
          (fun release => {| Release.Name := ServiceRelease.Name release;
                             Release.Version := ServiceRelease.Version release |})
            <$> ServiceDeployment.Releases serviceDeployment in
        jobs ← lift (gatherJobs (ServiceDeployment.Releases serviceDeployment));
        mret {|
          BoshManifest.Name := ServiceDeployment.DeploymentName serviceDeployment;
          BoshManifest.Releases := releases;
          BoshManifest.Stemcells :=
            [ {| bosh.Stemcell.Alias := stemcellAlias;
                 bosh.Stemcell.OS :=
                   serviceadapter.Stemcell.OS (ServiceDeployment.Stemcell serviceDeployment);
                 bosh.Stemcell.Version :=
                   serviceadapter.Stemcell.Version (ServiceDeployment.Stemcell serviceDeployment) |} ];
          BoshManifest.InstanceGroups :=
            [ {| bosh.InstanceGroup.Name := RedisServerJobName;
                 bosh.InstanceGroup.Instances :=
                   serviceadapter.InstanceGroup.Instances redisServerInstanceGroup;
                 bosh.InstanceGroup.Jobs := jobs;
                 bosh.InstanceGroup.VMType :=
                   serviceadapter.InstanceGroup.VMType redisServerInstanceGroup;
                 bosh.InstanceGroup.VMExtensions :=
                   serviceadapter.InstanceGroup.VMExtensions redisServerInstanceGroup;
                 bosh.InstanceGroup.PersistentDiskType :=
                   serviceadapter.InstanceGroup.PersistentDiskType redisServerInstanceGroup;
                 bosh.InstanceGroup.Stemcell := stemcellAlias;
                 bosh.InstanceGroup.Networks := networks;
                 bosh.InstanceGroup.AZs :=
                   serviceadapter.InstanceGroup.AZs redisServerInstanceGroup;
                 bosh.InstanceGroup.Properties := redisProperties |} ];
          BoshManifest.Update := generateUpdateBlock (Plan.Update plan);
          BoshManifest.Properties := ∅ |}
    end.

End Adapter.

(** *** [adapter/redis_binding.go] *)

Definition getRedisHost (deploymentTopology : BoshVMs) : outcome string :=
  if decide (size deploymentTopology ≠ 1%nat)
  then Err ("expected 1 instance group in the Redis deployment, got "
            +:+ pretty (size deploymentTopology))
  else
    let redisServerIPs := deploymentTopology !!! "redis-server" in
    if decide (length redisServerIPs ≠ 1%nat)
    then Err ("expected redis-server instance group to have only 1 instance, got "
              +:+ pretty (length redisServerIPs))
    else
      match redisServerIPs with
      | ip :: _ => Ok ip
      | [] => Panic IndexOutOfRange
      end.

(** The class of the bytes other than the two parentheses. *)
Definition not_paren (c : ascii) : bool :=
  negb (Ascii.eqb c "(" || Ascii.eqb c ")").

(** [^\(\(([^()]+)\)\)$] *)
Definition credhubRefRegexp : regex :=
  lit "((" (Cat (Grp 1 (Many1 not_paren)) (lit "))" Eot)).

(** Reading a [ManifestSecrets] at a key: the value and the [ok] flag. *)
Definition secrets_lookup (secrets : ManifestSecrets) (k : string) : option string :=
  secrets ≫= (.!! k).

(** From an error to the failure it causes: the message is logged and
    the error returned. *)
Definition log_and_return {A} (err : string) : M A :=
  Println err;; lift (Err err).

Definition CreateBinding (bindingID : string) (deploymentTopology : BoshVMs)
    (manifest : BoshManifest.t) (requestParams : RequestParameters.t)
    (secrets : ManifestSecrets) : M Binding.t :=
  let ctx := RequestParameters.ArbitraryContext requestParams in
  let platform := RequestParameters.Platform requestParams in
  (if decide (size ctx = 0%nat ∨ platform = EmptyString ∨ platform ≠ "cloudfoundry")
   then Println "Non Cloud Foundry platform (or pre OSBAPI 2.13) detected"
   else (mret tt : M unit));;
  match getRedisHost deploymentTopology with
  | Panic p => lift (Panic p)
  | Err err => Println err;; lift (Err EmptyString)
  | Ok redisHost =>
      generatedSecret ←
        match secrets return M string with
        | Some _ =>
            match secrets_lookup secrets "secret_pass" with
            | Some generatedSecret => mret generatedSecret
            | None =>
                log_and_return
                  "manifest wasn't correctly interpolated: missing value for `secret_pass`"
            end
        | None => mret EmptyString
        end;
      props ← lift (redisPlanProperties manifest);
      secretFromConfigStore ←
        (if negb (is_nil (props !!! "secret"))
         then
           match props !!! "secret" return M string with
           | VString pathWithParens =>
               let match_ := FindAllStringSubmatch 1 credhubRefRegexp pathWithParens in
               if decide (length match_ ≠ 1%nat
                          ∨ length (match_ !!! 0%nat) ≠ 2%nat)
               then log_and_return
                      ("expecting a credhub ref string with format ((xxx)), but got: "
                       +:+ pathWithParens)
               else
                 let path := (match_ !!! 0%nat) !!! 1%nat in
                 match secrets_lookup secrets path return M string with
                 | Some secretFromConfigStore => mret secretFromConfigStore
                 | None =>
                     log_and_return
                       ("secret '" +:+ path
                        +:+ "' not present in manifest secrets passed to bind")
                 end
           | _ =>
               log_and_return
                 "secret in manifest was not a string. expecting a credhub ref string"
           end
         else mret EmptyString);
      password ← lift (assert_string (props !!! "password"));
      mret {| Binding.Credentials :=
                {[ "host" := VString redisHost;
                   "port" := VInt RedisServerPort;
                   "generated_secret" := VString generatedSecret;
                   "password" := VString password;
                   "secret" := VString secretFromConfigStore ]} |}
  end.

Definition DeleteBinding (bindingID : string) (deploymentTopology : BoshVMs)
    (manifest : BoshManifest.t) (requestParams : RequestParameters.t) : outcome unit :=
  Ok tt.

End adapter.

Import adapter.

(** ** The words of the specification *)

(** [old] is greater than [new] in the lexicographic order on
    (major, minor, patch), the components compared as integers. *)
Definition lex_gt (old new : Z * Z * Z) : Prop :=
  (old.1.1 > new.1.1)%Z
  ∨ (old.1.1 = new.1.1 ∧ old.1.2 > new.1.2)%Z
  ∨ (old.1.1 = new.1.1 ∧ old.1.2 = new.1.2 ∧ old.2 > new.2)%Z.

(** The error of a refused downgrade. *)
Definition downgrade_error (newVersion oldVersion : string) : string :=
  "error generating manifest: new release version " +:+ newVersion
  +:+ " is lower than existing release version " +:+ oldVersion.

(** The matches of [job] in [releases]: a release, once for every
    time its job list names [job]. *)
Definition matches (job : string) (releases : list ServiceRelease.t)
  : list ServiceRelease.t :=
  release ← releases;
  replicate (length (filter (fun j => j = job) (ServiceRelease.Jobs release))) release.

(** [ref] is [name] wrapped in double parentheses, [name] not empty and
    free of parentheses. *)
Definition credhub_ref (ref name : string) : Prop :=
  ref = "((" +:+ name +:+ "))"
  /\ name <> EmptyString
  /\ Forall (fun c : ascii => c <> "("%char /\ c <> ")"%char) (list_ascii_of_string name).

(** The longest prefix of [s] in the class [p], and what follows it. *)
Fixpoint take_class (p : ascii -> bool) (s : string) : string :=
  match s with
  | String c s' => if p c then String c (take_class p s') else EmptyString
  | EmptyString => EmptyString
  end.

Fixpoint drop_class (p : ascii -> bool) (s : string) : string :=
  match s with
  | String c s' => if p c then drop_class p s' else s
  | EmptyString => EmptyString
  end.

(** ** Sample data *)

Module Sample.

Definition release (version : string) : ServiceRelease.t :=
  {| ServiceRelease.Name := "redis-release";
     ServiceRelease.Version := version;
     ServiceRelease.Jobs := ["redis-server"] |}.

Definition deployment (version : string) : ServiceDeployment.t :=
  {| ServiceDeployment.DeploymentName := "redis-1";
     ServiceDeployment.Releases := [release version];
     ServiceDeployment.Stemcell :=
       {| serviceadapter.Stemcell.OS := "ubuntu-jammy";
          serviceadapter.Stemcell.Version := "1.200" |} |}.

Definition plan : Plan.t :=
  {| Plan.Properties := {[ "persistence" := VBool true ]};
     Plan.InstanceGroups :=
       [ {| serviceadapter.InstanceGroup.Name := "redis-server";
            serviceadapter.InstanceGroup.VMType := "small";
            serviceadapter.InstanceGroup.VMExtensions := [];
            serviceadapter.InstanceGroup.PersistentDiskType := "ten";
            serviceadapter.InstanceGroup.Networks := ["default"];
            serviceadapter.InstanceGroup.Instances := 1;
            serviceadapter.InstanceGroup.AZs := ["z1"] |} ];
     Plan.Update := None |}.

Definition request (arbitraryParams : gmap string value) : RequestParameters.t :=
  {| RequestParameters.ArbitraryParams := arbitraryParams;
     RequestParameters.ArbitraryContext := {[ "platform" := VString "cloudfoundry" ]};
     RequestParameters.Platform := "cloudfoundry" |}.

(** A manifest as [GenerateManifest] writes it, with the given release
    version and properties of the server. *)
Definition manifest (version : string) (redis : gmap string value) : BoshManifest.t :=
  {| BoshManifest.Name := "redis-1";
     BoshManifest.Releases :=
       [ {| Release.Name := "redis-release"; Release.Version := version |} ];
     BoshManifest.Stemcells :=
       [ {| bosh.Stemcell.Alias := "only-stemcell";
            bosh.Stemcell.OS := "ubuntu-jammy";
            bosh.Stemcell.Version := "1.200" |} ];
     BoshManifest.InstanceGroups :=
       [ {| bosh.InstanceGroup.Name := "redis-server";
            bosh.InstanceGroup.Instances := 1;
            bosh.InstanceGroup.Jobs :=
              [ {| Job.Name := "redis-server"; Job.Release := "redis-release" |} ];
            bosh.InstanceGroup.VMType := "small";
            bosh.InstanceGroup.VMExtensions := [];
            bosh.InstanceGroup.PersistentDiskType := "ten";
            bosh.InstanceGroup.Stemcell := "only-stemcell";
            bosh.InstanceGroup.Networks := [ {| Network.Name := "default" |} ];
            bosh.InstanceGroup.AZs := ["z1"];
            bosh.InstanceGroup.Properties := {[ "redis" := VMap redis ]} |} ];
     BoshManifest.Update := generateUpdateBlock None;
     BoshManifest.Properties := ∅ |}.

Definition stored : gmap string value :=
  {[ "persistence" := VString "yes";
     "password" := VString "s3cret";
     "maxclients" := VInt 500 ]}.

(** A generator that returns a fixed password, and a platform on which
    an unrepresentable conversion gives the least [int]. *)
Definition generator : outcome string := Ok "generated-password".
Definition unrepresentable (f : float64) : Z := MinInt.

(** A second release with the server job. *)
Definition other_release : ServiceRelease.t :=
  {| ServiceRelease.Name := "redis-fork";
     ServiceRelease.Version := "3";
     ServiceRelease.Jobs := ["broker"; "redis-server"] |}.

(** Request parameters, stored properties and topologies. *)
Definition two_unknown : gmap string value :=
  {[ "a" := VFloat (S754_zero false); "b" := VFloat (S754_zero false) ]}.

Definition stored_without_password : gmap string value :=
  {[ "persistence" := VString "yes"; "maxclients" := VInt 500 ]}.

Definition stored_with_numeric_password : gmap string value :=
  {[ "persistence" := VString "yes"; "password" := VInt 1234;
     "maxclients" := VInt 500 ]}.

Definition one_host : BoshVMs := {[ "redis-server" := ["10.0.0.5"] ]}.
Definition two_groups : BoshVMs :=
  {[ "redis-server" := ["10.0.0.5"]; "sentinel" := ["10.0.0.6"] ]}.
Definition no_host : BoshVMs := {[ "redis-server" := [] ]}.
Definition two_hosts : BoshVMs := {[ "redis-server" := ["10.0.0.5"; "10.0.0.6"] ]}.

Definition stored_with_secret (secret : value) : gmap string value :=
  <[ "secret" := secret ]> stored.

Definition bind_to (deploymentTopology : BoshVMs) (redis : gmap string value)
    (secrets : ManifestSecrets) : M Binding.t :=
  CreateBinding "binding-1" deploymentTopology (manifest "2.5" redis) (request ∅) secrets.

Abbreviation generate := (GenerateManifest generator unrepresentable).

End Sample.

(** ** Further definitions *)

(** The manifest that [GenerateManifest] returns, from the instance
    group of the plan, the properties and the jobs it resolved. *)
Definition generated_manifest (serviceDeployment : ServiceDeployment.t)
    (plan : Plan.t) (redisServerInstanceGroup : serviceadapter.InstanceGroup.t)
    (redisProperties : gmap string value) (jobs : list Job.t) : BoshManifest.t :=
  {| BoshManifest.Name := ServiceDeployment.DeploymentName serviceDeployment;
     BoshManifest.Releases :=
       (fun release => {| Release.Name := ServiceRelease.Name release;
                          Release.Version := ServiceRelease.Version release |})
         <$> ServiceDeployment.Releases serviceDeployment;
     BoshManifest.Stemcells :=
       [ {| bosh.Stemcell.Alias := "only-stemcell";
            bosh.Stemcell.OS :=
              serviceadapter.Stemcell.OS (ServiceDeployment.Stemcell serviceDeployment);
            bosh.Stemcell.Version :=
              serviceadapter.Stemcell.Version (ServiceDeployment.Stemcell serviceDeployment) |} ];
     BoshManifest.InstanceGroups :=
       [ {| bosh.InstanceGroup.Name := RedisServerJobName;
            bosh.InstanceGroup.Instances :=
              serviceadapter.InstanceGroup.Instances redisServerInstanceGroup;
            bosh.InstanceGroup.Jobs := jobs;
            bosh.InstanceGroup.VMType :=
              serviceadapter.InstanceGroup.VMType redisServerInstanceGroup;
            bosh.InstanceGroup.VMExtensions :=
              serviceadapter.InstanceGroup.VMExtensions redisServerInstanceGroup;
            bosh.InstanceGroup.PersistentDiskType :=
              serviceadapter.InstanceGroup.PersistentDiskType redisServerInstanceGroup;
            bosh.InstanceGroup.Stemcell := "only-stemcell";
            bosh.InstanceGroup.Networks :=
              bosh.Network.mk <$> serviceadapter.InstanceGroup.Networks redisServerInstanceGroup;
            bosh.InstanceGroup.AZs :=
              serviceadapter.InstanceGroup.AZs redisServerInstanceGroup;
            bosh.InstanceGroup.Properties := redisProperties |} ];
     BoshManifest.Update := generateUpdateBlock (Plan.Update plan);
     BoshManifest.Properties := ∅ |}.

(** [s] without its prefix [p], when it has that prefix. *)
Fixpoint strip_prefix (p s : string) : option string :=
  match p, s with
  | EmptyString, _ => Some s
  | String c p', String x s' => if Ascii.eqb x c then strip_prefix p' s' else None
  | String _ _, EmptyString => None
  end.

(** A decimal numeral: one digit or more. *)
Definition digits (s : string) : Prop :=
  s <> EmptyString
  /\ Forall (fun c => is_digit c = true) (list_ascii_of_string s).

(** The number that a numeral denotes; 0 for the empty string. *)
Definition decimal (s : string) : Z := default 0%Z (digits_value 0 s).

(** The version grammar [MAJOR[.MINOR][+dev.PATCH]]: the text of a
    version from its three numerals, the last two of which may be
    missing (empty). *)
Definition version_text (major minor patch : string) : string :=
  major
  +:+ (if decide (minor = EmptyString) then EmptyString else "." +:+ minor)
  +:+ (if decide (patch = EmptyString) then EmptyString else "+dev." +:+ patch).

Definition version_fields (major minor patch : string) : Prop :=
  digits major
  /\ (minor = EmptyString \/ digits minor)
  /\ (patch = EmptyString \/ digits patch).

(** The index of a character in the standard alphabet. *)
Fixpoint index_in (c : ascii) (alphabet : string) : option N :=
  match alphabet with
  | EmptyString => None
  | String x rest =>
      if Ascii.eqb x c then Some 0%N else N.succ <$> index_in c rest
  end.

Definition encodeStd_index (c : ascii) : option N := index_in c encodeStd.

(** The tail of [versionRegexp]: the optional patch and the end of the
    text, and the optional minor before them. *)
Definition patch_regexp : regex :=
  Cat (Opt (lit "+dev." (Grp 3 (Many1 is_digit)))) Eot.

Definition minor_regexp : regex :=
  Cat (Opt (Cat (Chr ".") (Grp 2 (Many1 is_digit)))) patch_regexp.

(** A computation that writes the message of its error, when it returns
    one, and nothing else. *)
Definition logs_own_error {A} (x : M A) : Prop :=
  logged x = match result x with Err e => [e] | _ => [] end.

(** The line that [CreateBinding] writes for a caller that is not Cloud
    Foundry, when the request parameters make it write one. *)
Definition platform_notice (requestParams : RequestParameters.t) : list string :=
  if decide (size (RequestParameters.ArbitraryContext requestParams) = 0%nat
             \/ RequestParameters.Platform requestParams = EmptyString
             \/ RequestParameters.Platform requestParams <> "cloudfoundry")
  then ["Non Cloud Foundry platform (or pre OSBAPI 2.13) detected"]
  else [].

(** ** Further sample data *)

Module Cases.

Import Sample.

(** The properties of the server that a first call generates. *)
Definition created_properties : gmap string value :=
  {[ "persistence" := VString "yes";
     "password" := VString "generated-password";
     "maxclients" := VInt 10000 ]}.

(** The manifest of a first call for the release version. *)
Definition created (version : string) : BoshManifest.t :=
  manifest version created_properties.

Definition plan_without_groups : Plan.t :=
  {| Plan.Properties := {[ "persistence" := VBool true ]};
     Plan.InstanceGroups := [];
     Plan.Update := None |}.

Definition plan_without_persistence : Plan.t :=
  {| Plan.Properties := ∅;
     Plan.InstanceGroups := Plan.InstanceGroups plan;
     Plan.Update := None |}.

(** The instance group of [plan]. *)
Definition server_group : serviceadapter.InstanceGroup.t :=
  {| serviceadapter.InstanceGroup.Name := "redis-server";
     serviceadapter.InstanceGroup.VMType := "small";
     serviceadapter.InstanceGroup.VMExtensions := [];
     serviceadapter.InstanceGroup.PersistentDiskType := "ten";
     serviceadapter.InstanceGroup.Networks := ["default"];
     serviceadapter.InstanceGroup.Instances := 1;
     serviceadapter.InstanceGroup.AZs := ["z1"] |}.

(** A deployment whose only release has another name than the release
    of [manifest]. *)
Definition fork_deployment : ServiceDeployment.t :=
  {| ServiceDeployment.DeploymentName := "redis-1";
     ServiceDeployment.Releases := [other_release];
     ServiceDeployment.Stemcell :=
       ServiceDeployment.Stemcell (deployment "3") |}.

(** A release that names the server job twice in its list of jobs, and
    a deployment of that one release. *)
Definition twice_release : ServiceRelease.t :=
  {| ServiceRelease.Name := "redis-release";
     ServiceRelease.Version := "1";
     ServiceRelease.Jobs := ["redis-server"; "redis-server"] |}.

Definition twice_deployment : ServiceDeployment.t :=
  {| ServiceDeployment.DeploymentName := "redis-1";
     ServiceDeployment.Releases := [twice_release];
     ServiceDeployment.Stemcell :=
       ServiceDeployment.Stemcell (deployment "1") |}.

(** An entropy source that fills the buffer with 0, 1, 2, ..., one that
    fills it with 255, and one that fails. *)
Definition counting_Read (n : nat) : outcome (list N) := Ok (N.of_nat <$> seq 0 n).
Definition ones_Read (n : nat) : outcome (list N) := Ok (replicate n 255%N).
Definition failing_Read (n : nat) : outcome (list N) := Err "entropy source unavailable".

End Cases.

(** * Properties *)

(** ** The two monads *)

Lemma outcome_bind_Ok {A B} (o : outcome A) (k : A -> outcome B) b :
  o ≫= k = Ok b -> exists a, o = Ok a /\ k a = Ok b.
Proof. destruct o as [a| |]; cbn; [eauto | discriminate | discriminate]. Qed.

Lemma outcome_fmap_Ok {A B} (f : A -> B) (o : outcome A) b :
  f <$> o = Ok b -> exists a, o = Ok a /\ b = f a.
Proof. destruct o; cbn; intros; simplify_eq; eauto. Qed.

Lemma result_bind {A B} (m : M A) (k : A -> M B) :
  result (m ≫= k) =
  match result m with
  | Ok a => result (k a)
  | Err e => Err e
  | Panic p => Panic p
  end.
Proof. unfold mbind, M_bind. by destruct (result m). Qed.

Lemma result_bind_Ok {A B} (m : M A) (k : A -> M B) b :
  result (m ≫= k) = Ok b -> exists a, result m = Ok a /\ result (k a) = Ok b.
Proof. rewrite result_bind. destruct (result m); [eauto | discriminate | discriminate]. Qed.

Lemma result_lift {A} (o : outcome A) : result (lift o) = o.
Proof. reflexivity. Qed.

(** ** Upgrade-path validation *)

Lemma oldGreaterThanNew_lex_gt a1 a2 a3 b1 b2 b3 :
  oldGreaterThanNew a1 a2 a3 b1 b2 b3 = true <-> lex_gt (a1, a2, a3) (b1, b2, b3).
Proof.
  unfold oldGreaterThanNew, lex_gt; cbn.
  repeat case_decide; rewrite ?bool_decide_eq_true; lia.
Qed.

Lemma validUpgradePath_parsed previousManifest serviceReleases newR oldR o n :
  findReleaseForJob RedisServerJobName serviceReleases = Ok newR ->
  findOldManifestRedisRelease (ServiceRelease.Name newR)
    (BoshManifest.Releases previousManifest) = Ok oldR ->
  ServiceRelease.Version newR <> "latest" ->
  Release.Version oldR <> "latest" ->
  parseReleaseVersion (ServiceRelease.Version newR) = Ok n ->
  parseReleaseVersion (Release.Version oldR) = Ok o ->
  validUpgradePath previousManifest serviceReleases =
  if oldGreaterThanNew o.1.1 o.1.2 o.2 n.1.1 n.1.2 n.2
  then Err (downgrade_error (ServiceRelease.Version newR) (Release.Version oldR))
  else Ok tt.
Proof.
  intros Hnew Hold Hn Ho Hpn Hpo. unfold validUpgradePath.
  rewrite Hnew; cbn. rewrite Hold; cbn.
  case_decide as Hl; [tauto|].
  rewrite Hpn; cbn. destruct n as [[n1 n2] n3]. rewrite Hpo; cbn.
  destruct o as [[o1 o2] o3]. reflexivity.
Qed.

Section Generator.

Variable CurrentPasswordGenerator : outcome string.
Variable float64_to_int_unrepresentable : float64 -> Z.

Abbreviation GenerateManifest :=
  (GenerateManifest CurrentPasswordGenerator float64_to_int_unrepresentable).
Abbreviation redisServerProperties :=
  (redisServerProperties CurrentPasswordGenerator float64_to_int_unrepresentable).
Abbreviation passwordForRedisServer := (passwordForRedisServer CurrentPasswordGenerator).
Abbreviation maxClientsForRedisServer :=
  (maxClientsForRedisServer float64_to_int_unrepresentable).
Abbreviation int_of_float64 := (int_of_float64 float64_to_int_unrepresentable).

(** The properties map written by [redisServerProperties]. *)
Lemma redisServerProperties_Ok deploymentName planProperties arbitraryParams
    previousManifest props :
  result (redisServerProperties deploymentName planProperties arbitraryParams
            previousManifest) = Ok props ->
  exists previousRedisProperties persistence password maxClients,
    match previousManifest with
    | Some pm => exists m, redisPlanProperties pm = Ok m /\ previousRedisProperties = Some m
    | None => previousRedisProperties = None
    end
    /\ result (persistenceForRedisServer planProperties) = Ok persistence
    /\ passwordForRedisServer previousRedisProperties = Ok password
    /\ maxClientsForRedisServer arbitraryParams previousRedisProperties = Ok maxClients
    /\ props = {[ "redis" :=
                    VMap {[ "persistence" := VString persistence;
                            "password" := VString password;
                            "maxclients" := VInt maxClients ]} ]}.
Proof.
  unfold adapter.redisServerProperties. intros H.
  apply result_bind_Ok in H as (prevProps & Hprev & H).
  apply result_bind_Ok in H as (persistence & Hpers & H).
  apply result_bind_Ok in H as (password & Hpw & H).
  apply result_bind_Ok in H as (maxClients & Hmax & H).
  cbn in H. injection H as <-.
  exists prevProps, persistence, password, maxClients.
  repeat split; try assumption.
  destruct previousManifest as [pm|].
  - rewrite result_lift in Hprev.
    apply outcome_fmap_Ok in Hprev as (m & Hm & ->). eauto.
  - cbn in Hprev. by injection Hprev.
Qed.

(** What a successful [GenerateManifest] went through. *)
Lemma GenerateManifest_Ok ks serviceDeployment plan requestParams
    previousManifest previousPlan out :
  result (GenerateManifest ks serviceDeployment plan requestParams
            previousManifest previousPlan) = Ok out ->
  findIllegalArbitraryParams ks (RequestParameters.ArbitraryParams requestParams) = []
  /\ (forall pm, previousManifest = Some pm ->
        validUpgradePath pm (ServiceDeployment.Releases serviceDeployment) = Ok tt)
  /\ exists redisServerInstanceGroup props jobs instanceGroup,
       findRedisServerInstanceGroup plan = Some redisServerInstanceGroup
       /\ result (redisServerProperties
                    (ServiceDeployment.DeploymentName serviceDeployment)
                    (Plan.Properties plan)
                    (RequestParameters.ArbitraryParams requestParams)
                    previousManifest) = Ok props
       /\ gatherJobs (ServiceDeployment.Releases serviceDeployment) = Ok jobs
       /\ BoshManifest.InstanceGroups out = [instanceGroup]
       /\ bosh.InstanceGroup.Jobs instanceGroup = jobs
       /\ bosh.InstanceGroup.Properties instanceGroup = props.
Proof.
  unfold adapter.GenerateManifest. intros H.
  case_decide as Hill; [discriminate|].
  split; [by apply length_zero_iff_nil|].
  apply result_bind_Ok in H as ([] & Hup & H).
  split.
  { intros pm ->. rewrite result_lift in Hup. exact Hup. }
  destruct (findRedisServerInstanceGroup plan) as [ig|]; [|discriminate].
  apply result_bind_Ok in H as (props & Hprops & H).
  apply result_bind_Ok in H as (jobs & Hjobs & H).
  cbn in H. injection H as <-.
  eexists ig, props, jobs, _. repeat split; try eassumption; reflexivity.
Qed.

Lemma redisPlanProperties_no_Err pm e : redisPlanProperties pm <> Err e.
Proof.
  unfold redisPlanProperties, assert_map.
  destruct (BoshManifest.InstanceGroups pm); [discriminate|].
  by destruct (_ !!! _).
Qed.

(** With a previous manifest the only error of [redisServerProperties]
    is the empty one of a missing persistence property. *)
Lemma redisServerProperties_Err deploymentName planProperties arbitraryParams
    pm e :
  result (redisServerProperties deploymentName planProperties arbitraryParams
            (Some pm)) = Err e ->
  e = EmptyString.
Proof.
  unfold adapter.redisServerProperties.
  rewrite result_bind, result_lift.
  pose proof (redisPlanProperties_no_Err pm) as Hne.
  destruct (redisPlanProperties pm) as [m|e'|]; [|by destruct (Hne e')|discriminate].
  cbn [fmap outcome_fmap]. rewrite result_bind.
  unfold persistenceForRedisServer.
  destruct (planProperties !! RedisServerPersistencePropertyKey) as [v|];
    [|cbn; congruence].
  rewrite result_bind, result_lift.
  destruct v; try discriminate. cbn [assert_bool result mret M_ret].
  rewrite result_bind, result_lift. cbn [adapter.passwordForRedisServer].
  destruct (m !!! "password"); try discriminate. cbn [assert_string].
  rewrite result_bind, result_lift. unfold adapter.maxClientsForRedisServer.
  destruct (arbitraryParams !! "maxclients") as [c|].
  - destruct c; discriminate.
  - destruct (m !!! "maxclients"); discriminate.
Qed.

(** C1. When [GenerateManifest] returns a manifest, the password in the
    properties of its instance group is, for a call with a previous
    manifest, the string stored as the password of the previous manifest,
    whatever the other arguments are; for a call without one it is the
    string returned by the password generator, whatever the request
    parameters are. *)
Theorem password_carried_or_generated ks serviceDeployment plan requestParams
    previousManifest previousPlan out :
  result (GenerateManifest ks serviceDeployment plan requestParams
            previousManifest previousPlan) = Ok out ->
  exists password outProps,
    redisPlanProperties out = Ok outProps
    /\ outProps !! "password" = Some (VString password)
    /\ match previousManifest with
       | Some pm =>
           exists previousProps,
             redisPlanProperties pm = Ok previousProps
             /\ previousProps !! "password" = Some (VString password)
       | None => CurrentPasswordGenerator = Ok password
       end.
Proof.
  intros H. apply GenerateManifest_Ok in H
    as (_ & _ & ig & props & jobs & g & _ & Hprops & _ & Hout & _ & Hg).
  apply redisServerProperties_Ok in Hprops
    as (prevProps & persistence & password & maxClients & Hprev & _ & Hpw & _ & ->).
  exists password. eexists. split; [|split].
  - unfold redisPlanProperties. rewrite Hout, Hg. reflexivity.
  - reflexivity.
  - destruct previousManifest as [pm|].
    + destruct Hprev as (m & Hm & ->). exists m. split; [assumption|].
      cbn in Hpw. unfold assert_string in Hpw.
      unfold lookup_total, map_lookup_total in Hpw.
      destruct (m !! "password") as [[]|]; cbn in Hpw; congruence.
    + subst prevProps. exact Hpw.
Qed.

(** C3. When the release that provides the job is resolved, a release of
    its name is found in the previous manifest, and the version of either
    is the literal latest, the validation of the upgrade path passes,
    whatever the other version is. *)
Theorem validUpgradePath_latest previousManifest serviceReleases newR oldR :
  findReleaseForJob RedisServerJobName serviceReleases = Ok newR ->
  findOldManifestRedisRelease (ServiceRelease.Name newR)
    (BoshManifest.Releases previousManifest) = Ok oldR ->
  ServiceRelease.Version newR = "latest" \/ Release.Version oldR = "latest" ->
  validUpgradePath previousManifest serviceReleases = Ok tt.
Proof.
  intros Hnew Hold Hlatest. unfold validUpgradePath.
  rewrite Hnew; cbn. rewrite Hold; cbn.
  by case_decide.
Qed.


(** C5. When [GenerateManifest] returns a manifest, the maxclients in
    the properties of its instance group is: the [float64] under
    maxclients in the arbitrary parameters converted to [int], when that
    key is there; otherwise the integer stored as maxclients in the
    previous manifest, when there is one; otherwise 10000. *)
Theorem maxclients_precedence ks serviceDeployment plan requestParams
    previousManifest previousPlan out :
  result (GenerateManifest ks serviceDeployment plan requestParams
            previousManifest previousPlan) = Ok out ->
  exists maxClients outProps,
    redisPlanProperties out = Ok outProps
    /\ outProps !! "maxclients" = Some (VInt maxClients)
    /\ match RequestParameters.ArbitraryParams requestParams !! "maxclients" with
       | Some configuredMax =>
           exists f, configuredMax = VFloat f /\ maxClients = int_of_float64 f
       | None =>
           match previousManifest with
           | Some pm =>
               exists previousProps,
                 redisPlanProperties pm = Ok previousProps
                 /\ previousProps !! "maxclients" = Some (VInt maxClients)
           | None => maxClients = 10000%Z
           end
       end.
Proof.
  intros H. apply GenerateManifest_Ok in H
    as (_ & _ & ig & props & jobs & g & _ & Hprops & _ & Hout & _ & Hg).
  apply redisServerProperties_Ok in Hprops
    as (prevProps & persistence & password & maxClients & Hprev & _ & _ & Hmax & ->).
  exists maxClients. eexists. split; [|split].
  - unfold redisPlanProperties. rewrite Hout, Hg. reflexivity.
  - reflexivity.
  - unfold adapter.maxClientsForRedisServer in Hmax.
    destruct (_ !! "maxclients") as [c|].
    + destruct c; try discriminate. cbn in Hmax. injection Hmax as <-. eauto.
    + destruct previousManifest as [pm|].
      * destruct Hprev as (m & Hm & ->). exists m. split; [assumption|].
        unfold assert_int, lookup_total, map_lookup_total in Hmax.
        destruct (m !! "maxclients") as [[]|]; cbn in Hmax; congruence.
      * subst prevProps. by injection Hmax.
Qed.

(** [findReleaseForJob] collects the matches. *)
Lemma foldl_provided_jobs (requiredJob : string) (release : ServiceRelease.t)
    (jobs : list string) (acc : list ServiceRelease.t) :
  foldl (fun acc providedJob =>
           if decide (providedJob = requiredJob) then acc ++ [release] else acc)
        acc jobs
  = acc ++ replicate (length (filter (fun j => j = requiredJob) jobs)) release.
Proof.
  revert acc. induction jobs as [|j jobs IH]; intros acc.
  - cbn. by rewrite app_nil_r.
  - cbn [foldl]. rewrite IH, filter_cons. case_decide; cbn; [|done].
    by rewrite <- app_assoc.
Qed.

Lemma foldl_releases (requiredJob : string) (releases : list ServiceRelease.t)
    (acc : list ServiceRelease.t) :
  foldl (fun acc release =>
           foldl (fun acc providedJob =>
                    if decide (providedJob = requiredJob)
                    then acc ++ [release] else acc)
                 acc (ServiceRelease.Jobs release))
        acc releases
  = acc ++ matches requiredJob releases.
Proof.
  revert acc. induction releases as [|r releases IH]; intros acc; cbn.
  - by rewrite app_nil_r.
  - rewrite foldl_provided_jobs, IH. by rewrite <- app_assoc.
Qed.

Lemma findReleaseForJob_matches requiredJob releases :
  findReleaseForJob requiredJob releases =
  match matches requiredJob releases with
  | [] => Err ("no release provided for job " +:+ requiredJob)
  | [release] => Ok release
  | found =>
      Err ("job " +:+ requiredJob +:+ " defined in multiple releases: "
           +:+ Join (ServiceRelease.Name <$> found) ", ")
  end.
Proof.
  unfold findReleaseForJob. rewrite foldl_releases, app_nil_l.
  by destruct (matches requiredJob releases) as [|r [|r' found]].
Qed.

Lemma filter_eq_none (job : string) (jobs : list string) :
  job ∉ jobs -> filter (fun j => j = job) jobs = [].
Proof.
  induction jobs as [|j jobs IH]; [done|].
  intros Hj. apply not_elem_of_cons in Hj as [Hne Hj].
  rewrite filter_cons. case_decide; [congruence|auto].
Qed.

(** A release is among the matches when it is in the list and names the job. *)
Lemma elem_of_matches job releases r :
  r ∈ matches job releases <-> r ∈ releases /\ job ∈ ServiceRelease.Jobs r.
Proof.
  unfold matches. rewrite list_elem_of_bind. split.
  - intros (r' & Hr & Hr'). apply elem_of_replicate in Hr as [-> Hn].
    split; [done|]. destruct (filter _ _) as [|j l] eqn:Hf; [done|].
    assert (j ∈ filter (fun j => j = job) (ServiceRelease.Jobs r')) as Hj
      by (rewrite Hf; left).
    apply list_elem_of_filter in Hj as [-> Hj]. done.
  - intros [Hr Hj]. exists r. split; [|done].
    apply elem_of_replicate. split; [done|].
    assert (job ∈ filter (fun j => j = job) (ServiceRelease.Jobs r)) as Hf
      by by apply list_elem_of_filter.
    destruct (filter _ _); [by apply elem_of_nil in Hf|done].
Qed.

(** When no job list names a job twice, the matches are the releases
    that list the job. *)
Lemma matches_filter job releases :
  Forall (fun r => NoDup (ServiceRelease.Jobs r)) releases ->
  matches job releases = filter (fun r => job ∈ ServiceRelease.Jobs r) releases.
Proof.
  induction 1 as [|r releases Hr _ IH]; [done|].
  change (matches job (r :: releases))
    with (replicate (length (filter (fun j => j = job) (ServiceRelease.Jobs r))) r
          ++ matches job releases).
  rewrite IH, (filter_cons _ r).
  case_decide as Hj.
  - apply list_elem_of_split in Hj as (l1 & l2 & Hj). rewrite Hj in Hr |- *.
    apply NoDup_app in Hr as (_ & H1 & H2). apply NoDup_cons in H2 as [H2 _].
    rewrite filter_app, filter_cons_True by done.
    rewrite !filter_eq_none; [done|done|].
    intros Hin. apply (H1 job); [done|left].
  - by rewrite filter_eq_none.
Qed.

(** The resolution of the release by matches. For every release list:
    when no release lists the job, the
    resolution fails with an error that names the job; when more than one
    match is found (a match is a listing of the job by a release), it
    fails with an error that names the job and the releases of all the
    matches, joined by commas; with exactly one match the release is
    returned, and a manifest generated from the list has as its job list
    exactly the server job bound to that release. *)
Theorem release_for_job_resolved job releases :
  ((forall r, r ∈ releases -> job ∉ ServiceRelease.Jobs r) ->
     findReleaseForJob job releases = Err ("no release provided for job " +:+ job))
  /\ ((1 < length (matches job releases))%nat ->
       findReleaseForJob job releases =
       Err ("job " +:+ job +:+ " defined in multiple releases: "
            +:+ Join (ServiceRelease.Name <$> matches job releases) ", "))
  /\ (forall r, matches job releases = [r] ->
       findReleaseForJob job releases = Ok r
       /\ r ∈ releases /\ job ∈ ServiceRelease.Jobs r
       /\ (job = RedisServerJobName ->
           gatherJobs releases =
           Ok [ {| Job.Name := RedisServerJobName;
                   Job.Release := ServiceRelease.Name r |} ]
           /\ forall ks serviceDeployment plan requestParams previousManifest
                previousPlan out,
               ServiceDeployment.Releases serviceDeployment = releases ->
               result (GenerateManifest ks serviceDeployment plan requestParams
                         previousManifest previousPlan) = Ok out ->
               bosh.InstanceGroup.Jobs <$> BoshManifest.InstanceGroups out =
               [ [ {| Job.Name := RedisServerJobName;
                      Job.Release := ServiceRelease.Name r |} ] ])).
Proof.
  rewrite findReleaseForJob_matches. split; [|split].
  - intros Hnone. destruct (matches job releases) as [|r found] eqn:Hm; [done|].
    assert (r ∈ matches job releases) as Hr by (rewrite Hm; left).
    apply elem_of_matches in Hr as [Hr Hj]. by destruct (Hnone r Hr).
  - intros Hlen. destruct (matches job releases) as [|r [|r' found]]; cbn in Hlen;
      [lia|lia|done].
  - intros r Hm. rewrite Hm. split; [done|].
    assert (r ∈ matches job releases) as Hr by (rewrite Hm; left).
    apply elem_of_matches in Hr as [Hr Hj]. do 2 (split; [done|]).
    intros ->.
    assert (gatherJobs releases =
            Ok [ {| Job.Name := RedisServerJobName;
                    Job.Release := ServiceRelease.Name r |} ]) as Hjobs.
    { unfold gatherJobs. rewrite findReleaseForJob_matches, Hm. done. }
    split; [done|].
    intros ks sd plan rp prev pp out <- Hout.
    apply GenerateManifest_Ok in Hout
      as (_ & _ & ig & props & jobs & g & _ & _ & Hg & -> & Hj' & _).
    cbn. rewrite Hj'. congruence.
Qed.

(** ** The arbitrary parameters *)

Lemma foldl_illegal (kvs : list (string * value)) (acc : list string) :
  foldl (fun illegalParams (kv : string * value) =>
           if decide (kv.1 ≠ "maxclients") then illegalParams ++ [kv.1]
           else illegalParams)
        acc kvs
  = acc ++ filter (fun k => k ≠ "maxclients") kvs.*1.
Proof.
  revert acc. induction kvs as [|kv kvs IH]; intros acc.
  - cbn. by rewrite app_nil_r.
  - cbn [foldl]. rewrite IH, fmap_cons, filter_cons.
    case_decide; [|done]. by rewrite <- app_assoc.
Qed.

Lemma range_order_elem {A} (m : gmap string A) ks k :
  range_order m ks -> k ∈ ks <-> is_Some (m !! k).
Proof.
  intros Hks. rewrite Hks, list_elem_of_fmap. split.
  - intros ([k' v] & -> & Hkv). apply elem_of_map_to_list in Hkv. by exists v.
  - intros [v Hv]. exists (k, v). split; [done|]. by apply elem_of_map_to_list.
Qed.

Lemma range_order_NoDup {A} (m : gmap string A) ks : range_order m ks -> NoDup ks.
Proof. intros Hks. rewrite Hks. apply NoDup_fst_map_to_list. Qed.

Lemma range_keys {A} (m : gmap string A) ks :
  (forall k, k ∈ ks -> is_Some (m !! k)) -> (range ks m).*1 = ks.
Proof.
  unfold range. induction ks as [|k ks IH]; intros Hks; [done|].
  destruct (Hks k) as [v Hv]; [left|]. cbn. rewrite Hv. cbn. f_equal.
  apply IH. intros k' Hk'. apply Hks. by right.
Qed.

Lemma findIllegalArbitraryParams_range_order ks arbitraryParams :
  range_order arbitraryParams ks ->
  findIllegalArbitraryParams ks arbitraryParams
  = filter (fun k => k ≠ "maxclients") ks.
Proof.
  intros Hks. unfold findIllegalArbitraryParams.
  rewrite foldl_illegal, app_nil_l, range_keys; [done|].
  intros k Hk. by apply (range_order_elem _ ks).
Qed.

(** C4, as the code has it. The loop over the arbitrary parameters
    visits the keys in an order [ks] of the runtime's choosing. When some
    key is not maxclients, [GenerateManifest] fails with the unsupported
    parameter error, which names the keys other than maxclients, each
    once, joined by commas, in the order of the visit. When every key is
    maxclients the check finds nothing, and the call does not depend on
    the order. *)
Theorem unsupported_parameters_named ks serviceDeployment plan requestParams
    previousManifest previousPlan :
  let arbitraryParams := RequestParameters.ArbitraryParams requestParams in
  let illegal := filter (fun k => k ≠ "maxclients") ks in
  range_order arbitraryParams ks ->
  ((exists k, k ∈ dom arbitraryParams /\ k ≠ "maxclients") ->
     GenerateManifest ks serviceDeployment plan requestParams
       previousManifest previousPlan
     = Run [] (Err ("unsupported parameter(s) for this service plan: "
                    +:+ Join illegal ", "))
     /\ illegal ≡ₚ elements (dom arbitraryParams ∖ {[ "maxclients" ]}))
  /\ ((forall k, k ∈ dom arbitraryParams -> k = "maxclients") ->
      findIllegalArbitraryParams ks arbitraryParams = []
      /\ forall ks', range_order arbitraryParams ks' ->
           GenerateManifest ks' serviceDeployment plan requestParams
             previousManifest previousPlan
           = GenerateManifest ks serviceDeployment plan requestParams
               previousManifest previousPlan).
Proof.
  intros params illegal Hks.
  pose proof (findIllegalArbitraryParams_range_order _ _ Hks) as Hill.
  fold illegal in Hill.
  assert (Hin : forall k, k ∈ illegal <-> k ∈ dom params /\ k ≠ "maxclients").
  { intros k. subst illegal. rewrite list_elem_of_filter, elem_of_dom.
    rewrite (range_order_elem params ks k Hks). tauto. }
  split.
  - intros (k & Hk & Hne). split.
    + unfold adapter.GenerateManifest. fold params. rewrite Hill.
      case_decide as Hlen; [done|].
      apply length_zero_iff_nil in Hlen.
      assert (k ∈ illegal) as Hk' by by apply Hin.
      rewrite Hlen in Hk'. by apply elem_of_nil in Hk'.
    + apply NoDup_Permutation.
      * apply NoDup_filter, (range_order_NoDup params), Hks.
      * apply NoDup_elements.
      * intros x. rewrite Hin, elem_of_elements, elem_of_difference,
          elem_of_singleton. tauto.
  - intros Hall.
    assert (Hnil : forall ks', range_order params ks' ->
                     findIllegalArbitraryParams ks' params = []).
    { intros ks' Hks'. rewrite findIllegalArbitraryParams_range_order by done.
      destruct (filter _ ks') as [|k l] eqn:Hf; [done|].
      assert (k ∈ filter (fun k => k ≠ "maxclients") ks') as Hk by (rewrite Hf; left).
      apply list_elem_of_filter in Hk as [Hne Hk].
      apply (range_order_elem params ks' k Hks'), elem_of_dom in Hk.
      by destruct Hne; apply Hall. }
    split; [by apply Hnil|].
    intros ks' Hks'. unfold adapter.GenerateManifest. fold params.
    by rewrite (Hnil ks' Hks'), (Hnil ks Hks).
Qed.

(** ** The stored properties *)

(** C7, as the code has it. With a previous manifest whose stored
    password is absent or not a string, reading the password panics: the
    resolution of the properties returns no properties, it panics once
    the plan has a boolean persistence property, and [GenerateManifest]
    returns no manifest. *)
Theorem stored_password_not_string_panics ks serviceDeployment plan
    requestParams pm previousPlan previousProps :
  redisPlanProperties pm = Ok previousProps ->
  (forall s, previousProps !! "password" ≠ Some (VString s)) ->
  let resolved :=
    redisServerProperties (ServiceDeployment.DeploymentName serviceDeployment)
      (Plan.Properties plan) (RequestParameters.ArbitraryParams requestParams)
      (Some pm) in
  passwordForRedisServer (Some previousProps) = Panic InterfaceConversion
  /\ (forall props, result resolved ≠ Ok props)
  /\ (forall b, Plan.Properties plan !! "persistence" = Some (VBool b) ->
        resolved = Run [] (Panic InterfaceConversion))
  /\ (forall out,
        result (GenerateManifest ks serviceDeployment plan requestParams
                  (Some pm) previousPlan) ≠ Ok out).
Proof.
  intros Hpm Hpw resolved.
  assert (Hpanic : passwordForRedisServer (Some previousProps)
                   = Panic InterfaceConversion).
  { cbn. unfold assert_string, lookup_total, map_lookup_total.
    destruct (previousProps !! "password") as [[]|] eqn:Hp; try done.
    by destruct (Hpw s). }
  assert (Hno : forall props, result resolved ≠ Ok props).
  { intros props Hres. apply redisServerProperties_Ok in Hres
      as (prevProps & ? & ? & ? & (m & Hm & ->) & _ & Hpass & _).
    rewrite Hpm in Hm. injection Hm as <-. by rewrite Hpanic in Hpass. }
  repeat split; [done|done| |].
  - intros b Hb. subst resolved. unfold adapter.redisServerProperties.
    rewrite Hpm. unfold persistenceForRedisServer.
    change RedisServerPersistencePropertyKey with "persistence". rewrite Hb.
    cbn. cbn in Hpanic. rewrite Hpanic. done.
  - intros out Hout. apply GenerateManifest_Ok in Hout
      as (_ & _ & ig & props & jobs & g & _ & Hprops & _).
    by apply Hno in Hprops.
Qed.

(** ** The conversion of the tuning parameter *)

Lemma float64_trunc_finite (sign : bool) (m : positive) (e : Z) :
  float64_trunc (S754_finite sign m e) =
  Some ((if sign then -1 else 1)
        * (if decide (0 ≤ e) then Z.pos m * 2 ^ e else Z.pos m `div` 2 ^ (- e)))%Z.
Proof.
  cbn. f_equal. case_decide.
  - rewrite Z.shiftl_mul_pow2 by done. destruct sign; lia.
  - rewrite Z.shiftl_div_pow2 by lia. destruct sign; lia.
Qed.

(** A finite [float64] whose integer part is an [int] is converted to
    that integer part. *)
Lemma int_of_float64_representable f z :
  float64_trunc f = Some z -> (MinInt ≤ z ≤ MaxInt)%Z -> int_of_float64 f = z.
Proof.
  intros Hf Hz. unfold adapter.int_of_float64. rewrite Hf.
  by rewrite bool_decide_eq_true_2.
Qed.

End Generator.

(** ** Regular expressions *)

Lemma append_cons c (s t : string) : String c s +:+ t = String c (s +:+ t).
Proof. reflexivity. Qed.

Lemma append_nil (t : string) : EmptyString +:+ t = t.
Proof. reflexivity. Qed.

Lemma take_drop_class p s : take_class p s +:+ drop_class p s = s.
Proof.
  induction s as [|c s IH]; [done|]. cbn. destruct (p c); [|done].
  by rewrite append_cons, IH.
Qed.

Lemma length_take_drop_class p s :
  (String.length (drop_class p s) + String.length (take_class p s))%nat
  = String.length s.
Proof.
  induction s as [|c s IH]; [done|]. cbn. destruct (p c); cbn; lia.
Qed.

Lemma substring_prefix (u v : string) :
  substring 0 (String.length u) (u +:+ v) = u.
Proof.
  induction u as [|c u IH]; [by destruct v|].
  rewrite append_cons. cbn. by rewrite IH.
Qed.

Lemma consumed_take_drop p s : consumed s (drop_class p s) = take_class p s.
Proof.
  unfold consumed. rewrite <- (length_take_drop_class p s) at 1.
  replace (String.length (drop_class p s) + String.length (take_class p s)
           - String.length (drop_class p s))%nat
    with (String.length (take_class p s)) by lia.
  rewrite <- (take_drop_class p s) at 2. apply substring_prefix.
Qed.

Lemma consumed_all s : consumed s EmptyString = s.
Proof.
  unfold consumed. cbn. rewrite Nat.sub_0_r.
  induction s as [|c s IH]; cbn; [done|by f_equal].
Qed.

(** A greedy repetition followed by something that cannot start in the
    class: only the longest repetition is followed up. *)
Lemma many1_bind {B} p s (h : string -> list B) :
  (forall c s', p c = true -> h (String c s') = []) ->
  many1 p s ≫= h
  = if decide (take_class p s = EmptyString) then [] else h (drop_class p s).
Proof.
  intros Hh. induction s as [|c s IH]; [done|]. cbn [many1 take_class drop_class].
  destruct (p c) eqn:Hc; [|done].
  rewrite bind_app, IH. cbn. rewrite app_nil_r.
  case_decide as Htake; [|case_decide; [done|]].
  - assert (drop_class p s = s) as ->.
    { destruct s as [|c' s]; [done|]. cbn in *. by destruct (p c'). }
    by case_decide.
  - destruct s as [|c' s]; [done|]. cbn in Htake |- *.
    destruct (p c') eqn:Hc'; [|done]. by rewrite Hh, app_nil_r.
Qed.

Lemma exec_credhubRefRegexp s caps :
  exec credhubRefRegexp s caps =
  match s with
  | String c1 (String c2 t) =>
      if decide (c1 = "("%char /\ c2 = "("%char
                 /\ take_class not_paren t ≠ EmptyString
                 /\ drop_class not_paren t = "))")
      then [(EmptyString, <[1%nat := take_class not_paren t]> caps)] else []
  | _ => []
  end.
Proof.
  destruct s as [|c1 [|c2 t]]; cbn; [done|by destruct (Ascii.eqb c1 "(")|].
  destruct (Ascii.eqb_spec c1 "(") as [->|Hc1]; cbn;
    [|by case_decide as Hd; [destruct Hd|]].
  destruct (Ascii.eqb_spec c2 "(") as [->|Hc2]; cbn;
    [|by case_decide as Hd; [destruct Hd as (_ & ? & _)|]].
  rewrite !app_nil_r, !list_fmap_bind, (many1_bind not_paren t).
  - unfold compose. cbn [fst snd]. rewrite consumed_take_drop.
    case_decide as Htake.
    { by case_decide as Hd; [destruct Hd as (_ & _ & ? & _)|]. }
    destruct (drop_class not_paren t) as [|d1 [|d2 [|d3 r]]] eqn:Hdrop; cbn.
    + by case_decide as Hd; [destruct Hd as (_ & _ & _ & ?)|].
    + destruct (Ascii.eqb d1 ")"); by case_decide as Hd; [destruct Hd as (_ & _ & _ & ?)|].
    + destruct (Ascii.eqb_spec d1 ")") as [->|]; cbn.
      * destruct (Ascii.eqb_spec d2 ")") as [->|]; cbn.
        -- by case_decide as Hd; [|destruct Hd].
        -- case_decide as Hd; [destruct Hd as (_ & _ & _ & ?); congruence|done].
      * case_decide as Hd; [destruct Hd as (_ & _ & _ & ?); congruence|done].
    + destruct (Ascii.eqb d1 ")"); cbn;
        [destruct (Ascii.eqb d2 ")"); cbn|];
        by case_decide as Hd; [destruct Hd as (_ & _ & _ & ?)|].
  - intros c s' Hc. unfold compose. cbn.
    destruct (Ascii.eqb_spec c ")") as [->|]; [discriminate|done].
Qed.

Lemma not_paren_spec c : not_paren c = true <-> c <> "("%char /\ c <> ")"%char.
Proof.
  unfold not_paren.
  destruct (Ascii.eqb_spec c "("), (Ascii.eqb_spec c ")"); cbn;
    intuition congruence.
Qed.

Lemma take_class_Forall p s :
  Forall (fun c => p c = true) (list_ascii_of_string (take_class p s)).
Proof.
  induction s as [|c s IH]; cbn; [constructor|].
  destruct (p c) eqn:Hc; cbn; by constructor.
Qed.

Lemma take_drop_class_app p (u v : string) :
  Forall (fun c => p c = true) (list_ascii_of_string u) ->
  (forall c v', v = String c v' -> p c = false) ->
  take_class p (u +:+ v) = u /\ drop_class p (u +:+ v) = v.
Proof.
  intros Hu Hv. induction u as [|c u IH].
  - rewrite append_nil. destruct v as [|c v']; [done|].
    cbn. by rewrite (Hv c v').
  - cbn in Hu. apply Forall_cons in Hu as [Hc Hu].
    rewrite append_cons. cbn. rewrite Hc. destruct (IH Hu) as [-> ->]. done.
Qed.

(** The references that the expression matches, in the words of the
    specification. *)
Lemma credhub_ref_class ref name :
  credhub_ref ref name <->
  exists t, ref = String "(" (String "(" t)
    /\ take_class not_paren t = name /\ name <> EmptyString
    /\ drop_class not_paren t = "))".
Proof.
  unfold credhub_ref. split.
  - intros (-> & Hne & Hall). exists (name +:+ "))").
    destruct (take_drop_class_app not_paren name "))") as [Ht Hd].
    + eapply Forall_impl; [exact Hall|]. intros c Hc. by apply not_paren_spec.
    + by intros c v' [= <- <-].
    + done.
  - intros (t & -> & <- & Hne & Hd). split; [|split; [done|]].
    + rewrite <- (take_drop_class not_paren t) at 1. by rewrite Hd.
    + eapply Forall_impl; [apply take_class_Forall|].
      intros c Hc. by apply not_paren_spec.
Qed.

Lemma FindAllStringSubmatch_credhubRef ref :
  FindAllStringSubmatch 1 credhubRefRegexp ref =
  match ref with
  | String c1 (String c2 t) =>
      if decide (c1 = "("%char /\ c2 = "("%char
                 /\ take_class not_paren t ≠ EmptyString
                 /\ drop_class not_paren t = "))")
      then [[ref; take_class not_paren t]] else []
  | _ => []
  end.
Proof.
  unfold FindAllStringSubmatch, FindStringSubmatch.
  rewrite exec_credhubRefRegexp.
  destruct ref as [|c1 [|c2 t]]; [done..|].
  case_decide; [|done]. by rewrite consumed_all.
Qed.

(** A reference is matched, with its name as the one submatch. *)
Lemma credhubRef_match ref name :
  credhub_ref ref name ->
  FindAllStringSubmatch 1 credhubRefRegexp ref = [[ref; name]].
Proof.
  intros (t & -> & <- & Hne & Hd)%credhub_ref_class.
  rewrite FindAllStringSubmatch_credhubRef. by case_decide as H; [|destruct H].
Qed.

(** Nothing else is matched. *)
Lemma credhubRef_no_match ref :
  (forall name, ~ credhub_ref ref name) ->
  FindAllStringSubmatch 1 credhubRefRegexp ref = [].
Proof.
  intros Hno. rewrite FindAllStringSubmatch_credhubRef.
  destruct ref as [|c1 [|c2 t]]; [done..|].
  case_decide as H; [|done]. destruct H as (-> & -> & Hne & Hd).
  destruct (Hno (take_class not_paren t)). apply credhub_ref_class. eauto.
Qed.

(** ** The binder *)

Lemma logged_bind {A B} (m : M A) (k : A -> M B) :
  logged (m ≫= k) =
  logged m ++ match result m with Ok a => logged (k a) | _ => [] end.
Proof. unfold mbind, M_bind. destruct (result m); cbn; by rewrite ?app_nil_r. Qed.

Lemma getRedisHost_no_Panic deploymentTopology p :
  getRedisHost deploymentTopology <> Panic p.
Proof.
  unfold getRedisHost. repeat case_decide; try done.
  destruct (deploymentTopology !!! "redis-server"); done.
Qed.

Lemma getRedisHost_Ok deploymentTopology host :
  getRedisHost deploymentTopology = Ok host <->
  size deploymentTopology = 1%nat /\ deploymentTopology !!! "redis-server" = [host].
Proof.
  unfold getRedisHost. split.
  - repeat case_decide; try done.
    destruct (deploymentTopology !!! "redis-server") as [|ip [|ip' l]]; try done.
    by intros [= ->].
  - intros [Hsize ->]. by repeat case_decide.
Qed.

(** The outcome of [CreateBinding] once the host is resolved. *)
Lemma CreateBinding_result bindingID deploymentTopology manifest requestParams secrets :
  result (CreateBinding bindingID deploymentTopology manifest requestParams secrets) =
  match getRedisHost deploymentTopology with
  | Panic p => Panic p
  | Err _ => Err EmptyString
  | Ok redisHost =>
      generatedSecret ←
        match secrets with
        | Some _ =>
            match secrets_lookup secrets "secret_pass" with
            | Some generatedSecret => Ok generatedSecret
            | None =>
                Err "manifest wasn't correctly interpolated: missing value for `secret_pass`"
            end
        | None => Ok EmptyString
        end;
      props ← redisPlanProperties manifest;
      secretFromConfigStore ←
        (if negb (is_nil (props !!! "secret"))
         then
           match props !!! "secret" with
           | VString pathWithParens =>
               match FindAllStringSubmatch 1 credhubRefRegexp pathWithParens with
               | [[_; path]] =>
                   match secrets_lookup secrets path with
                   | Some secretFromConfigStore => Ok secretFromConfigStore
                   | None =>
                       Err ("secret '" +:+ path
                            +:+ "' not present in manifest secrets passed to bind")
                   end
               | _ =>
                   Err ("expecting a credhub ref string with format ((xxx)), but got: "
                        +:+ pathWithParens)
               end
           | _ => Err "secret in manifest was not a string. expecting a credhub ref string"
           end
         else Ok EmptyString);
      password ← assert_string (props !!! "password");
      Ok {| Binding.Credentials :=
              {[ "host" := VString redisHost;
                 "port" := VInt RedisServerPort;
                 "generated_secret" := VString generatedSecret;
                 "password" := VString password;
                 "secret" := VString secretFromConfigStore ]} |}
  end.
Proof.
  unfold CreateBinding. rewrite result_bind.
  replace (result (if decide _ then _ else _)) with (Ok tt : outcome unit)
    by by case_decide.
  destruct (getRedisHost deploymentTopology) as [host|e|p]; [|done..].
  assert (Hrest : forall (g : string) (props : gmap string value),
    result (
      secretFromConfigStore ←
        (if negb (is_nil (props !!! "secret"))
         then
           match props !!! "secret" return M string with
           | VString pathWithParens =>
               let match_ := FindAllStringSubmatch 1 credhubRefRegexp pathWithParens in
               if decide (length match_ ≠ 1%nat
                          ∨ length (match_ !!! 0%nat) ≠ 2%nat)
               then log_and_return
                      ("expecting a credhub ref string with format ((xxx)), but got: "
                       +:+ pathWithParens)
               else
                 let path := (match_ !!! 0%nat) !!! 1%nat in
                 match secrets_lookup secrets path return M string with
                 | Some secretFromConfigStore => mret secretFromConfigStore
                 | None =>
                     log_and_return
                       ("secret '" +:+ path
                        +:+ "' not present in manifest secrets passed to bind")
                 end
           | _ =>
               log_and_return
                 "secret in manifest was not a string. expecting a credhub ref string"
           end
         else mret EmptyString);
      password ← lift (assert_string (props !!! "password"));
      mret {| Binding.Credentials :=
                {[ "host" := VString host;
                   "port" := VInt RedisServerPort;
                   "generated_secret" := VString g;
                   "password" := VString password;
                   "secret" := VString secretFromConfigStore ]} |})
    = (secretFromConfigStore ←
        (if negb (is_nil (props !!! "secret"))
         then
           match props !!! "secret" with
           | VString pathWithParens =>
               match FindAllStringSubmatch 1 credhubRefRegexp pathWithParens with
               | [[_; path]] =>
                   match secrets_lookup secrets path with
                   | Some secretFromConfigStore => Ok secretFromConfigStore
                   | None =>
                       Err ("secret '" +:+ path
                            +:+ "' not present in manifest secrets passed to bind")
                   end
               | _ =>
                   Err ("expecting a credhub ref string with format ((xxx)), but got: "
                        +:+ pathWithParens)
               end
           | _ => Err "secret in manifest was not a string. expecting a credhub ref string"
           end
         else Ok EmptyString);
      password ← assert_string (props !!! "password");
      Ok {| Binding.Credentials :=
              {[ "host" := VString host;
                 "port" := VInt RedisServerPort;
                 "generated_secret" := VString g;
                 "password" := VString password;
                 "secret" := VString secretFromConfigStore ]} |})).
  { intros g props. rewrite result_bind.
    destruct (is_nil (props !!! "secret")); cbn [negb].
    - cbn [result mret M_ret mbind outcome_bind].
      rewrite result_bind, result_lift. by destruct (assert_string _).
    - destruct (props !!! "secret"); try reflexivity.
      rewrite FindAllStringSubmatch_credhubRef.
      destruct s as [|c1 [|c2 t]]; try reflexivity.
      destruct (decide (c1 = "("%char /\ _)) as [Hd|Hd]; [|reflexivity].
      case_decide as Hl; [by destruct Hl|].
      change (([[String c1 (String c2 t); take_class not_paren t]] !!! 0%nat) !!! 1%nat)
        with (take_class not_paren t).
      destruct (secrets_lookup secrets (take_class not_paren t)); [|reflexivity].
      cbn [result mret M_ret mbind outcome_bind].
      rewrite result_bind, result_lift. by destruct (assert_string _). }
  rewrite result_bind.
  destruct secrets as [m|].
  - destruct (secrets_lookup (Some m) "secret_pass") as [g|]; [|reflexivity].
    cbn [result mret M_ret mbind outcome_bind].
    rewrite result_bind, result_lift.
    destruct (redisPlanProperties manifest) as [props| |]; [|reflexivity..].
    apply Hrest.
  - cbn [result mret M_ret mbind outcome_bind].
    rewrite result_bind, result_lift.
    destruct (redisPlanProperties manifest) as [props| |]; [|reflexivity..].
    apply Hrest.
Qed.

Lemma CreateBinding_host_error bindingID deploymentTopology manifest requestParams
    secrets e :
  getRedisHost deploymentTopology = Err e ->
  let binding :=
    CreateBinding bindingID deploymentTopology manifest requestParams secrets in
  result binding = Err EmptyString /\ last (logged binding) = Some e.
Proof.
  intros He binding. split.
  - subst binding. by rewrite CreateBinding_result, He.
  - subst binding. unfold CreateBinding. rewrite logged_bind.
    replace (result (if decide _ then _ else _)) with (Ok tt : outcome unit)
      by by case_decide.
    rewrite He. change (logged (Println e;; lift (Err EmptyString))) with [e].
    apply last_snoc.
Qed.

(** C8, as the code has it. When the topology does not have exactly one
    instance group, or has one and the addresses under redis-server are
    not exactly one, [CreateBinding] fails: the error returned to the
    caller has the empty message, and the last line written to the logger
    names the count, with one wording for the count of instance groups
    and another for the count of instances. A topology whose one group
    does not have exactly one address is such a case. *)
Theorem topology_cardinality_logged bindingID (deploymentTopology : BoshVMs)
    manifest requestParams secrets :
  let binding :=
    CreateBinding bindingID deploymentTopology manifest requestParams secrets in
  let groups := size deploymentTopology in
  let instances := length (deploymentTopology !!! "redis-server") in
  let wrong_groups (n : nat) :=
    "expected 1 instance group in the Redis deployment, got " +:+ pretty n in
  let wrong_instances (n : nat) :=
    "expected redis-server instance group to have only 1 instance, got "
    +:+ pretty n in
  (groups <> 1%nat ->
     result binding = Err EmptyString
     /\ last (logged binding) = Some (wrong_groups groups))
  /\ (groups = 1%nat -> instances <> 1%nat ->
      result binding = Err EmptyString
      /\ last (logged binding) = Some (wrong_instances instances))
  /\ (forall group addresses,
        deploymentTopology = {[ group := addresses ]} ->
        length addresses <> 1%nat ->
        result binding = Err EmptyString)
  /\ (forall n m, wrong_groups n <> wrong_instances m)
  /\ (forall n m, wrong_groups n = wrong_groups m -> n = m)
  /\ (forall n m, wrong_instances n = wrong_instances m -> n = m).
Proof.
  intros binding groups instances wrong_groups wrong_instances.
  assert (Hg : groups <> 1%nat -> getRedisHost deploymentTopology
                                 = Err (wrong_groups groups)).
  { intros Hne. unfold getRedisHost. by case_decide. }
  assert (Hi : groups = 1%nat -> instances <> 1%nat ->
               getRedisHost deploymentTopology = Err (wrong_instances instances)).
  { intros Heq Hne. unfold getRedisHost. by repeat case_decide. }
  split; [|split; [|split; [|split; [|split]]]].
  - intros Hne. by apply CreateBinding_host_error, Hg.
  - intros Heq Hne. by apply CreateBinding_host_error, Hi.
  - intros group addresses Htopo Hlen.
    assert (groups = 1%nat) as Heq by (subst groups; rewrite Htopo; apply map_size_singleton).
    apply (CreateBinding_host_error _ _ _ _ _ (wrong_instances instances)), Hi; [done|].
    subst instances. rewrite Htopo.
    destruct (decide (group = "redis-server")) as [->|Hne].
    + by rewrite lookup_total_singleton.
    + by rewrite lookup_total_singleton_ne.
  - intros n m. subst wrong_groups wrong_instances. cbv beta. discriminate.
  - intros n m H. subst wrong_groups. cbv beta in H.
    by apply (inj (String.app _)), (inj pretty) in H.
  - intros n m H. subst wrong_instances. cbv beta in H.
    by apply (inj (String.app _)), (inj pretty) in H.
Qed.

(** C9, amended. Let the properties of the server in the manifest
    declare a secret that is not nil. [CreateBinding] fails unless the
    secret is a string that is a name wrapped in double parentheses. When
    it is, the name is looked up in the secrets: when it is absent the
    call fails, with an error that names it once the host is resolved and
    the generated secret read; when it is present, the credentials that
    the call returns carry the value found as their secret, and the call
    returns credentials once the host is resolved, the generated secret
    read and the stored password a string. When the name is present and
    secret_pass is not, the call fails with the interpolation error, once
    the host is resolved. *)
Theorem credhub_reference_resolved bindingID deploymentTopology manifest
    requestParams (secrets : ManifestSecrets) props v :
  redisPlanProperties manifest = Ok props ->
  props !! "secret" = Some v ->
  v <> VNil ->
  let binding :=
    result (CreateBinding bindingID deploymentTopology manifest requestParams
              secrets) in
  ((forall ref name, v = VString ref -> ~ credhub_ref ref name) ->
     exists e, binding = Err e)
  /\ (forall ref name, v = VString ref -> credhub_ref ref name ->
        (secrets_lookup secrets name = None ->
           exists e, binding = Err e
             /\ (forall host, getRedisHost deploymentTopology = Ok host ->
                   secrets = None \/ is_Some (secrets_lookup secrets "secret_pass") ->
                   e = "secret '" +:+ name
                       +:+ "' not present in manifest secrets passed to bind"))
        /\ (forall x, secrets_lookup secrets name = Some x ->
              (forall b, binding = Ok b ->
                 Binding.Credentials b !! "secret" = Some (VString x))
              /\ (forall host g p,
                    getRedisHost deploymentTopology = Ok host ->
                    secrets_lookup secrets "secret_pass" = Some g ->
                    props !! "password" = Some (VString p) ->
                    binding =
                    Ok {| Binding.Credentials :=
                            {[ "host" := VString host;
                               "port" := VInt RedisServerPort;
                               "generated_secret" := VString g;
                               "password" := VString p;
                               "secret" := VString x ]} |})
              /\ (forall host,
                    getRedisHost deploymentTopology = Ok host ->
                    secrets_lookup secrets "secret_pass" = None ->
                    binding =
                    Err "manifest wasn't correctly interpolated: missing value for `secret_pass`"))).
Proof.
  intros Hprops Hsecret Hnil binding. subst binding.
  rewrite CreateBinding_result, Hprops.
  assert (Hv : props !!! "secret" = v).
  { unfold lookup_total, map_lookup_total. by rewrite Hsecret. }
  cbn [mbind outcome_bind]. rewrite Hv.
  assert (negb (is_nil v) = true) as -> by by destruct v.
  pose proof (getRedisHost_no_Panic deploymentTopology) as Hnp.
  split.
  - intros Hno.
    destruct (getRedisHost deploymentTopology) as [host|e|p];
      [|eauto|by destruct (Hnp p)].
    assert (Hfail : forall g : string, exists e,
      match v with
      | VString pathWithParens =>
          match FindAllStringSubmatch 1 credhubRefRegexp pathWithParens with
          | [[_; path]] =>
              match secrets_lookup secrets path with
              | Some secretFromConfigStore => Ok secretFromConfigStore
              | None =>
                  Err ("secret '" +:+ path
                       +:+ "' not present in manifest secrets passed to bind")
              end
          | _ =>
              Err ("expecting a credhub ref string with format ((xxx)), but got: "
                   +:+ pathWithParens)
          end
      | _ => Err "secret in manifest was not a string. expecting a credhub ref string"
      end
      ≫= (fun secretFromConfigStore : string =>
            assert_string (props !!! "password")
            ≫= fun password : string =>
                 Ok {| Binding.Credentials :=
                         {[ "host" := VString host;
                            "port" := VInt RedisServerPort;
                            "generated_secret" := VString g;
                            "password" := VString password;
                            "secret" := VString secretFromConfigStore ]} |})
      = Err e).
    { intros g. destruct v; cbn; eauto.
      rewrite credhubRef_no_match; cbn; eauto. }
    destruct secrets as [m|];
      [destruct (secrets_lookup (Some m) "secret_pass")|]; cbn; eauto.
  - intros ref name -> Href. rewrite (credhubRef_match ref name Href). split.
    + intros Habs. rewrite Habs.
      destruct (getRedisHost deploymentTopology) as [host|e|p];
        [|eexists; split; [done|by intros]|by destruct (Hnp p)].
      destruct secrets as [m|].
      * destruct (secrets_lookup (Some m) "secret_pass") as [g|] eqn:Hg.
        -- cbn. eexists. split; [done|]. by intros.
        -- cbn. eexists. split; [done|]. intros ? _ [|[]]; done.
      * cbn. eexists. split; [done|]. by intros.
    + intros x Hx. rewrite Hx. split; [|split].
      * intros b.
        destruct (getRedisHost deploymentTopology) as [host|e|p]; [|done..].
        destruct (match secrets with Some _ => _ | None => _ end); cbn; [|done..].
        destruct (assert_string _); cbn; [|done..]. by intros [= <-].
      * intros host g p -> Hg Hp.
        destruct secrets as [m|]; [|done]. rewrite Hg.
        unfold lookup_total, map_lookup_total. by rewrite Hp.
      * intros host -> Hg.
        destruct secrets as [m|]; [|done]. by rewrite Hg.
Qed.

(** C10. Without a secrets bundle the credentials that [CreateBinding]
    returns carry the empty string as the generated secret, and the call
    returns credentials when no secret is declared, the host is resolved
    and the stored password is a string. With a bundle that lacks
    secret_pass, the empty bundle among them, the call fails, with the
    interpolation error once the host is resolved. *)
Theorem secrets_bundle_absent_or_incomplete bindingID deploymentTopology manifest
    requestParams :
  let binding secrets :=
    result (CreateBinding bindingID deploymentTopology manifest requestParams
              secrets) in
  (forall b, binding None = Ok b ->
     Binding.Credentials b !! "generated_secret" = Some (VString EmptyString))
  /\ (forall host props p,
        getRedisHost deploymentTopology = Ok host ->
        redisPlanProperties manifest = Ok props ->
        props !! "secret" = None ->
        props !! "password" = Some (VString p) ->
        binding None =
        Ok {| Binding.Credentials :=
                {[ "host" := VString host;
                   "port" := VInt RedisServerPort;
                   "generated_secret" := VString EmptyString;
                   "password" := VString p;
                   "secret" := VString EmptyString ]} |})
  /\ (forall m : gmap string string, m !! "secret_pass" = None ->
        exists e, binding (Some m) = Err e
          /\ (forall host, getRedisHost deploymentTopology = Ok host ->
                e = "manifest wasn't correctly interpolated: missing value for `secret_pass`")).
Proof.
  intros binding. subst binding. cbv beta.
  pose proof (getRedisHost_no_Panic deploymentTopology) as Hnp.
  split; [|split].
  - intros b. rewrite CreateBinding_result.
    destruct (getRedisHost deploymentTopology) as [host|e|p]; [|done..].
    cbn [mbind outcome_bind].
    destruct (redisPlanProperties manifest) as [props| |]; cbn; [|done..].
    destruct (if negb _ then _ else _); cbn; [|done..].
    destruct (assert_string _); cbn; [|done..]. by intros [= <-].
  - intros host props p Hhost Hprops Hsecret Hp.
    rewrite CreateBinding_result, Hhost, Hprops. cbn [mbind outcome_bind].
    unfold lookup_total, map_lookup_total. rewrite Hsecret, Hp. done.
  - intros m Hm. rewrite CreateBinding_result.
    destruct (getRedisHost deploymentTopology) as [host|e|p];
      [|eexists; split; [done|by intros]|by destruct (Hnp p)].
    unfold secrets_lookup. cbn [mbind option_bind]. rewrite Hm.
    eexists. split; [done|]. by intros.
Qed.

(** * Worked examples *)

Import Sample.

(** ** Version strings *)

Example parse_major_minor : parseReleaseVersion "2.10" = Ok (2, 10, 0)%Z.
Proof. vm_compute. reflexivity. Qed.

Example parse_dev : parseReleaseVersion "12.3+dev.4" = Ok (12, 3, 4)%Z.
Proof. vm_compute. reflexivity. Qed.

Example parse_major_dev : parseReleaseVersion "7+dev.1" = Ok (7, 0, 1)%Z.
Proof. vm_compute. reflexivity. Qed.

Example parse_trailing_dot :
  parseReleaseVersion "2." = Err "2. is not a valid BOSH release version".
Proof. vm_compute. reflexivity. Qed.

Example parse_out_of_range :
  parseReleaseVersion "9223372036854775808"
  = Err (NumError "9223372036854775808" "value out of range").
Proof. vm_compute. reflexivity. Qed.

(** From 2.5 to 2.4 is refused, from 2.5 to 2.10 is not. *)
Example downgrade_2_5_to_2_4 :
  result (generate [] (deployment "2.4") plan (request ∅)
            (Some (manifest "2.5" stored)) None)
  = Err "error generating manifest: new release version 2.4 is lower than existing release version 2.5".
Proof. vm_compute. reflexivity. Qed.

Example upgrade_2_5_to_2_10 :
  result (generate [] (deployment "2.10") plan (request ∅)
            (Some (manifest "2.5" stored)) None)
  = Ok (manifest "2.10" stored).
Proof. vm_compute. reflexivity. Qed.

(** ** The password *)

Lemma password_carried_or_generated_witness :
  exists out,
    result (generate [] (deployment "2.10") plan (request {[ "maxclients" := VFloat (S754_finite false 5 (-1)) ]})
              (Some (manifest "2.5" stored)) None) = Ok out
    /\ exists password outProps,
         redisPlanProperties out = Ok outProps
         /\ outProps !! "password" = Some (VString password)
         /\ exists previousProps,
              redisPlanProperties (manifest "2.5" stored) = Ok previousProps
              /\ previousProps !! "password" = Some (VString password).
Proof.
  assert (H : exists out,
    result (generate [] (deployment "2.10") plan (request {[ "maxclients" := VFloat (S754_finite false 5 (-1)) ]})
              (Some (manifest "2.5" stored)) None) = Ok out)
    by (eexists; vm_compute; reflexivity).
  destruct H as [out H]. exists out. split; [exact H|].
  exact (password_carried_or_generated generator unrepresentable _ _ _ _ _ _ _ H).
Defined.

Example password_generated_on_create :
  exists out,
    result (generate [] (deployment "2.10") plan (request ∅) None None) = Ok out
    /\ redisPlanProperties out
       = Ok {[ "persistence" := VString "yes";
               "password" := VString "generated-password";
               "maxclients" := VInt 10000 ]}.
Proof. eexists. split; vm_compute; reflexivity. Qed.

(** ** The upgrade path *)


Lemma validUpgradePath_latest_witness :
  validUpgradePath (manifest "not a version" stored) [release "latest"] = Ok tt.
Proof.
  apply (validUpgradePath_latest (manifest "not a version" stored)
           [release "latest"] (release "latest")
           {| Release.Name := "redis-release"; Release.Version := "not a version" |});
    [vm_compute; reflexivity | vm_compute; reflexivity | left; reflexivity].
Defined.

Example latest_to_version :
  validUpgradePath (manifest "latest" stored) [release "1"] = Ok tt.
Proof. vm_compute. reflexivity. Qed.

(** ** The arbitrary parameters *)

(** C4 fails: the order of the keys in the error is the order of the
    visit, and both orders are visits of the same parameters. *)
Lemma unsupported_parameters_order_unstable :
  range_order two_unknown ["a"; "b"]
  /\ range_order two_unknown ["b"; "a"]
  /\ result (generate ["a"; "b"] (deployment "1") plan (request two_unknown) None None)
     = Err "unsupported parameter(s) for this service plan: a, b"
  /\ result (generate ["b"; "a"] (deployment "1") plan (request two_unknown) None None)
     = Err "unsupported parameter(s) for this service plan: b, a".
Proof.
  unfold range_order. repeat split; try (vm_compute; reflexivity).
  all: vm_compute; first [reflexivity | apply perm_swap].
Qed.

Lemma unsupported_parameters_named_witness :
  generate ["b"; "a"] (deployment "1") plan (request two_unknown) None None
  = Run [] (Err "unsupported parameter(s) for this service plan: b, a").
Proof.
  assert (Hks : range_order two_unknown ["b"; "a"]).
  { unfold range_order. vm_compute. first [reflexivity | apply perm_swap]. }
  assert (Hk : exists k, k ∈ dom two_unknown /\ k ≠ "maxclients").
  { exists "a". split; [|discriminate]. apply elem_of_dom. vm_compute. eauto. }
  pose proof (unsupported_parameters_named generator unrepresentable ["b"; "a"]
                (deployment "1") plan (request two_unknown) None None) as H.
  cbv zeta in H. destruct (H Hks) as [Hfail _]. destruct (Hfail Hk) as [Hgen _].
  exact Hgen.
Defined.

(** ** The stored password *)

(** C7 fails: no error is returned, the call panics. *)
Lemma stored_password_missing_panics :
  redisServerProperties generator unrepresentable "redis-1" (Plan.Properties plan) ∅
    (Some (manifest "2.5" stored_without_password))
  = Run [] (Panic InterfaceConversion)
  /\ redisServerProperties generator unrepresentable "redis-1" (Plan.Properties plan) ∅
       (Some (manifest "2.5" stored_with_numeric_password))
     = Run [] (Panic InterfaceConversion)
  /\ generate [] (deployment "2.10") plan (request ∅)
       (Some (manifest "2.5" stored_without_password)) None
     = Run [] (Panic InterfaceConversion).
Proof. repeat split; vm_compute; reflexivity. Qed.

Lemma stored_password_not_string_panics_witness :
  redisServerProperties generator unrepresentable "redis-1" (Plan.Properties plan) ∅
    (Some (manifest "2.5" stored_with_numeric_password))
  = Run [] (Panic InterfaceConversion).
Proof.
  apply (stored_password_not_string_panics generator unrepresentable []
           (deployment "2.10") plan (request ∅)
           (manifest "2.5" stored_with_numeric_password) None
           stored_with_numeric_password) with (b := true).
  - vm_compute. reflexivity.
  - intros s. vm_compute. discriminate.
  - vm_compute. reflexivity.
Defined.

(** ** The tuning parameter *)

Lemma maxclients_precedence_witness :
  exists out,
    result (generate ["maxclients"] (deployment "2.10") plan
              (request {[ "maxclients" := VFloat (S754_finite false 5 (-1)) ]})
              (Some (manifest "2.5" stored)) None) = Ok out
    /\ exists maxClients outProps,
         redisPlanProperties out = Ok outProps
         /\ outProps !! "maxclients" = Some (VInt maxClients)
         /\ exists f, VFloat (S754_finite false 5 (-1)) = VFloat f
              /\ maxClients = int_of_float64 unrepresentable f.
Proof.
  assert (H : exists out,
    result (generate ["maxclients"] (deployment "2.10") plan
              (request {[ "maxclients" := VFloat (S754_finite false 5 (-1)) ]})
              (Some (manifest "2.5" stored)) None) = Ok out)
    by (eexists; vm_compute; reflexivity).
  destruct H as [out H]. exists out. split; [exact H|].
  exact (maxclients_precedence generator unrepresentable _ _ _ _ _ _ _ H).
Defined.

(** 2.5 is converted to 2, -2.5 to -2, and 2^70 is left to the platform. *)
Example int_of_two_and_a_half :
  int_of_float64 unrepresentable (S754_finite false 5 (-1)) = 2%Z
  /\ int_of_float64 unrepresentable (S754_finite true 5 (-1)) = (-2)%Z
  /\ int_of_float64 unrepresentable (S754_finite false 1 70)
     = unrepresentable (S754_finite false 1 70).
Proof. repeat split; vm_compute; reflexivity. Qed.

Example maxclients_from_request :
  (redisPlanProperties <$>
     result (generate ["maxclients"] (deployment "2.10") plan
               (request {[ "maxclients" := VFloat (S754_finite false 625 2) ]})
               (Some (manifest "2.5" stored)) None))
  = Ok (Ok {[ "persistence" := VString "yes"; "password" := VString "s3cret";
              "maxclients" := VInt 2500 ]}).
Proof. vm_compute. reflexivity. Qed.

Example maxclients_from_previous :
  (redisPlanProperties <$>
     result (generate [] (deployment "2.10") plan (request ∅)
               (Some (manifest "2.5" stored)) None))
  = Ok (Ok stored).
Proof. vm_compute. reflexivity. Qed.

(** ** The release of the job *)

Lemma release_for_job_resolved_witness :
  findReleaseForJob "redis-server" [release "1"; other_release]
  = Err "job redis-server defined in multiple releases: redis-release, redis-fork".
Proof.
  destruct (release_for_job_resolved generator unrepresentable "redis-server"
              [release "1"; other_release]) as (_ & Hmany & _).
  rewrite Hmany; [vm_compute; reflexivity | vm_compute; lia].
Defined.

Example no_release_for_job :
  findReleaseForJob "redis-server"
    [ {| ServiceRelease.Name := "broker-release"; ServiceRelease.Version := "1";
         ServiceRelease.Jobs := ["broker"] |} ]
  = Err "no release provided for job redis-server".
Proof. vm_compute. reflexivity. Qed.

(** C6, at a list of one release that names the job twice. One release
    provides the server job, and the claim has it returned and the job
    bound to it. [findReleaseForJob] takes the two listings for two
    matches: it fails with the error for several releases, which names
    the one release twice, and so do [gatherJobs] and
    [GenerateManifest]. *)
Theorem release_listing_job_twice_refused :
  filter (fun r => RedisServerJobName ∈ ServiceRelease.Jobs r)
    (ServiceDeployment.Releases Cases.twice_deployment)
  = [Cases.twice_release]
  /\ findReleaseForJob RedisServerJobName
       (ServiceDeployment.Releases Cases.twice_deployment)
     = Err "job redis-server defined in multiple releases: redis-release, redis-release"
  /\ gatherJobs (ServiceDeployment.Releases Cases.twice_deployment)
     = Err "job redis-server defined in multiple releases: redis-release, redis-release"
  /\ generate [] Cases.twice_deployment plan (request ∅) None None
     = Run [] (Err "job redis-server defined in multiple releases: redis-release, redis-release").
Proof. repeat split; vm_compute; reflexivity. Qed.

(** A release that names the job twice is two matches. *)
Example job_listed_twice :
  findReleaseForJob "redis-server"
    [ {| ServiceRelease.Name := "redis-release"; ServiceRelease.Version := "1";
         ServiceRelease.Jobs := ["redis-server"; "redis-server"] |} ]
  = Err "job redis-server defined in multiple releases: redis-release, redis-release".
Proof. vm_compute. reflexivity. Qed.

(** ** Bindings *)

(** C8 fails: whatever the cardinality, the caller gets the same error,
    whose message is empty. *)
Lemma topology_error_not_surfaced :
  result (bind_to two_groups stored None) = Err EmptyString
  /\ result (bind_to no_host stored None) = Err EmptyString
  /\ result (bind_to two_hosts stored None) = Err EmptyString.
Proof. repeat split; vm_compute; reflexivity. Qed.

Lemma topology_cardinality_logged_witness :
  result (bind_to two_groups stored None) = Err EmptyString
  /\ last (logged (bind_to two_groups stored None))
     = Some "expected 1 instance group in the Redis deployment, got 2".
Proof.
  destruct (topology_cardinality_logged "binding-1" two_groups
              (manifest "2.5" stored) (request ∅) None) as (Hgroups & _).
  destruct Hgroups as [Hres Hlog]; [vm_compute; lia|].
  unfold bind_to. split; [exact Hres|]. rewrite Hlog. vm_compute. reflexivity.
Defined.

Example instances_logged :
  logged (bind_to two_hosts stored None)
  = ["expected redis-server instance group to have only 1 instance, got 2"]
  /\ logged (bind_to no_host stored None)
     = ["expected redis-server instance group to have only 1 instance, got 0"].
Proof. split; vm_compute; reflexivity. Qed.

(** The secret [((my/path))] with the secrets [my/path: xyz]. *)
Lemma credhub_reference_resolved_witness :
  result (bind_to one_host (stored_with_secret (VString "((my/path))"))
            (Some {[ "my/path" := "xyz"; "secret_pass" := "generated" ]}))
  = Ok {| Binding.Credentials :=
            {[ "host" := VString "10.0.0.5";
               "port" := VInt RedisServerPort;
               "generated_secret" := VString "generated";
               "password" := VString "s3cret";
               "secret" := VString "xyz" ]} |}.
Proof.
  assert (Href : credhub_ref "((my/path))" "my/path").
  { split; [reflexivity|]. split; [discriminate|].
    vm_compute. repeat constructor; discriminate. }
  destruct (credhub_reference_resolved "binding-1" one_host
              (manifest "2.5" (stored_with_secret (VString "((my/path))")))
              (request ∅)
              (Some {[ "my/path" := "xyz"; "secret_pass" := "generated" ]})
              (stored_with_secret (VString "((my/path))"))
              (VString "((my/path))"))
    as (_ & Hmatch); [vm_compute; reflexivity | vm_compute; reflexivity | discriminate |].
  destruct (Hmatch "((my/path))" "my/path" eq_refl Href) as (_ & Hpresent).
  destruct (Hpresent "xyz") as (_ & Hok & _); [vm_compute; reflexivity|].
  apply (Hok "10.0.0.5" "generated" "s3cret"); vm_compute; reflexivity.
Defined.

(** C9 fails as stated: the name is present in the secrets and is their
    only entry; the call returns no credentials, it fails for want of
    secret_pass. *)
Lemma credhub_reference_without_secret_pass :
  secrets_lookup (Some {[ "my/path" := "xyz" ]}) "my/path" = Some "xyz"
  /\ bind_to one_host (stored_with_secret (VString "((my/path))"))
       (Some {[ "my/path" := "xyz" ]})
     = Run ["manifest wasn't correctly interpolated: missing value for `secret_pass`"]
           (Err "manifest wasn't correctly interpolated: missing value for `secret_pass`").
Proof. split; vm_compute; reflexivity. Qed.

Example credhub_reference_missing :
  result (bind_to one_host (stored_with_secret (VString "((my/path))"))
            (Some {[ "secret_pass" := "generated" ]}))
  = Err "secret 'my/path' not present in manifest secrets passed to bind".
Proof. vm_compute. reflexivity. Qed.

Example credhub_reference_malformed :
  result (bind_to one_host (stored_with_secret (VString "(my/path)")) None)
  = Err "expecting a credhub ref string with format ((xxx)), but got: (my/path)"
  /\ result (bind_to one_host (stored_with_secret (VInt 7)) None)
     = Err "secret in manifest was not a string. expecting a credhub ref string".
Proof. split; vm_compute; reflexivity. Qed.

Lemma secrets_bundle_absent_or_incomplete_witness :
  result (bind_to one_host stored None)
  = Ok {| Binding.Credentials :=
            {[ "host" := VString "10.0.0.5";
               "port" := VInt RedisServerPort;
               "generated_secret" := VString EmptyString;
               "password" := VString "s3cret";
               "secret" := VString EmptyString ]} |}.
Proof.
  destruct (secrets_bundle_absent_or_incomplete "binding-1" one_host
              (manifest "2.5" stored) (request ∅)) as (_ & Hnone & _).
  apply (Hnone "10.0.0.5" stored "s3cret"); vm_compute; reflexivity.
Defined.

Example secrets_bundle_empty :
  result (bind_to one_host stored (Some ∅))
  = Err "manifest wasn't correctly interpolated: missing value for `secret_pass`".
Proof. vm_compute. reflexivity. Qed.

(** * Further properties of the package *)

(** ** The order on versions *)

(** X1. [oldGreaterThanNew] is a strict total order on version triples:
    no version is greater than itself, of two different versions exactly
    one is greater, and the order is transitive; so permitted upgrades
    (the old version not greater than the new one) compose. *)
Theorem upgrade_order_consistent :
  let gt (x y : Z * Z * Z) :=
    oldGreaterThanNew x.1.1 x.1.2 x.2 y.1.1 y.1.2 y.2 in
  (forall x, gt x x = false)
  /\ (forall x y, gt x y = true -> gt y x = false)
  /\ (forall x y, gt x y = false -> gt y x = false -> x = y)
  /\ (forall x y z, gt x y = true -> gt y z = true -> gt x z = true)
  /\ (forall x y z, gt x y = false -> gt y z = false -> gt x z = false).
Proof.
  cbv zeta. unfold oldGreaterThanNew.
  repeat split.
  - intros [[a b] c]. cbn. repeat case_decide; try done.
    apply bool_decide_eq_false. lia.
  - intros [[a b] c] [[a' b'] c']. cbn.
    repeat case_decide; rewrite ?bool_decide_eq_true, ?bool_decide_eq_false; lia.
  - intros [[a b] c] [[a' b'] c']. cbn.
    repeat case_decide; rewrite ?bool_decide_eq_false; intros; f_equal; try f_equal; lia.
  - intros [[a b] c] [[a' b'] c'] [[a'' b''] c'']. cbn.
    repeat case_decide; rewrite ?bool_decide_eq_true; lia.
  - intros [[a b] c] [[a' b'] c'] [[a'' b''] c'']. cbn.
    repeat case_decide; rewrite ?bool_decide_eq_false; lia.
Qed.

(** ** The release of the previous manifest *)

Lemma find_None_iff {A} (f : A -> bool) (l : list A) :
  find f l = None <-> forall x, x ∈ l -> f x = false.
Proof.
  induction l as [|a l IH]; cbn.
  - split; [by intros _ x ?%elem_of_nil|done].
  - destruct (f a) eqn:Ha.
    + split; [done|]. intros H. rewrite H in Ha; [done|left].
    + rewrite IH. split.
      * intros H x [->|Hx]%elem_of_cons; auto.
      * intros H x Hx. apply H. by right.
Qed.

Lemma find_Some_first {A} (f : A -> bool) (l : list A) (x : A) :
  find f l = Some x <->
  exists l1 l2, l = l1 ++ x :: l2 /\ f x = true /\ forall y, y ∈ l1 -> f y = false.
Proof.
  induction l as [|a l IH]; cbn.
  - split; [done|]. by intros ([|??] & ? & ? & _).
  - destruct (f a) eqn:Ha.
    + split.
      * intros [= ->]. exists [], l. split; [done|]. split; [done|].
        by intros y ?%elem_of_nil.
      * intros ([|b l1] & l2 & Hl & Hx & Hl1).
        -- by injection Hl as -> _.
        -- injection Hl as -> _. rewrite Hl1 in Ha; [done|left].
    + rewrite IH. split.
      * intros (l1 & l2 & -> & Hx & Hl1). exists (a :: l1), l2.
        split; [done|]. split; [done|].
        intros y [->|Hy]%elem_of_cons; auto.
      * intros ([|b l1] & l2 & Hl & Hx & Hl1).
        -- injection Hl as -> _. congruence.
        -- injection Hl as -> ->. exists l1, l2. split; [done|]. split; [done|].
           intros y Hy. apply Hl1. by right.
Qed.

(** X2. [findOldManifestRedisRelease] returns the first release of the
    previous manifest that has the name, and fails, with an error that
    names the release, exactly when no release has it. *)
Theorem findOldManifestRedisRelease_first redisReleaseName
    (previousManifestReleases : list Release.t) :
  (forall r, findOldManifestRedisRelease redisReleaseName previousManifestReleases
             = Ok r <->
             exists l1 l2,
               previousManifestReleases = l1 ++ r :: l2
               /\ Release.Name r = redisReleaseName
               /\ forall r', r' ∈ l1 -> Release.Name r' <> redisReleaseName)
  /\ ((forall r, r ∈ previousManifestReleases -> Release.Name r <> redisReleaseName)
      <-> findOldManifestRedisRelease redisReleaseName previousManifestReleases
          = Err ("no release with name " +:+ redisReleaseName
                 +:+ " found in previous manifest"))
  /\ (forall p, findOldManifestRedisRelease redisReleaseName
                  previousManifestReleases <> Panic p).
Proof.
  unfold findOldManifestRedisRelease. split; [|split].
  - intros r. destruct (find _ _) as [r0|] eqn:Hfind.
    + split.
      * intros [= ->]. apply find_Some_first in Hfind as (l1 & l2 & ? & Hr & Hl1).
        exists l1, l2. split; [done|]. split; [by apply bool_decide_eq_true in Hr|].
        intros r' Hr'. apply Hl1 in Hr'. by apply bool_decide_eq_false in Hr'.
      * intros (l1 & l2 & Hl & Hr & Hl1).
        assert (find (fun o : Release.t =>
                        bool_decide (Release.Name o = redisReleaseName))
                     previousManifestReleases = Some r) as Hr'.
        { apply find_Some_first. exists l1, l2. split; [done|].
          split; [by apply bool_decide_eq_true|].
          intros y Hy. by apply bool_decide_eq_false, Hl1. }
        congruence.
    + split; [done|]. intros (l1 & l2 & -> & Hr & _).
      pose proof (proj1 (find_None_iff _ _) Hfind r) as Hno.
      rewrite bool_decide_eq_false in Hno. destruct Hno; [|done].
      apply elem_of_app. right. left.
  - destruct (find _ _) as [r0|] eqn:Hfind.
    + split; [|done]. intros Hno.
      apply find_Some_first in Hfind as (l1 & l2 & -> & Hr & _).
      apply bool_decide_eq_true in Hr. destruct (Hno r0); [|done].
      apply elem_of_app. right. left.
    + split; [done|]. intros _ r Hr.
      pose proof (proj1 (find_None_iff _ _) Hfind r Hr) as Hno.
      by apply bool_decide_eq_false in Hno.
  - intros p. by destruct (find _ _).
Qed.

Lemma upgrade_order_irrefl a b c : oldGreaterThanNew a b c a b c = false.
Proof.
  unfold oldGreaterThanNew. repeat case_decide; try done.
  apply bool_decide_eq_false. lia.
Qed.

(** ** The steps of [GenerateManifest] *)

Lemma M_bind_ret_l {A B} (a : A) (k : A -> M B) : Run [] (Ok a) ≫= k = k a.
Proof. unfold mbind, M_bind. cbn. by destruct (k a). Qed.

Lemma M_bind_lift_Ok {A B} (a : A) (k : A -> M B) : lift (Ok a) ≫= k = k a.
Proof. apply M_bind_ret_l. Qed.

Section Steps.

Variable CurrentPasswordGenerator : outcome string.
Variable float64_to_int_unrepresentable : float64 -> Z.

Abbreviation GenerateManifest :=
  (GenerateManifest CurrentPasswordGenerator float64_to_int_unrepresentable).
Abbreviation redisServerProperties :=
  (redisServerProperties CurrentPasswordGenerator float64_to_int_unrepresentable).
Abbreviation passwordForRedisServer := (passwordForRedisServer CurrentPasswordGenerator).
Abbreviation maxClientsForRedisServer :=
  (maxClientsForRedisServer float64_to_int_unrepresentable).

(** The call once the parameters are legal and the upgrade path valid. *)
Lemma GenerateManifest_steps ks serviceDeployment plan requestParams
    previousManifest previousPlan :
  findIllegalArbitraryParams ks (RequestParameters.ArbitraryParams requestParams) = [] ->
  (forall pm, previousManifest = Some pm ->
     validUpgradePath pm (ServiceDeployment.Releases serviceDeployment) = Ok tt) ->
  GenerateManifest ks serviceDeployment plan requestParams previousManifest previousPlan
  = match findRedisServerInstanceGroup plan with
    | None =>
        Run ["no redis-server instance group definition found"]
            (Err "Contact your operator, service configuration issue occurred")
    | Some redisServerInstanceGroup =>
        redisProperties ←
          redisServerProperties (ServiceDeployment.DeploymentName serviceDeployment)
            (Plan.Properties plan)
            (RequestParameters.ArbitraryParams requestParams) previousManifest;
        jobs ← lift (gatherJobs (ServiceDeployment.Releases serviceDeployment));
        mret (generated_manifest serviceDeployment plan redisServerInstanceGroup
                redisProperties jobs)
    end.
Proof.
  intros Hill Hup. unfold adapter.GenerateManifest. rewrite Hill.
  case_decide as Hlen; [done|].
  assert (match previousManifest return M unit with
          | Some pm => lift (validUpgradePath pm
                               (ServiceDeployment.Releases serviceDeployment))
          | None => mret tt
          end = Run [] (Ok tt)) as ->.
  { destruct previousManifest as [pm|]; [|done]. by rewrite (Hup pm). }
  rewrite M_bind_ret_l. by destruct (findRedisServerInstanceGroup plan).
Qed.

(** The resolution of the properties once the previous properties are read. *)
Lemma redisServerProperties_steps deploymentName planProperties arbitraryParams
    previousManifest previousRedisProperties :
  match previousManifest with
  | Some pm => Some <$> redisPlanProperties pm
  | None => Ok None
  end = Ok previousRedisProperties ->
  redisServerProperties deploymentName planProperties arbitraryParams previousManifest
  = match planProperties !! "persistence" with
    | None => Run ["the plan property 'persistence' is missing"] (Err EmptyString)
    | Some persistenceConfig =>
        lift (b ← assert_bool persistenceConfig;
              password ← passwordForRedisServer previousRedisProperties;
              maxClients ← maxClientsForRedisServer arbitraryParams
                             previousRedisProperties;
              Ok ({[ "redis" :=
                       VMap {[ "persistence" := VString (if b : bool then "yes" else "no");
                               "password" := VString password;
                               "maxclients" := VInt maxClients ]} ]}
                  : gmap string value))
    end.
Proof.
  intros Hprev. unfold adapter.redisServerProperties.
  assert (match previousManifest return M (option (gmap string value)) with
          | Some pm => lift (Some <$> redisPlanProperties pm)
          | None => mret None
          end = Run [] (Ok previousRedisProperties)) as ->.
  { destruct previousManifest as [pm|]; [by rewrite Hprev|].
    by injection Hprev as <-. }
  rewrite M_bind_ret_l. unfold persistenceForRedisServer.
  change RedisServerPersistencePropertyKey with "persistence".
  destruct (planProperties !! "persistence") as [v|]; [|done].
  destruct (assert_bool v) as [b| |]; [|done..].
  rewrite M_bind_lift_Ok. cbn [mbind outcome_bind].
  change (mret (if b then "yes" else "no") ≫= ?k)
    with (Run [] (Ok (if b then "yes" else "no")) ≫= k).
  rewrite M_bind_ret_l.
  destruct (passwordForRedisServer _) as [pw| |]; [|done..].
  rewrite M_bind_lift_Ok.
  destruct (maxClientsForRedisServer _ _) as [n| |]; [|done..].
  by rewrite M_bind_lift_Ok.
Qed.

End Steps.

Section GeneratorMore.

Variable CurrentPasswordGenerator : outcome string.
Variable float64_to_int_unrepresentable : float64 -> Z.

Abbreviation GenerateManifest :=
  (GenerateManifest CurrentPasswordGenerator float64_to_int_unrepresentable).
Abbreviation redisServerProperties :=
  (redisServerProperties CurrentPasswordGenerator float64_to_int_unrepresentable).
Abbreviation passwordForRedisServer := (passwordForRedisServer CurrentPasswordGenerator).
Abbreviation maxClientsForRedisServer :=
  (maxClientsForRedisServer float64_to_int_unrepresentable).

(** The manifest of a successful call. *)
Lemma GenerateManifest_Ok_manifest ks serviceDeployment plan requestParams
    previousManifest previousPlan out :
  result (GenerateManifest ks serviceDeployment plan requestParams
            previousManifest previousPlan) = Ok out ->
  exists redisServerInstanceGroup props jobs,
    findRedisServerInstanceGroup plan = Some redisServerInstanceGroup
    /\ result (redisServerProperties
                 (ServiceDeployment.DeploymentName serviceDeployment)
                 (Plan.Properties plan)
                 (RequestParameters.ArbitraryParams requestParams)
                 previousManifest) = Ok props
    /\ gatherJobs (ServiceDeployment.Releases serviceDeployment) = Ok jobs
    /\ out = generated_manifest serviceDeployment plan redisServerInstanceGroup
               props jobs.
Proof.
  intros H.
  destruct (GenerateManifest_Ok _ _ _ _ _ _ _ _ _ H) as (Hill & Hup & _).
  rewrite (GenerateManifest_steps _ _ _ _ _ _ _ _ Hill Hup) in H.
  destruct (findRedisServerInstanceGroup plan) as [ig|]; [|done].
  apply result_bind_Ok in H as (props & Hprops & H).
  apply result_bind_Ok in H as (jobs & Hjobs & H).
  injection H as <-. by exists ig, props, jobs.
Qed.

Lemma findRedisServerInstanceGroup_None plan :
  findRedisServerInstanceGroup plan = None <->
  forall g, g ∈ Plan.InstanceGroups plan ->
            serviceadapter.InstanceGroup.Name g <> "redis-server".
Proof.
  unfold findRedisServerInstanceGroup. rewrite find_None_iff.
  split; intros H g Hg.
  - specialize (H g Hg). by apply bool_decide_eq_false in H.
  - apply bool_decide_eq_false. by apply H.
Qed.

(** X3. A plan without an instance group named redis-server: once the
    parameters are legal and the upgrade path valid, [GenerateManifest]
    writes the cause to the logger and returns the generic error that
    asks to contact the operator. With a group of that name, the first
    one in the plan is the one used. *)
Theorem missing_instance_group_reported ks serviceDeployment plan requestParams
    previousManifest previousPlan :
  findIllegalArbitraryParams ks (RequestParameters.ArbitraryParams requestParams) = [] ->
  (forall pm, previousManifest = Some pm ->
     validUpgradePath pm (ServiceDeployment.Releases serviceDeployment) = Ok tt) ->
  ((forall g, g ∈ Plan.InstanceGroups plan ->
              serviceadapter.InstanceGroup.Name g <> "redis-server") ->
   GenerateManifest ks serviceDeployment plan requestParams previousManifest
     previousPlan
   = Run ["no redis-server instance group definition found"]
         (Err "Contact your operator, service configuration issue occurred"))
  /\ (forall out,
        result (GenerateManifest ks serviceDeployment plan requestParams
                  previousManifest previousPlan) = Ok out ->
        exists l1 g l2 props jobs,
          Plan.InstanceGroups plan = l1 ++ g :: l2
          /\ serviceadapter.InstanceGroup.Name g = "redis-server"
          /\ (forall g', g' ∈ l1 ->
                serviceadapter.InstanceGroup.Name g' <> "redis-server")
          /\ out = generated_manifest serviceDeployment plan g props jobs).
Proof.
  intros Hill Hup. split.
  - intros Hnone. rewrite (GenerateManifest_steps _ _ _ _ _ _ _ _ Hill Hup).
    by rewrite (proj2 (findRedisServerInstanceGroup_None plan) Hnone).
  - intros out Hout.
    apply GenerateManifest_Ok_manifest in Hout
      as (g & props & jobs & Hfind & _ & _ & ->).
    apply find_Some_first in Hfind as (l1 & l2 & Hl & Hg & Hl1).
    exists l1, g, l2, props, jobs. split; [done|].
    split; [by apply bool_decide_eq_true in Hg|]. split; [|done].
    intros g' Hg'. specialize (Hl1 g' Hg'). by apply bool_decide_eq_false in Hl1.
Qed.

(** X4. A plan without the persistence property: once the parameters are
    legal, the upgrade path valid, the instance group found and the
    properties of the previous manifest read, [GenerateManifest] writes
    the cause to the logger and returns an error with the empty message.
    A persistence property that is not a boolean makes the call panic. *)
Theorem missing_persistence_reported ks serviceDeployment plan requestParams
    previousManifest previousPlan redisServerInstanceGroup :
  findIllegalArbitraryParams ks (RequestParameters.ArbitraryParams requestParams) = [] ->
  (forall pm, previousManifest = Some pm ->
     validUpgradePath pm (ServiceDeployment.Releases serviceDeployment) = Ok tt
     /\ exists m, redisPlanProperties pm = Ok m) ->
  findRedisServerInstanceGroup plan = Some redisServerInstanceGroup ->
  (Plan.Properties plan !! "persistence" = None ->
   GenerateManifest ks serviceDeployment plan requestParams previousManifest
     previousPlan
   = Run ["the plan property 'persistence' is missing"] (Err EmptyString))
  /\ (forall v, Plan.Properties plan !! "persistence" = Some v ->
        (forall b, v <> VBool b) ->
        GenerateManifest ks serviceDeployment plan requestParams previousManifest
          previousPlan
        = Run [] (Panic InterfaceConversion)).
Proof.
  intros Hill Hprev Hfind.
  assert (Hup : forall pm, previousManifest = Some pm ->
            validUpgradePath pm (ServiceDeployment.Releases serviceDeployment) = Ok tt)
    by (intros pm Hpm; by destruct (Hprev pm Hpm)).
  assert (Hm : exists previousRedisProperties,
            match previousManifest with
            | Some pm => Some <$> redisPlanProperties pm
            | None => Ok None
            end = Ok previousRedisProperties).
  { destruct previousManifest as [pm|]; [|by eexists].
    destruct (Hprev pm eq_refl) as (_ & m & ->). by eexists. }
  destruct Hm as [prevProps Hm].
  rewrite (GenerateManifest_steps _ _ _ _ _ _ _ _ Hill Hup), Hfind.
  rewrite (redisServerProperties_steps _ _ _ _ _ _ _ Hm).
  split.
  - by intros ->.
  - intros v -> Hv. destruct v; try done. by destruct (Hv b).
Qed.

(** X5. The properties of a generated manifest: the instance group has
    the one property redis, a map with exactly the keys persistence,
    password and maxclients; persistence is the string yes when the
    boolean plan property is true and no when it is false, the password
    is a string and maxclients an integer; the manifest itself has no
    properties. *)
Theorem generated_properties_schema ks serviceDeployment plan requestParams
    previousManifest previousPlan out :
  result (GenerateManifest ks serviceDeployment plan requestParams
            previousManifest previousPlan) = Ok out ->
  exists instanceGroup (b : bool) (password : string) (maxClients : Z),
    BoshManifest.InstanceGroups out = [instanceGroup]
    /\ Plan.Properties plan !! "persistence" = Some (VBool b)
    /\ bosh.InstanceGroup.Properties instanceGroup
       = {[ "redis" :=
              VMap {[ "persistence" := VString (if b then "yes" else "no");
                      "password" := VString password;
                      "maxclients" := VInt maxClients ]} ]}
    /\ dom (bosh.InstanceGroup.Properties instanceGroup) = {[ "redis" ]}
    /\ (forall redis, redisPlanProperties out = Ok redis ->
          dom redis = {[ "persistence"; "password"; "maxclients" ]})
    /\ BoshManifest.Properties out = ∅.
Proof.
  intros Hout.
  apply GenerateManifest_Ok_manifest in Hout
    as (g & props & jobs & _ & Hprops & _ & ->).
  pose proof Hprops as Hinv. apply redisServerProperties_Ok in Hinv
    as (prevProps & _ & _ & _ & Hprev & _).
  assert (Hm : match previousManifest with
               | Some pm => Some <$> redisPlanProperties pm
               | None => Ok None
               end = Ok prevProps).
  { destruct previousManifest as [pm|]; [|by subst].
    destruct Hprev as (m & -> & ->). done. }
  rewrite (redisServerProperties_steps _ _ _ _ _ _ _ Hm) in Hprops.
  destruct (Plan.Properties plan !! "persistence") as [v|]; [|done].
  rewrite result_lift in Hprops.
  apply outcome_bind_Ok in Hprops as (b & Hb & Hprops).
  apply outcome_bind_Ok in Hprops as (pw & _ & Hprops).
  apply outcome_bind_Ok in Hprops as (n & _ & Hprops).
  injection Hprops as <-. destruct v; try done. injection Hb as ->.
  eexists _, b, pw, n. split; [reflexivity|]. split; [done|].
  split; [reflexivity|]. split.
  - cbn. by rewrite dom_singleton_L.
  - split; [|done]. intros redis Hredis.
    change (Ok ({[ "persistence" := VString (if b then "yes" else "no");
                   "password" := VString pw;
                   "maxclients" := VInt n ]} : gmap string value) = Ok redis)
      in Hredis.
    assert (redis = {[ "persistence" := VString (if b then "yes" else "no");
                       "password" := VString pw;
                       "maxclients" := VInt n ]}) as -> by congruence.
    rewrite !dom_insert_L, dom_singleton_L. set_solver.
Qed.

(** X6. A generated manifest is closed: it is named after the
    deployment, lists the releases of the deployment with their names and
    versions in order, declares one stemcell, and has one instance
    group, named redis-server, whose stemcell is the alias of the declared
    stemcell and whose one job, redis-server, is bound to a release that
    the manifest lists and that provides the job in the deployment. *)
Theorem generated_manifest_closed ks serviceDeployment plan requestParams
    previousManifest previousPlan out :
  result (GenerateManifest ks serviceDeployment plan requestParams
            previousManifest previousPlan) = Ok out ->
  BoshManifest.Name out = ServiceDeployment.DeploymentName serviceDeployment
  /\ Release.Name <$> BoshManifest.Releases out
     = ServiceRelease.Name <$> ServiceDeployment.Releases serviceDeployment
  /\ Release.Version <$> BoshManifest.Releases out
     = ServiceRelease.Version <$> ServiceDeployment.Releases serviceDeployment
  /\ exists stemcell instanceGroup job release,
       BoshManifest.Stemcells out = [stemcell]
       /\ bosh.Stemcell.OS stemcell
          = serviceadapter.Stemcell.OS (ServiceDeployment.Stemcell serviceDeployment)
       /\ bosh.Stemcell.Version stemcell
          = serviceadapter.Stemcell.Version (ServiceDeployment.Stemcell serviceDeployment)
       /\ BoshManifest.InstanceGroups out = [instanceGroup]
       /\ bosh.InstanceGroup.Name instanceGroup = "redis-server"
       /\ bosh.InstanceGroup.Stemcell instanceGroup = bosh.Stemcell.Alias stemcell
       /\ bosh.InstanceGroup.Jobs instanceGroup = [job]
       /\ Job.Name job = "redis-server"
       /\ Job.Release job ∈ Release.Name <$> BoshManifest.Releases out
       /\ release ∈ ServiceDeployment.Releases serviceDeployment
       /\ ServiceRelease.Name release = Job.Release job
       /\ "redis-server" ∈ ServiceRelease.Jobs release.
Proof.
  intros Hout.
  apply GenerateManifest_Ok_manifest in Hout
    as (g & props & jobs & _ & _ & Hjobs & ->).
  unfold gatherJobs in Hjobs.
  apply outcome_bind_Ok in Hjobs as (r & Hr & [= <-]).
  rewrite findReleaseForJob_matches in Hr.
  destruct (matches _ _) as [|r' [|r'' l]] eqn:Hm; try done. injection Hr as ->.
  assert (r ∈ matches RedisServerJobName
                (ServiceDeployment.Releases serviceDeployment)) as Hin
    by (rewrite Hm; left).
  apply elem_of_matches in Hin as [Hin Hjob].
  split; [done|]. split; [cbn; by rewrite <- list_fmap_compose|].
  split; [cbn; by rewrite <- list_fmap_compose|].
  eexists _, _, _, r. repeat split; try done.
  cbn. rewrite <- list_fmap_compose. by apply list_elem_of_fmap_2.
Qed.

(** X7. The placement of a generated manifest is that of the first
    instance group of the plan named redis-server: its instance count,
    VM type and extensions, persistent disk type, availability zones and
    networks, one network per name of the plan, in order. The update
    block is the plan's, field by field, when the plan has one;
    otherwise it is 1 canary, 4 in flight, both watch times
    30000-240000 and no serial flag. *)
Theorem placement_and_update_from_plan ks serviceDeployment plan requestParams
    previousManifest previousPlan out :
  result (GenerateManifest ks serviceDeployment plan requestParams
            previousManifest previousPlan) = Ok out ->
  exists l1 g l2 instanceGroup,
    Plan.InstanceGroups plan = l1 ++ g :: l2
    /\ serviceadapter.InstanceGroup.Name g = "redis-server"
    /\ (forall g', g' ∈ l1 -> serviceadapter.InstanceGroup.Name g' <> "redis-server")
    /\ BoshManifest.InstanceGroups out = [instanceGroup]
    /\ bosh.InstanceGroup.Instances instanceGroup
       = serviceadapter.InstanceGroup.Instances g
    /\ bosh.InstanceGroup.VMType instanceGroup
       = serviceadapter.InstanceGroup.VMType g
    /\ bosh.InstanceGroup.VMExtensions instanceGroup
       = serviceadapter.InstanceGroup.VMExtensions g
    /\ bosh.InstanceGroup.PersistentDiskType instanceGroup
       = serviceadapter.InstanceGroup.PersistentDiskType g
    /\ bosh.InstanceGroup.AZs instanceGroup = serviceadapter.InstanceGroup.AZs g
    /\ Network.Name <$> bosh.InstanceGroup.Networks instanceGroup
       = serviceadapter.InstanceGroup.Networks g
    /\ match Plan.Update plan with
       | Some update =>
           bosh.Update.Canaries (BoshManifest.Update out)
           = serviceadapter.Update.Canaries update
           /\ bosh.Update.MaxInFlight (BoshManifest.Update out)
              = serviceadapter.Update.MaxInFlight update
           /\ bosh.Update.CanaryWatchTime (BoshManifest.Update out)
              = serviceadapter.Update.CanaryWatchTime update
           /\ bosh.Update.UpdateWatchTime (BoshManifest.Update out)
              = serviceadapter.Update.UpdateWatchTime update
           /\ bosh.Update.Serial (BoshManifest.Update out)
              = serviceadapter.Update.Serial update
       | None =>
           BoshManifest.Update out
           = {| bosh.Update.Canaries := 1;
                bosh.Update.CanaryWatchTime := "30000-240000";
                bosh.Update.UpdateWatchTime := "30000-240000";
                bosh.Update.MaxInFlight := VInt 4;
                bosh.Update.Serial := None |}
       end.
Proof.
  intros Hout.
  apply GenerateManifest_Ok_manifest in Hout
    as (g & props & jobs & Hfind & _ & _ & ->).
  apply find_Some_first in Hfind as (l1 & l2 & Hl & Hg & Hl1).
  eexists l1, g, l2, _. split; [done|].
  split; [by apply bool_decide_eq_true in Hg|]. split.
  { intros g' Hg'. specialize (Hl1 g' Hg'). by apply bool_decide_eq_false in Hl1. }
  split; [reflexivity|]. repeat (split; [reflexivity|]). split.
  - cbn. rewrite <- list_fmap_compose. apply list_fmap_id.
  - cbn. by destruct (Plan.Update plan).
Qed.

Lemma logged_lift_bind {A B} (o : outcome A) (k : A -> M B) :
  logged (lift o ≫= k) = match o with Ok a => logged (k a) | _ => [] end.
Proof. rewrite logged_bind. by destruct o. Qed.

Lemma result_lift_bind {A B} (o : outcome A) (k : A -> M B) :
  result (lift o ≫= k) = match o with Ok a => result (k a) | Err e => Err e | Panic p => Panic p end.
Proof. rewrite result_bind. by destruct o. Qed.

(** X8. What [GenerateManifest] writes to the logger: nothing, unless it
    fails for want of the instance group or of the persistence property,
    when it writes the one line that says so and returns the generic
    error, respectively the empty one. A call that returns a manifest,
    that panics, or that fails for any other reason writes nothing. *)
Theorem generator_log_discipline ks serviceDeployment plan requestParams
    previousManifest previousPlan :
  let call :=
    GenerateManifest ks serviceDeployment plan requestParams previousManifest
      previousPlan in
  logged call = []
  \/ call = Run ["no redis-server instance group definition found"]
               (Err "Contact your operator, service configuration issue occurred")
  \/ call = Run ["the plan property 'persistence' is missing"] (Err EmptyString).
Proof.
  cbv zeta. unfold adapter.GenerateManifest.
  case_decide as Hill; [by left|].
  assert (Hseq : forall (m : outcome unit) (k : M BoshManifest.t),
            (logged k = [] \/ k = Run ["no redis-server instance group definition found"]
               (Err "Contact your operator, service configuration issue occurred")
             \/ k = Run ["the plan property 'persistence' is missing"] (Err EmptyString)) ->
            let call := lift m ≫= (fun _ => k) in
            logged call = [] \/ call = Run ["no redis-server instance group definition found"]
               (Err "Contact your operator, service configuration issue occurred")
             \/ call = Run ["the plan property 'persistence' is missing"] (Err EmptyString)).
  { intros [[]| |] k Hk; cbv zeta; [|by left..]. by rewrite M_bind_lift_Ok. }
  assert (match previousManifest return M unit with
          | Some pm => lift (validUpgradePath pm
                               (ServiceDeployment.Releases serviceDeployment))
          | None => mret tt
          end
          = lift (match previousManifest with
                  | Some pm => validUpgradePath pm
                                 (ServiceDeployment.Releases serviceDeployment)
                  | None => Ok tt
                  end)) as -> by by destruct previousManifest.
  apply Hseq. clear Hseq.
  destruct (findRedisServerInstanceGroup plan) as [ig|]; [|by right; left].
  unfold adapter.redisServerProperties.
  assert (match previousManifest return M (option (gmap string value)) with
          | Some pm => lift (Some <$> redisPlanProperties pm)
          | None => mret None
          end
          = lift (match previousManifest with
                  | Some pm => Some <$> redisPlanProperties pm
                  | None => Ok None
                  end)) as -> by by destruct previousManifest.
  destruct (match previousManifest with
            | Some pm => Some <$> redisPlanProperties pm
            | None => Ok None
            end) as [prevProps| |]; [|by left..].
  rewrite M_bind_lift_Ok. unfold persistenceForRedisServer.
  destruct (Plan.Properties plan !! RedisServerPersistencePropertyKey) as [v|];
    [|by right; right].
  left. destruct (assert_bool v) as [b| |]; [|done..].
  rewrite M_bind_lift_Ok.
  change (mret (if b then "yes" else "no") ≫= ?k)
    with (Run [] (Ok (if b then "yes" else "no")) ≫= k).
  rewrite M_bind_ret_l.
  destruct (passwordForRedisServer prevProps) as [pw| |]; [|done..].
  rewrite M_bind_lift_Ok.
  destruct (maxClientsForRedisServer _ prevProps) as [n| |]; [|done..].
  rewrite M_bind_lift_Ok.
  change (mret ?x ≫= ?k) with (Run [] (Ok x) ≫= k). rewrite M_bind_ret_l.
  by destruct (gatherJobs _).
Qed.

(** ** Generating again *)

Lemma parseReleaseVersion_no_Panic versionString p :
  parseReleaseVersion versionString <> Panic p.
Proof.
  assert (HA : forall s q, Atoi s <> Panic q).
  { intros s q. unfold Atoi.
    destruct (match s with
              | String "+"%char s' => (false, s')
              | String "-"%char s' => (true, s')
              | _ => (false, s)
              end) as [neg body].
    destruct body; [done|]. destruct (digits_value _ _); [|done].
    by destruct (_ && _). }
  assert (HB : forall {A B} (o : outcome A) (k : A -> outcome B),
            (forall q, o <> Panic q) -> (forall a q, k a <> Panic q) ->
            forall q, o ≫= k <> Panic q).
  { intros A B [a|e|q] k Ho Hk q'; cbn; [apply Hk|done|by destruct (Ho q)]. }
  unfold parseReleaseVersion. case_decide; [done|].
  apply HB; [apply HA|]. intros a. apply HB; [case_decide; [apply HA|done]|].
  intros b. apply HB; [case_decide; [apply HA|done]|]. done.
Qed.

(** The release of the job as the generated manifest lists it. *)
Lemma findOldManifestRedisRelease_generated (releases : list ServiceRelease.t) r :
  r ∈ releases ->
  NoDup (ServiceRelease.Name <$> releases) ->
  findOldManifestRedisRelease (ServiceRelease.Name r)
    ((fun release => {| Release.Name := ServiceRelease.Name release;
                        Release.Version := ServiceRelease.Version release |})
       <$> releases)
  = Ok {| Release.Name := ServiceRelease.Name r;
          Release.Version := ServiceRelease.Version r |}.
Proof.
  unfold findOldManifestRedisRelease.
  induction releases as [|a l IH]; intros Hr Hnd; [by apply elem_of_nil in Hr|].
  rewrite fmap_cons in Hnd. apply NoDup_cons in Hnd as [Ha Hnd].
  cbn. case_bool_decide as Hname.
  - apply elem_of_cons in Hr as [->|Hr]; [done|].
    destruct Ha. rewrite Hname. by apply list_elem_of_fmap_2.
  - apply elem_of_cons in Hr as [->|Hr]; [done|]. by apply IH.
Qed.

(** Validating a release against itself. *)
Lemma validUpgradePath_same_version pm releases r old :
  findReleaseForJob RedisServerJobName releases = Ok r ->
  findOldManifestRedisRelease (ServiceRelease.Name r) (BoshManifest.Releases pm)
  = Ok old ->
  Release.Version old = ServiceRelease.Version r ->
  validUpgradePath pm releases
  = if decide (ServiceRelease.Version r = "latest") then Ok tt
    else parseReleaseVersion (ServiceRelease.Version r) ≫= fun _ => Ok tt.
Proof.
  intros Hr Hold Hv. unfold validUpgradePath. rewrite Hr. cbn. rewrite Hold. cbn.
  rewrite Hv. repeat case_decide; try tauto.
  destruct (parseReleaseVersion _) as [[[a b] c]| |]; cbn; try done.
  by rewrite upgrade_order_irrefl.
Qed.

(** What validating a generated manifest against the releases it was
    generated from comes to. *)
Lemma validUpgradePath_generated ks serviceDeployment plan requestParams
    previousManifest previousPlan out :
  result (GenerateManifest ks serviceDeployment plan requestParams
            previousManifest previousPlan) = Ok out ->
  NoDup (ServiceRelease.Name <$> ServiceDeployment.Releases serviceDeployment) ->
  exists r,
    findReleaseForJob RedisServerJobName
      (ServiceDeployment.Releases serviceDeployment) = Ok r
    /\ validUpgradePath out (ServiceDeployment.Releases serviceDeployment)
       = if decide (ServiceRelease.Version r = "latest") then Ok tt
         else parseReleaseVersion (ServiceRelease.Version r) ≫= fun _ => Ok tt.
Proof.
  intros Hout Hnd.
  apply GenerateManifest_Ok_manifest in Hout
    as (g & props & jobs & _ & _ & Hjobs & ->).
  unfold gatherJobs in Hjobs.
  apply outcome_bind_Ok in Hjobs as (r & Hr & _).
  exists r. split; [done|].
  pose proof Hr as Hm. rewrite findReleaseForJob_matches in Hm.
  destruct (matches _ _) as [|r' [|r'' l]] eqn:Hmatches; try done.
  injection Hm as ->.
  assert (r ∈ matches RedisServerJobName
                (ServiceDeployment.Releases serviceDeployment)) as Hin
    by (rewrite Hmatches; left).
  apply elem_of_matches in Hin as [Hin _].
  by apply (validUpgradePath_same_version _ _ r
              {| Release.Name := ServiceRelease.Name r;
                 Release.Version := ServiceRelease.Version r |});
    [|apply findOldManifestRedisRelease_generated|].
Qed.

(** Generating from the manifest just generated, once it validates. *)
Lemma regenerate_after_validation ks serviceDeployment plan requestParams
    previousManifest previousPlan previousPlan' out :
  result (GenerateManifest ks serviceDeployment plan requestParams
            previousManifest previousPlan) = Ok out ->
  validUpgradePath out (ServiceDeployment.Releases serviceDeployment) = Ok tt ->
  GenerateManifest ks serviceDeployment plan requestParams (Some out) previousPlan'
  = Run [] (Ok out).
Proof.
  intros Hout Hvalid.
  destruct (GenerateManifest_Ok _ _ _ _ _ _ _ _ _ Hout) as (Hill & _ & _).
  apply GenerateManifest_Ok_manifest in Hout
    as (g & props & jobs & Hfind & Hprops & Hjobs & ->).
  pose proof Hprops as Hinv. apply redisServerProperties_Ok in Hinv
    as (prevProps & persistence & password & maxClients & Hprev & Hpers & _
        & Hmax & Hprops').
  rewrite GenerateManifest_steps; [|done|by intros pm [= <-]].
  rewrite Hfind.
  set (inner := ({[ "persistence" := VString persistence;
                    "password" := VString password;
                    "maxclients" := VInt maxClients ]} : gmap string value)).
  rewrite (redisServerProperties_steps _ _ _ _ _ _ (Some inner));
    [|by rewrite Hprops'].
  unfold persistenceForRedisServer in Hpers.
  change RedisServerPersistencePropertyKey with "persistence" in Hpers.
  destruct (Plan.Properties plan !! "persistence") as [v|]; [|done].
  destruct v; try done. cbn in Hpers. injection Hpers as <-.
  cbn [assert_bool mbind outcome_bind].
  assert (passwordForRedisServer (Some inner) = Ok password) as -> by done.
  assert (maxClientsForRedisServer
            (RequestParameters.ArbitraryParams requestParams) (Some inner)
          = Ok maxClients) as ->.
  { unfold adapter.maxClientsForRedisServer in *.
    by destruct (RequestParameters.ArbitraryParams requestParams !! "maxclients"). }
  cbn [mbind outcome_bind]. subst inner. rewrite <- Hprops'.
  rewrite M_bind_lift_Ok, Hjobs, M_bind_lift_Ok. done.
Qed.

(** X9. Generating again from the manifest just generated gives that
    manifest again: when the release names of the deployment are
    distinct and the version of the release of the job is latest or
    parses, [GenerateManifest] with the same deployment, plan and
    parameters and with its own result as the previous manifest returns
    that result, and writes nothing. *)
Theorem regenerate_unchanged ks serviceDeployment plan requestParams
    previousManifest previousPlan previousPlan' out :
  result (GenerateManifest ks serviceDeployment plan requestParams
            previousManifest previousPlan) = Ok out ->
  NoDup (ServiceRelease.Name <$> ServiceDeployment.Releases serviceDeployment) ->
  (forall r, findReleaseForJob RedisServerJobName
               (ServiceDeployment.Releases serviceDeployment) = Ok r ->
             ServiceRelease.Version r = "latest"
             \/ exists t, parseReleaseVersion (ServiceRelease.Version r) = Ok t) ->
  GenerateManifest ks serviceDeployment plan requestParams (Some out) previousPlan'
  = Run [] (Ok out).
Proof.
  intros Hout Hnd Hversion.
  destruct (validUpgradePath_generated _ _ _ _ _ _ _ Hout Hnd) as (r & Hr & Hvalid).
  eapply regenerate_after_validation; [done|].
  rewrite Hvalid. case_decide as Hl; [done|].
  destruct (Hversion r Hr) as [?|[t ->]]; done.
Qed.

(** X10. A release version that is neither latest nor parses, once in
    a generated manifest. Let [GenerateManifest] have returned a manifest
    for a deployment whose release names are distinct and whose release
    of the job has such a version. With that manifest as the previous
    one, the same call again fails with the parse error of the version.
    A later deployment whose release of the job has the same name
    validates when its version is latest; with any other version the
    validation fails, with the parse error of the new version when that
    does not parse and with the parse error of the old version when it
    does, and [GenerateManifest] returns that error, writing nothing,
    once the parameters are legal. *)
Theorem unparsed_version_blocks_update ks serviceDeployment plan requestParams
    previousManifest previousPlan out r e :
  result (GenerateManifest ks serviceDeployment plan requestParams
            previousManifest previousPlan) = Ok out ->
  NoDup (ServiceRelease.Name <$> ServiceDeployment.Releases serviceDeployment) ->
  findReleaseForJob RedisServerJobName
    (ServiceDeployment.Releases serviceDeployment) = Ok r ->
  ServiceRelease.Version r <> "latest" ->
  parseReleaseVersion (ServiceRelease.Version r) = Err e ->
  (forall previousPlan',
     GenerateManifest ks serviceDeployment plan requestParams (Some out)
       previousPlan'
     = Run [] (Err e))
  /\ (forall ks' serviceDeployment' plan' requestParams' previousPlan' r',
        findReleaseForJob RedisServerJobName
          (ServiceDeployment.Releases serviceDeployment') = Ok r' ->
        ServiceRelease.Name r' = ServiceRelease.Name r ->
        (ServiceRelease.Version r' = "latest" ->
           validUpgradePath out (ServiceDeployment.Releases serviceDeployment')
           = Ok tt)
        /\ (ServiceRelease.Version r' <> "latest" ->
            let e' := match parseReleaseVersion (ServiceRelease.Version r') with
                      | Err e' => e'
                      | _ => e
                      end in
            validUpgradePath out (ServiceDeployment.Releases serviceDeployment')
            = Err e'
            /\ (findIllegalArbitraryParams ks'
                  (RequestParameters.ArbitraryParams requestParams') = [] ->
                GenerateManifest ks' serviceDeployment' plan' requestParams'
                  (Some out) previousPlan'
                = Run [] (Err e')))).
Proof.
  intros Hout Hnd Hr Hl Hparse.
  destruct (GenerateManifest_Ok _ _ _ _ _ _ _ _ _ Hout) as (Hill & _ & _).
  assert (Hlater : forall serviceDeployment' r',
            findReleaseForJob RedisServerJobName
              (ServiceDeployment.Releases serviceDeployment') = Ok r' ->
            ServiceRelease.Name r' = ServiceRelease.Name r ->
            validUpgradePath out (ServiceDeployment.Releases serviceDeployment')
            = if decide (ServiceRelease.Version r' = "latest") then Ok tt
              else Err match parseReleaseVersion (ServiceRelease.Version r') with
                       | Err e' => e'
                       | _ => e
                       end).
  { intros serviceDeployment' r' Hr' Hname.
    apply GenerateManifest_Ok_manifest in Hout
      as (g & props & jobs & _ & _ & _ & ->).
    assert (r ∈ ServiceDeployment.Releases serviceDeployment) as Hin.
    { pose proof Hr as Hm. rewrite findReleaseForJob_matches in Hm.
      destruct (matches _ _) as [|r0 [|r1 l]] eqn:Hmatches; try done.
      injection Hm as ->.
      assert (r ∈ matches RedisServerJobName
                    (ServiceDeployment.Releases serviceDeployment)) as Hin
        by (rewrite Hmatches; left).
      by apply elem_of_matches in Hin as [Hin _]. }
    unfold validUpgradePath. rewrite Hr'. cbn [mbind outcome_bind].
    rewrite Hname.
    change (BoshManifest.Releases (generated_manifest _ _ _ _ _))
      with ((fun release => {| Release.Name := ServiceRelease.Name release;
                               Release.Version := ServiceRelease.Version release |})
              <$> ServiceDeployment.Releases serviceDeployment).
    rewrite (findOldManifestRedisRelease_generated _ r Hin Hnd).
    cbn [mbind outcome_bind Release.Version].
    destruct (decide (ServiceRelease.Version r' = "latest")) as [Hlatest|Hlatest].
    - rewrite decide_True by by left. done.
    - rewrite decide_False by (by intros [?|?]).
      pose proof (parseReleaseVersion_no_Panic (ServiceRelease.Version r')) as Hnp.
      destruct (parseReleaseVersion (ServiceRelease.Version r'))
        as [[[a b] c]|e'|p]; cbn.
      + by rewrite Hparse.
      + done.
      + by destruct (Hnp p). }
  split.
  - intros previousPlan'.
    pose proof (Hlater serviceDeployment r Hr eq_refl) as Hvalid.
    rewrite decide_False, Hparse in Hvalid by done.
    unfold adapter.GenerateManifest. rewrite Hill.
    case_decide; [done|]. by rewrite Hvalid.
  - intros ks' serviceDeployment' plan' requestParams' previousPlan' r' Hr' Hname.
    pose proof (Hlater serviceDeployment' r' Hr' Hname) as Hvalid.
    split.
    + intros Hlatest. by rewrite decide_True in Hvalid.
    + intros Hlatest. cbv zeta. rewrite decide_False in Hvalid by done.
      split; [done|]. intros Hill'.
      unfold adapter.GenerateManifest. rewrite Hill'.
      case_decide; [done|]. by rewrite Hvalid.
Qed.

End GeneratorMore.

(** ** More on the binder *)

Lemma logs_own_error_ret {A} (a : A) : logs_own_error (mret a : M A).
Proof. done. Qed.

Lemma logs_own_error_lift {A} (o : outcome A) :
  (forall e, o <> Err e) -> logs_own_error (lift o).
Proof. intros Ho. unfold logs_own_error. destruct o as [a|e|p]; [done| |done]. by destruct (Ho e). Qed.

Lemma logs_own_error_log_and_return {A} (e : string) :
  logs_own_error (log_and_return e : M A).
Proof. done. Qed.

Lemma logs_own_error_bind {A B} (m : M A) (k : A -> M B) :
  logs_own_error m -> (forall a, logs_own_error (k a)) -> logs_own_error (m ≫= k).
Proof.
  unfold logs_own_error. intros Hm Hk. rewrite logged_bind, result_bind, Hm.
  destruct (result m) as [a|e|p]; [apply Hk|done..].
Qed.

Lemma assert_string_no_Err x e : assert_string x <> Err e.
Proof. by destruct x. Qed.

(** What [CreateBinding] writes after the platform notice. *)
Lemma CreateBinding_logged bindingID deploymentTopology manifest requestParams
    secrets :
  logged (CreateBinding bindingID deploymentTopology manifest requestParams secrets)
  = platform_notice requestParams
    ++ match getRedisHost deploymentTopology with
       | Err e => [e]
       | Panic _ => []
       | Ok _ =>
           match result (CreateBinding bindingID deploymentTopology manifest
                           requestParams secrets) with
           | Err e => [e]
           | _ => []
           end
       end.
Proof.
  unfold CreateBinding at 1.
  rewrite logged_bind.
  replace (result (if decide _ then _ else _)) with (Ok tt : outcome unit)
    by by case_decide.
  f_equal; [unfold platform_notice; by case_decide|].
  destruct (getRedisHost deploymentTopology) as [host|e|p] eqn:Hhost;
    [|done..].
  assert (Hres : forall X : M Binding.t,
            logs_own_error X ->
            result (CreateBinding bindingID deploymentTopology manifest
                      requestParams secrets) = result X ->
            logged X
            = match result (CreateBinding bindingID deploymentTopology manifest
                              requestParams secrets) with
              | Err e => [e] | _ => []
              end).
  { intros X HX ->. exact HX. }
  apply Hres.
  + apply logs_own_error_bind.
    { destruct secrets as [m|]; [|done]. by destruct (secrets_lookup _ _). }
    intros g. apply logs_own_error_bind.
    { apply logs_own_error_lift, redisPlanProperties_no_Err. }
    intros props. apply logs_own_error_bind.
    { destruct (negb _); [|done]. destruct (props !!! "secret"); try done.
      cbv zeta. case_decide; [done|]. by destruct (secrets_lookup _ _). }
    intros s. apply logs_own_error_bind; [|done].
    apply logs_own_error_lift, assert_string_no_Err.
  + unfold CreateBinding. rewrite result_bind.
    replace (result (if decide _ then _ else _)) with (Ok tt : outcome unit)
      by by case_decide.
    by rewrite Hhost.
Qed.

(** X11. What [CreateBinding] writes to the logger and what the request
    decides. The binding id and the request parameters do not change the
    outcome: they decide only whether the platform notice is written
    first. After the notice the call writes one line exactly when it
    returns an error: the cardinality message when the topology is wrong,
    otherwise the message of the error that it returns. *)
Theorem binder_log_discipline bindingID deploymentTopology manifest requestParams
    secrets :
  let call :=
    CreateBinding bindingID deploymentTopology manifest requestParams secrets in
  (forall bindingID' requestParams',
     result (CreateBinding bindingID' deploymentTopology manifest requestParams'
               secrets) = result call)
  /\ logged call
     = platform_notice requestParams
       ++ match getRedisHost deploymentTopology with
          | Err e => [e]
          | Panic _ => []
          | Ok _ => match result call with Err e => [e] | _ => [] end
          end.
Proof.
  cbv zeta. split.
  - intros bindingID' requestParams'. by rewrite !CreateBinding_result.
  - apply CreateBinding_logged.
Qed.

(** The topologies that resolve to a host. *)
Lemma getRedisHost_Ok_singleton (deploymentTopology : BoshVMs) host :
  getRedisHost deploymentTopology = Ok host
  <-> deploymentTopology = {[ "redis-server" := [host] ]}.
Proof.
  rewrite getRedisHost_Ok. split.
  - intros [Hsize Hips].
    assert (deploymentTopology !! "redis-server" = Some [host]) as Hlookup.
    { unfold lookup_total, map_lookup_total in Hips.
      by destruct (deploymentTopology !! "redis-server") as [ips|]; simplify_eq/=. }
    rewrite <- (insert_delete_id deploymentTopology "redis-server" [host]) by done.
    assert (delete "redis-server" deploymentTopology = ∅) as ->; [|apply insert_empty].
    apply map_size_empty_inv. rewrite map_size_delete_Some by by eexists.
    by rewrite Hsize.
  - intros ->. split; [apply map_size_singleton|].
    by rewrite lookup_total_singleton.
Qed.

(** X12. [getRedisHost] returns an address exactly when the topology is
    the one instance group redis-server with that one address; every
    other topology gives one of the two cardinality errors, and the
    function never panics. *)
Theorem getRedisHost_singleton (deploymentTopology : BoshVMs) :
  (forall host, getRedisHost deploymentTopology = Ok host
                <-> deploymentTopology = {[ "redis-server" := [host] ]})
  /\ ((forall host, deploymentTopology <> {[ "redis-server" := [host] ]}) ->
      getRedisHost deploymentTopology
      = Err ("expected 1 instance group in the Redis deployment, got "
             +:+ pretty (size deploymentTopology))
      \/ getRedisHost deploymentTopology
         = Err ("expected redis-server instance group to have only 1 instance, got "
                +:+ pretty (length (deploymentTopology !!! "redis-server"))))
  /\ (forall p, getRedisHost deploymentTopology <> Panic p).
Proof.
  split; [intros host; apply getRedisHost_Ok_singleton|].
  split; [|apply getRedisHost_no_Panic].
  intros Hno. unfold getRedisHost.
  case_decide as Hsize; [by left|]. right.
  destruct (deploymentTopology !!! "redis-server") as [|host [|host' ips]] eqn:Hips;
    [done| |done].
  destruct (Hno host). apply getRedisHost_Ok_singleton, getRedisHost_Ok.
  split; [|done]. by destruct (decide (size deploymentTopology = 1%nat)); [|destruct Hsize].
Qed.

(** X13. The credentials of a binding. When [CreateBinding] returns
    credentials they have exactly the keys host, port, generated_secret,
    password and secret: the host is the one address of the topology,
    the port is 6379, the generated secret is the value of secret_pass
    in the secrets (the empty string without secrets), the password is
    the string stored as the password of the manifest, and the secret is
    the empty string unless the manifest declares one. *)
Theorem binding_credentials bindingID (deploymentTopology : BoshVMs) manifest
    requestParams (secrets : ManifestSecrets) b :
  result (CreateBinding bindingID deploymentTopology manifest requestParams secrets)
  = Ok b ->
  exists host generatedSecret password secret props,
    Binding.Credentials b
    = {[ "host" := VString host;
         "port" := VInt 6379;
         "generated_secret" := VString generatedSecret;
         "password" := VString password;
         "secret" := VString secret ]}
    /\ dom (Binding.Credentials b)
       = {[ "host"; "port"; "generated_secret"; "password"; "secret" ]}
    /\ deploymentTopology = {[ "redis-server" := [host] ]}
    /\ match secrets with
       | Some m => m !! "secret_pass" = Some generatedSecret
       | None => generatedSecret = EmptyString
       end
    /\ redisPlanProperties manifest = Ok props
    /\ props !! "password" = Some (VString password)
    /\ (is_nil (props !!! "secret") = true -> secret = EmptyString).
Proof.
  rewrite CreateBinding_result.
  destruct (getRedisHost deploymentTopology) as [host| |] eqn:Hhost; [|done..].
  intros H.
  apply outcome_bind_Ok in H as (g & Hg & H).
  apply outcome_bind_Ok in H as (props & Hprops & H).
  apply outcome_bind_Ok in H as (s & Hs & H).
  apply outcome_bind_Ok in H as (pw & Hpw & H).
  injection H as <-. exists host, g, pw, s, props.
  split; [done|]. split.
  { cbn. rewrite !dom_insert_L, dom_singleton_L. set_solver. }
  split; [by apply getRedisHost_Ok_singleton|]. split.
  { destruct secrets as [m|]; [|by injection Hg].
    unfold secrets_lookup in Hg. cbn in Hg.
    destruct (m !! "secret_pass"); by simplify_eq. }
  split; [done|]. split.
  - unfold assert_string, lookup_total, map_lookup_total in Hpw.
    destruct (props !! "password") as [[]|]; cbn in Hpw; congruence.
  - intros Hnil. rewrite Hnil in Hs. cbn in Hs. by injection Hs.
Qed.

(** X14. Binding a manifest that cannot be read. With the host resolved
    and the generated secret read, [CreateBinding] panics, and returns
    no error, when the manifest has no instance group, when the first
    instance group has no redis property that is a map, and, no secret
    being declared, when the stored password is absent or not a string. *)
Theorem binding_unreadable_manifest_panics bindingID deploymentTopology manifest
    requestParams (secrets : ManifestSecrets) host :
  getRedisHost deploymentTopology = Ok host ->
  (secrets = None \/ is_Some (secrets_lookup secrets "secret_pass")) ->
  let call :=
    CreateBinding bindingID deploymentTopology manifest requestParams secrets in
  (BoshManifest.InstanceGroups manifest = [] ->
     call = Run (platform_notice requestParams) (Panic IndexOutOfRange))
  /\ (forall instanceGroup rest,
        BoshManifest.InstanceGroups manifest = instanceGroup :: rest ->
        (forall m, bosh.InstanceGroup.Properties instanceGroup !! "redis"
                   <> Some (VMap m)) ->
        call = Run (platform_notice requestParams) (Panic InterfaceConversion))
  /\ (forall props,
        redisPlanProperties manifest = Ok props ->
        is_nil (props !!! "secret") = true ->
        (forall s, props !! "password" <> Some (VString s)) ->
        call = Run (platform_notice requestParams) (Panic InterfaceConversion)).
Proof.
  intros Hhost Hsecrets. cbv zeta.
  pose proof (CreateBinding_logged bindingID deploymentTopology manifest
                requestParams secrets) as Hlog.
  rewrite Hhost in Hlog.
  assert (Hpanic : forall p,
            result (CreateBinding bindingID deploymentTopology manifest
                      requestParams secrets) = Panic p ->
            CreateBinding bindingID deploymentTopology manifest requestParams secrets
            = Run (platform_notice requestParams) (Panic p)).
  { intros p Hp. rewrite Hp, app_nil_r in Hlog.
    destruct (CreateBinding _ _ _ _ _) as [l r]. cbn in *. by subst. }
  assert (Hg : exists g : string,
            match secrets with
            | Some _ =>
                match secrets_lookup secrets "secret_pass" with
                | Some generatedSecret => Ok generatedSecret
                | None =>
                    Err "manifest wasn't correctly interpolated: missing value for `secret_pass`"
                end
            | None => Ok EmptyString
            end = Ok g).
  { destruct Hsecrets as [->|[g Hg]]; [by eexists|].
    destruct secrets; [|done]. rewrite Hg. by eexists. }
  destruct Hg as [g Hg].
  repeat split.
  - intros Hnone. apply Hpanic.
    rewrite CreateBinding_result, Hhost, Hg. cbn.
    unfold redisPlanProperties. by rewrite Hnone.
  - intros instanceGroup rest Hgroups Hredis. apply Hpanic.
    rewrite CreateBinding_result, Hhost, Hg. cbn.
    unfold redisPlanProperties. rewrite Hgroups.
    unfold assert_map, lookup_total, map_lookup_total.
    destruct (bosh.InstanceGroup.Properties instanceGroup !! "redis") as [[]|] eqn:Hr;
      try done. by destruct (Hredis m).
  - intros props Hprops Hnil Hpw. apply Hpanic.
    rewrite CreateBinding_result, Hhost, Hg. cbn. rewrite Hprops. cbn.
    rewrite Hnil. cbn.
    unfold assert_string, lookup_total, map_lookup_total.
    destruct (props !! "password") as [[]|] eqn:Hp; try done. by destruct (Hpw s).
Qed.

(** ** The generator with the binder, and the releases *)

Section GeneratorAndBinder.

Variable CurrentPasswordGenerator : outcome string.
Variable float64_to_int_unrepresentable : float64 -> Z.

Abbreviation GenerateManifest :=
  (GenerateManifest CurrentPasswordGenerator float64_to_int_unrepresentable).

(** X15. A manifest that [GenerateManifest] returned can be bound: with
    a topology of one redis-server instance, and secrets that are absent
    or hold secret_pass, [CreateBinding] returns credentials with the
    address of the instance, the password of the manifest, the generated
    secret and no secret from the configuration store. *)
Theorem generated_manifest_binds ks serviceDeployment plan requestParams
    previousManifest previousPlan out bindingID host requestParams'
    (secrets : ManifestSecrets) generatedSecret :
  result (GenerateManifest ks serviceDeployment plan requestParams
            previousManifest previousPlan) = Ok out ->
  match secrets with
  | Some m => m !! "secret_pass" = Some generatedSecret
  | None => generatedSecret = EmptyString
  end ->
  exists password props,
    redisPlanProperties out = Ok props
    /\ props !! "password" = Some (VString password)
    /\ result (CreateBinding bindingID {[ "redis-server" := [host] ]} out
                 requestParams' secrets)
       = Ok {| Binding.Credentials :=
                 {[ "host" := VString host;
                    "port" := VInt 6379;
                    "generated_secret" := VString generatedSecret;
                    "password" := VString password;
                    "secret" := VString EmptyString ]} |}.
Proof.
  intros Hout Hsecrets.
  apply GenerateManifest_Ok in Hout
    as (_ & _ & ig & props & jobs & g & _ & Hprops & _ & Hgroups & _ & Hg).
  apply redisServerProperties_Ok in Hprops
    as (prevProps & persistence & password & maxClients & _ & _ & _ & _ & ->).
  exists password. eexists. split; [|split].
  - unfold redisPlanProperties. rewrite Hgroups, Hg. reflexivity.
  - reflexivity.
  - rewrite CreateBinding_result.
    assert (getRedisHost {[ "redis-server" := [host] ]} = Ok host) as ->.
    { apply getRedisHost_Ok. split; [apply map_size_singleton|].
      by rewrite lookup_total_singleton. }
    assert (redisPlanProperties out
            = Ok {[ "persistence" := VString persistence;
                    "password" := VString password;
                    "maxclients" := VInt maxClients ]}) as ->.
    { unfold redisPlanProperties. rewrite Hgroups, Hg. reflexivity. }
    destruct secrets as [m|].
    + unfold secrets_lookup. cbn [mbind option_bind]. rewrite Hsecrets. reflexivity.
    + subst generatedSecret. reflexivity.
Qed.

(** X16. A release that was renamed or removed. When the release of the
    job is resolved and the previous manifest has no release of its
    name, the validation of the upgrade path fails with an error that
    names the release, whatever the versions are; [GenerateManifest]
    returns that error, and writes nothing, once the parameters are
    legal. *)
Theorem renamed_release_refused ks serviceDeployment plan requestParams pm
    previousPlan newR :
  findReleaseForJob RedisServerJobName
    (ServiceDeployment.Releases serviceDeployment) = Ok newR ->
  (forall r, r ∈ BoshManifest.Releases pm ->
             Release.Name r <> ServiceRelease.Name newR) ->
  let err := "no release with name " +:+ ServiceRelease.Name newR
             +:+ " found in previous manifest" in
  validUpgradePath pm (ServiceDeployment.Releases serviceDeployment) = Err err
  /\ (findIllegalArbitraryParams ks
        (RequestParameters.ArbitraryParams requestParams) = [] ->
      GenerateManifest ks serviceDeployment plan requestParams (Some pm) previousPlan
      = Run [] (Err err)).
Proof.
  intros Hnew Hnone err.
  assert (Hv : validUpgradePath pm (ServiceDeployment.Releases serviceDeployment)
               = Err err).
  { unfold validUpgradePath. rewrite Hnew. cbn.
    unfold findOldManifestRedisRelease.
    rewrite (proj2 (find_None_iff _ _)); [done|].
    intros r Hr. apply bool_decide_eq_false. by apply Hnone. }
  split; [done|]. intros Hill.
  unfold adapter.GenerateManifest. rewrite Hill. case_decide; [done|].
  by rewrite Hv.
Qed.

End GeneratorAndBinder.

Lemma matches_app job (l1 l2 : list ServiceRelease.t) :
  matches job (l1 ++ l2) = matches job l1 ++ matches job l2.
Proof. unfold matches. apply bind_app. Qed.

Lemma matches_nil_iff job (releases : list ServiceRelease.t) :
  matches job releases = [] <->
  forall r, r ∈ releases -> job ∉ ServiceRelease.Jobs r.
Proof.
  split.
  - intros Hm r Hr Hj.
    assert (r ∈ matches job releases) as Hin by by apply elem_of_matches.
    rewrite Hm in Hin. by apply elem_of_nil in Hin.
  - intros Hno. destruct (matches job releases) as [|r l] eqn:Hm; [done|].
    assert (r ∈ matches job releases) as Hin by (rewrite Hm; left).
    apply elem_of_matches in Hin as [Hr Hj]. by destruct (Hno r Hr).
Qed.

Lemma filter_eq_one (job : string) (jobs : list string) :
  length (filter (fun j => j = job) jobs) = 1%nat <->
  exists j1 j2, jobs = j1 ++ job :: j2 /\ (job ∉ j1) /\ (job ∉ j2).
Proof.
  split.
  - induction jobs as [|j jobs IH]; [done|].
    rewrite filter_cons. case_decide as Hj.
    + subst j. cbn. intros [= Hlen]. exists [], jobs. split; [done|].
      split; [apply not_elem_of_nil|].
      intros Hin. apply length_zero_iff_nil in Hlen.
      assert (job ∈ filter (fun j => j = job) jobs) as Hf
        by by apply list_elem_of_filter.
      rewrite Hlen in Hf. by apply elem_of_nil in Hf.
    + intros Hlen. destruct (IH Hlen) as (j1 & j2 & -> & H1 & H2).
      exists (j :: j1), j2. split; [done|]. split; [|done].
      apply not_elem_of_cons. split; [congruence|done].
  - intros (j1 & j2 & -> & H1 & H2).
    rewrite filter_app, filter_cons_True by done.
    by rewrite !filter_eq_none.
Qed.

(** X17. [findReleaseForJob] returns a release exactly when one release
    of the list names the job, names it once, and no other release names
    it. A release that names the job twice is refused like two releases;
    the function never panics. *)
Theorem findReleaseForJob_unique_provider job (releases : list ServiceRelease.t) r :
  (findReleaseForJob job releases = Ok r
   <-> exists l1 l2 j1 j2,
         releases = l1 ++ r :: l2
         /\ (forall r', r' ∈ l1 ++ l2 -> job ∉ ServiceRelease.Jobs r')
         /\ ServiceRelease.Jobs r = j1 ++ job :: j2
         /\ (job ∉ j1) /\ (job ∉ j2))
  /\ (forall p, findReleaseForJob job releases <> Panic p).
Proof.
  rewrite findReleaseForJob_matches. split.
  2:{ intros p. by destruct (matches job releases) as [|? [|]]. }
  transitivity (matches job releases = [r]).
  { destruct (matches job releases) as [|r' [|r'' l]]; split; intros; by simplify_eq. }
  split.
  - induction releases as [|a l IH]; [done|].
    change (matches job (a :: l)) with (matches job ([a] ++ l)).
    rewrite matches_app.
    change (matches job [a])
      with (replicate (length (filter (fun j => j = job) (ServiceRelease.Jobs a))) a
            ++ []).
    rewrite app_nil_r.
    destruct (length (filter (fun j => j = job) (ServiceRelease.Jobs a)))
      as [|[|n]] eqn:Hlen; cbn.
    + intros Hm. destruct (IH Hm) as (l1 & l2 & j1 & j2 & -> & Hno & Hj).
      exists (a :: l1), l2, j1, j2. split; [done|]. split; [|done].
      intros r' [->|Hr']%elem_of_cons; [|by apply Hno].
      apply length_zero_iff_nil in Hlen. intros Hin.
      assert (job ∈ filter (fun j => j = job) (ServiceRelease.Jobs a)) as Hf
        by by apply list_elem_of_filter.
      rewrite Hlen in Hf. by apply elem_of_nil in Hf.
    + intros [= -> Hm]. apply filter_eq_one in Hlen as (j1 & j2 & Hj).
      exists [], l, j1, j2. split; [done|]. split; [|done].
      by apply matches_nil_iff.
    + done.
  - intros (l1 & l2 & j1 & j2 & -> & Hno & Hj).
    change (r :: l2) with ([r] ++ l2). rewrite !matches_app.
    rewrite (proj2 (matches_nil_iff job l1)), (proj2 (matches_nil_iff job l2)).
    + unfold matches. cbn. rewrite (proj2 (filter_eq_one job _)); [done|].
      destruct Hj as (? & ? & ?). eauto.
    + intros r' Hr'. apply Hno, elem_of_app. by right.
    + intros r' Hr'. apply Hno, elem_of_app. by left.
Qed.

(** ** The version grammar *)

Lemma exec_lit p k s caps :
  exec (lit p k) s caps
  = match strip_prefix p s with Some t => exec k t caps | None => [] end.
Proof.
  revert s. induction p as [|c p IH]; intros s; [done|].
  destruct s as [|x s]; [done|]. cbn. destruct (Ascii.eqb x c); cbn; [|done].
  by rewrite app_nil_r, IH.
Qed.

Lemma is_digit_not c : is_digit c = true -> c <> "."%char /\ c <> "+"%char.
Proof. split; intros ->; discriminate. Qed.

Lemma exec_patch u caps :
  exec patch_regexp u caps
  = match strip_prefix "+dev." u with
    | Some w =>
        if decide (take_class is_digit w ≠ EmptyString
                   /\ drop_class is_digit w = EmptyString)
        then [(EmptyString, <[3%nat := take_class is_digit w]> caps)] else []
    | None => []
    end
    ++ match u with EmptyString => [(EmptyString, caps)] | String _ _ => [] end.
Proof.
  unfold patch_regexp. cbn [exec]. rewrite bind_app. f_equal.
  - rewrite exec_lit. destruct (strip_prefix "+dev." u) as [w|]; [|done].
    cbn [exec]. rewrite !list_fmap_bind, (many1_bind is_digit w).
    + unfold compose. cbn [fst snd]. rewrite consumed_take_drop.
      case_decide as Htake.
      { by case_decide as Hd; [destruct Hd|]. }
      destruct (drop_class is_digit w) eqn:Hdrop.
      * by case_decide as Hd; [|destruct Hd].
      * by case_decide as Hd; [destruct Hd|].
    + by intros c s' Hc.
  - cbn. rewrite app_nil_r. by destruct u.
Qed.

Lemma exec_patch_digit c s caps :
  is_digit c = true -> exec patch_regexp (String c s) caps = [].
Proof.
  intros Hc. rewrite exec_patch. cbn.
  destruct (Ascii.eqb_spec c "+") as [->|]; [discriminate|done].
Qed.

Lemma exec_minor u caps :
  exec minor_regexp u caps
  = match u with
    | String c t1 =>
        if decide (c = "."%char /\ take_class is_digit t1 ≠ EmptyString)
        then exec patch_regexp (drop_class is_digit t1)
               (<[2%nat := take_class is_digit t1]> caps)
        else []
    | EmptyString => []
    end
    ++ exec patch_regexp u caps.
Proof.
  unfold minor_regexp. cbn [exec]. rewrite bind_app. f_equal.
  - destruct u as [|c t1]; [done|]. cbn [exec].
    destruct (Ascii.eqb_spec c ".") as [->|Hc].
    + cbn [mbind list_bind mapM fst snd]. rewrite !bind_app.
      change ([(t1, caps)] ≫= ?f) with (f (t1, caps) ++ []).
      rewrite !app_nil_r. cbn [fst snd].
      rewrite !list_fmap_bind, (many1_bind is_digit t1).
      * unfold compose. cbn [fst snd]. rewrite consumed_take_drop.
        case_decide as Htake.
        -- by case_decide as Hd; [destruct Hd|].
        -- by case_decide as Hd; [|destruct Hd].
      * intros c s' Hc. unfold compose. cbn [fst snd].
        by apply exec_patch_digit.
    + cbn. by case_decide as Hd; [destruct Hd|].
  - cbn. by rewrite app_nil_r.
Qed.

Lemma exec_minor_digit c s caps :
  is_digit c = true -> exec minor_regexp (String c s) caps = [].
Proof.
  intros Hc. rewrite exec_minor, exec_patch_digit by done.
  destruct (is_digit_not c Hc) as [Hdot _].
  by case_decide as Hd; [destruct Hd|].
Qed.

Lemma exec_versionRegexp v caps :
  exec versionRegexp v caps
  = if decide (take_class is_digit v = EmptyString) then []
    else exec minor_regexp (drop_class is_digit v)
           (<[1%nat := take_class is_digit v]> caps).
Proof.
  change versionRegexp with (Cat (Grp 1 (Many1 is_digit)) minor_regexp).
  cbn [exec]. rewrite !list_fmap_bind, (many1_bind is_digit v).
  - unfold compose. cbn [fst snd]. by rewrite consumed_take_drop.
  - intros c s' Hc. unfold compose. cbn [fst snd]. by apply exec_minor_digit.
Qed.

Lemma strip_prefix_Some p s t : strip_prefix p s = Some t <-> s = p +:+ t.
Proof.
  revert s. induction p as [|c p IH]; intros s.
  - rewrite append_nil. cbn. split; congruence.
  - rewrite append_cons. destruct s as [|x s]; [done|]. cbn.
    destruct (Ascii.eqb_spec x c) as [->|Hne].
    + rewrite IH. split; congruence.
    + split; [done|]. congruence.
Qed.

Lemma digits_take_drop a rest :
  digits a ->
  (forall c r, rest = String c r -> is_digit c = false) ->
  take_class is_digit (a +:+ rest) = a /\ drop_class is_digit (a +:+ rest) = rest.
Proof. intros [_ Ha] Hrest. by apply take_drop_class_app. Qed.

Lemma take_class_digits s :
  take_class is_digit s <> EmptyString -> digits (take_class is_digit s).
Proof. intros H. split; [done|apply take_class_Forall]. Qed.

Lemma append_nil_r (s : string) : s +:+ EmptyString = s.
Proof. induction s as [|c s IH]; [done|]. by rewrite append_cons, IH. Qed.

Lemma exec_patch_text c caps :
  c = EmptyString \/ digits c ->
  exec patch_regexp
    (if decide (c = EmptyString) then EmptyString else "+dev." +:+ c) caps
  = [(EmptyString, if decide (c = EmptyString) then caps else <[3%nat := c]> caps)].
Proof.
  intros Hc. rewrite exec_patch.
  destruct (decide (c = EmptyString)) as [->|Hne]; [done|].
  destruct Hc as [?|Hc]; [done|].
  rewrite (proj2 (strip_prefix_Some "+dev." _ c)) by done.
  pose proof (digits_take_drop c EmptyString Hc) as Hx.
  rewrite append_nil_r in Hx. destruct Hx as [-> ->]; [done|].
  by rewrite decide_True by (split; [apply Hc|done]).
Qed.

Lemma patch_text_not_digit c ch r :
  (if decide (c = EmptyString) then EmptyString else "+dev." +:+ c) = String ch r ->
  is_digit ch = false /\ ch <> "."%char.
Proof. case_decide; [done|]. by intros [= <- _]. Qed.

Lemma exec_minor_text b c caps :
  b = EmptyString \/ digits b ->
  c = EmptyString \/ digits c ->
  exec minor_regexp
    ((if decide (b = EmptyString) then EmptyString else "." +:+ b)
     +:+ (if decide (c = EmptyString) then EmptyString else "+dev." +:+ c)) caps
  = [(EmptyString,
      let caps2 := if decide (b = EmptyString) then caps else <[2%nat := b]> caps in
      if decide (c = EmptyString) then caps2 else <[3%nat := c]> caps2)].
Proof.
  intros Hb Hc. rewrite exec_minor.
  destruct (decide (b = EmptyString)) as [->|Hne].
  - rewrite append_nil, exec_patch_text by done.
    destruct (if decide (c = EmptyString) then EmptyString else "+dev." +:+ c)
      as [|ch r] eqn:Htext; [done|].
    destruct (patch_text_not_digit c ch r Htext) as [_ Hdot].
    by rewrite decide_False by (by intros [? _]).
  - destruct Hb as [?|Hb]; [done|].
    change (("." +:+ b) +:+ ?x) with (String "." (b +:+ x)).
    destruct (digits_take_drop b
                (if decide (c = EmptyString) then EmptyString else "+dev." +:+ c) Hb)
      as [-> ->].
    { intros ch r Htext. by destruct (patch_text_not_digit c ch r Htext). }
    rewrite decide_True by (split; [done|apply Hb]).
    rewrite exec_patch_text by done. by rewrite exec_patch.
Qed.

(** The submatches of a version: the whole text and the three numerals. *)
Lemma FindStringSubmatch_version_fields a b c :
  version_fields a b c ->
  FindStringSubmatch 3 versionRegexp (version_text a b c)
  = [version_text a b c; a; b; c].
Proof.
  intros (Ha & Hb & Hc). unfold FindStringSubmatch.
  rewrite exec_versionRegexp. unfold version_text.
  destruct (digits_take_drop a
              ((if decide (b = EmptyString) then EmptyString else "." +:+ b)
               +:+ (if decide (c = EmptyString) then EmptyString else "+dev." +:+ c))
              Ha) as [-> ->].
  { intros ch r. destruct (decide (b = EmptyString)).
    - rewrite append_nil. intros Htext.
      by destruct (patch_text_not_digit c ch r Htext).
    - by intros [= <- _]. }
  rewrite decide_False by apply Ha.
  rewrite exec_minor_text by done. rewrite consumed_all. cbv zeta.
  by destruct (decide (b = EmptyString)) as [->|], (decide (c = EmptyString)) as [->|].
Qed.

(** Only versions have submatches. *)
Lemma FindStringSubmatch_version_inv v :
  FindStringSubmatch 3 versionRegexp v <> [] ->
  exists a b c, version_fields a b c /\ v = version_text a b c.
Proof.
  unfold FindStringSubmatch. rewrite exec_versionRegexp.
  case_decide as Ha; [done|].
  pose proof (take_drop_class is_digit v) as Hv.
  set (a := take_class is_digit v) in *.
  assert (Hpatch : forall u caps,
            exec patch_regexp u caps <> [] ->
            exists c, (c = EmptyString \/ digits c)
              /\ u = if decide (c = EmptyString) then EmptyString
                     else "+dev." +:+ c).
  { intros u caps. rewrite exec_patch.
    destruct (strip_prefix "+dev." u) as [w|] eqn:Hw.
    - apply strip_prefix_Some in Hw as ->.
      case_decide as Hd.
      + intros _. destruct Hd as [Ht Hd]. exists w.
        pose proof (take_drop_class is_digit w) as Hw.
        rewrite Hd, append_nil_r in Hw. rewrite Hw in Ht.
        split; [right; rewrite <- Hw; apply take_class_digits; by rewrite Hw|].
        by rewrite decide_False.
      + done.
    - destruct u; [|done]. intros _. exists EmptyString. split; [by left|done]. }
  rewrite exec_minor.
  destruct (drop_class is_digit v) as [|ch t1] eqn:Ht.
  - intros _. exists a, EmptyString, EmptyString.
    split; [split; [by apply take_class_digits|split; by left]|].
    unfold version_text. cbn. by rewrite !append_nil_r in *.
  - case_decide as Hd.
    + destruct Hd as [-> Hb]. intros Hex.
      assert (exec patch_regexp (String "." t1) (<[1%nat:=a]> (replicate 4 EmptyString)) = []) as Hnil
        by by rewrite exec_patch.
      rewrite Hnil, app_nil_r in Hex.
      assert (exec patch_regexp (drop_class is_digit t1)
                (<[2%nat:=take_class is_digit t1]>
                   (<[1%nat:=a]> (replicate 4 EmptyString))) <> []) as Hne
        by by destruct (exec patch_regexp _ _).
      destruct (Hpatch _ _ Hne) as (c & Hc & Hu).
      exists a, (take_class is_digit t1), c.
      split; [split; [by apply take_class_digits|split;
                        [right; by apply take_class_digits|done]]|].
      unfold version_text. rewrite decide_False by done.
      rewrite <- Hv. f_equal.
      change (("." +:+ take_class is_digit t1) +:+ ?x)
        with (String "." (take_class is_digit t1 +:+ x)).
      f_equal. rewrite <- Hu. by rewrite take_drop_class.
    + cbn [app]. intros Hex.
      assert (exec patch_regexp (String ch t1)
                (<[1%nat:=a]> (replicate 4 EmptyString)) <> []) as Hne
        by by destruct (exec patch_regexp _ _).
      destruct (Hpatch _ _ Hne) as (c & Hc & Hu).
      exists a, EmptyString, c.
      split; [split; [by apply take_class_digits|split; [by left|done]]|].
      unfold version_text. rewrite decide_True by done.
      rewrite append_nil, <- Hu. done.
Qed.

(** ** Numerals *)

Lemma is_digit_sign c (s : string) :
  is_digit c = true ->
  match String c s with
  | String "+"%char s' => (false, s')
  | String "-"%char s' => (true, s')
  | _ => (false, String c s)
  end = (false, String c s).
Proof. destruct c as [[] [] [] [] [] [] [] []]; by intros. Qed.

Lemma digits_value_Forall s acc :
  Forall (fun c => is_digit c = true) (list_ascii_of_string s) ->
  (0 ≤ acc)%Z ->
  exists n, digits_value acc s = Some n /\ (0 ≤ n)%Z.
Proof.
  revert acc. induction s as [|c s IH]; intros acc Hs Hacc; cbn.
  - eauto.
  - cbn in Hs. apply Forall_cons in Hs as [Hc Hs]. rewrite Hc.
    apply IH; [done|].
    unfold is_digit in Hc. apply andb_true_iff in Hc as [Hlo _].
    apply Nat.leb_le in Hlo. lia.
Qed.

Lemma Atoi_digits a :
  digits a ->
  (0 ≤ decimal a)%Z
  /\ Atoi a = if decide (decimal a ≤ MaxInt)%Z then Ok (decimal a)
              else Err (NumError a "value out of range").
Proof.
  intros [Hne Ha]. unfold decimal.
  destruct (digits_value_Forall a 0 Ha) as (n & Hn & Hpos); [done|].
  rewrite Hn. cbn [default from_option id]. split; [done|].
  destruct a as [|c a]; [done|]. unfold Atoi.
  cbn in Ha. apply Forall_cons in Ha as [Hc _].
  rewrite (is_digit_sign c a Hc), Hn.
  assert ((MinInt <=? n)%Z = true) as ->.
  { apply Z.leb_le. unfold MinInt. lia. }
  cbn [andb]. case_decide as Hle.
  - by rewrite (proj2 (Z.leb_le _ _) Hle).
  - by rewrite (proj2 (Z.leb_gt _ _)) by lia.
Qed.

(** Parsing a version comes to reading its three numerals. *)
Lemma parseReleaseVersion_fields a b c :
  version_fields a b c ->
  parseReleaseVersion (version_text a b c)
  = (major ← Atoi a;
     minor ← (if decide (b ≠ EmptyString) then Atoi b else Ok 0%Z);
     patch ← (if decide (c ≠ EmptyString) then Atoi c else Ok 0%Z);
     Ok (major, minor, patch)).
Proof.
  intros Hf. unfold parseReleaseVersion.
  rewrite (FindStringSubmatch_version_fields a b c Hf).
  by rewrite decide_False by done.
Qed.

Lemma decimal_empty : decimal EmptyString = 0%Z.
Proof. done. Qed.

Lemma optional_numeral b :
  b = EmptyString \/ digits b ->
  (0 ≤ decimal b)%Z
  /\ (if decide (b ≠ EmptyString) then Atoi b else Ok 0%Z)
     = if decide (decimal b ≤ MaxInt)%Z then Ok (decimal b)
       else Err (NumError b "value out of range").
Proof.
  intros [->|Hb].
  - split; [done|]. rewrite decimal_empty.
    rewrite decide_False by (by intros H; apply H).
    by rewrite decide_True.
  - rewrite decide_True by apply Hb. by apply Atoi_digits.
Qed.

(** X18. [parseReleaseVersion] and the grammar MAJOR[.MINOR][+dev.PATCH]
    of decimal numerals. A text of the grammar whose numerals are at
    most the greatest [int] parses to their values, a missing numeral as
    0; what parses is such a text, so the components are never negative;
    a text of the grammar with a numeral beyond the greatest [int] fails
    with the range error of [strconv.Atoi] for that numeral; and a text
    outside the grammar fails with the error that names it as not a
    valid BOSH release version. *)
Theorem parseReleaseVersion_grammar :
  (forall a b c,
     version_fields a b c ->
     (decimal a ≤ MaxInt)%Z -> (decimal b ≤ MaxInt)%Z -> (decimal c ≤ MaxInt)%Z ->
     parseReleaseVersion (version_text a b c)
     = Ok (decimal a, decimal b, decimal c))
  /\ (forall v x y z,
        parseReleaseVersion v = Ok (x, y, z) ->
        exists a b c,
          version_fields a b c /\ v = version_text a b c
          /\ x = decimal a /\ y = decimal b /\ z = decimal c
          /\ (0 ≤ x ≤ MaxInt)%Z /\ (0 ≤ y ≤ MaxInt)%Z /\ (0 ≤ z ≤ MaxInt)%Z)
  /\ (forall a b c,
        version_fields a b c ->
        (MaxInt < decimal a)%Z \/ (MaxInt < decimal b)%Z \/ (MaxInt < decimal c)%Z ->
        exists numeral,
          numeral ∈ [a; b; c]
          /\ parseReleaseVersion (version_text a b c)
             = Err (NumError numeral "value out of range"))
  /\ (forall v,
        (forall a b c, version_fields a b c -> v <> version_text a b c) ->
        parseReleaseVersion v = Err (v +:+ " is not a valid BOSH release version")).
Proof.
  assert (Hparse : forall a b c,
    version_fields a b c ->
    (0 ≤ decimal a)%Z /\ (0 ≤ decimal b)%Z /\ (0 ≤ decimal c)%Z
    /\ parseReleaseVersion (version_text a b c)
       = if decide (decimal a ≤ MaxInt)%Z
         then if decide (decimal b ≤ MaxInt)%Z
              then if decide (decimal c ≤ MaxInt)%Z
                   then Ok (decimal a, decimal b, decimal c)
                   else Err (NumError c "value out of range")
              else Err (NumError b "value out of range")
         else Err (NumError a "value out of range")).
  { intros a b c Hf. rewrite (parseReleaseVersion_fields a b c Hf).
    destruct Hf as (Ha & Hb & Hc).
    destruct (Atoi_digits a Ha) as [Hpa ->].
    destruct (optional_numeral b Hb) as [Hpb ->].
    destruct (optional_numeral c Hc) as [Hpc ->].
    repeat split; try done. by repeat case_decide. }
  split; [|split; [|split]].
  - intros a b c Hf Ha Hb Hc. destruct (Hparse a b c Hf) as (_ & _ & _ & ->).
    by rewrite !decide_True.
  - intros v x y z Hv.
    assert (FindStringSubmatch 3 versionRegexp v <> []) as Hm.
    { intros Hnil. unfold parseReleaseVersion in Hv. by rewrite Hnil in Hv. }
    apply FindStringSubmatch_version_inv in Hm as (a & b & c & Hf & ->).
    destruct (Hparse a b c Hf) as (Hpa & Hpb & Hpc & Heq).
    rewrite Heq in Hv. exists a, b, c.
    repeat case_decide; try done. injection Hv as <- <- <-. done.
  - intros a b c Hf Hbig. destruct (Hparse a b c Hf) as (_ & _ & _ & ->).
    repeat case_decide; try lia; eexists; (split; [|done]);
      first [by left | by right; left | by right; right; left].
  - intros v Hno. unfold parseReleaseVersion.
    destruct (FindStringSubmatch 3 versionRegexp v) as [|m l] eqn:Hm; [done|].
    assert (FindStringSubmatch 3 versionRegexp v <> []) as Hne by by rewrite Hm.
    apply FindStringSubmatch_version_inv in Hne as (a & b & c & Hf & Hv).
    by destruct (Hno a b c Hf).
Qed.

(** ** Printing and parsing *)

Lemma pretty_N_char_digit (d : N) :
  (d < 10)%N ->
  is_digit (pretty_N_char d) = true
  /\ (Z.of_nat (nat_of_ascii (pretty_N_char d)) - 48 = Z.of_N d)%Z.
Proof.
  intros Hd.
  assert (d = 0 \/ d = 1 \/ d = 2 \/ d = 3 \/ d = 4 \/ d = 5 \/ d = 6 \/ d = 7
          \/ d = 8 \/ d = 9)%N as Hcases by lia.
  repeat (destruct Hcases as [->|Hcases]; [done|]). by subst.
Qed.

Lemma pretty_N_go_numeral x s :
  Forall (fun c => is_digit c = true) (list_ascii_of_string s) ->
  Forall (fun c => is_digit c = true) (list_ascii_of_string (pretty_N_go x s))
  /\ digits_value 0 (pretty_N_go x s) = digits_value (Z.of_N x) s
  /\ (s <> EmptyString -> pretty_N_go x s <> EmptyString).
Proof.
  revert s. induction (N.lt_wf_0 x) as [x _ IH]; intros s Hs.
  destruct (decide (x = 0)%N) as [->|Hx].
  - by rewrite pretty_N_go_0.
  - rewrite pretty_N_go_step by lia.
    destruct (pretty_N_char_digit (x `mod` 10)%N) as [Hd Hv].
    { apply N.mod_lt. lia. }
    destruct (IH (x `div` 10)%N) with (s := String (pretty_N_char (x `mod` 10)) s)
      as (Hall & Hval & Hne).
    { apply N.div_lt; lia. }
    { cbn. by constructor. }
    split; [done|]. split; [|by intros _; apply Hne].
    rewrite Hval. cbn. rewrite Hd, Hv. f_equal.
    rewrite (N.div_mod x 10) at 3 by lia. lia.
Qed.

(** The decimal print of a number is a numeral of that value. *)
Lemma pretty_N_numeral (x : N) : digits (pretty x) /\ decimal (pretty x) = Z.of_N x.
Proof.
  unfold pretty, pretty_N. case_decide as Hx.
  - subst. split; [split; [done|by repeat constructor]|done].
  - rewrite pretty_N_go_step by lia.
    destruct (pretty_N_char_digit (x `mod` 10)%N) as [Hd Hv].
    { apply N.mod_lt. lia. }
    destruct (pretty_N_go_numeral (x `div` 10)%N
                (String (pretty_N_char (x `mod` 10)) EmptyString))
      as (Hall & Hval & Hne).
    { cbn. by repeat constructor. }
    split; [split; [by apply Hne|done]|].
    unfold decimal. rewrite Hval. cbn. rewrite Hd, Hv. cbn.
    rewrite (N.div_mod x 10) at 3 by lia. lia.
Qed.

(** X19. Printing and parsing a version. For numbers up to the greatest
    [int], the texts MAJOR, MAJOR.MINOR, MAJOR+dev.PATCH and
    MAJOR.MINOR+dev.PATCH written in decimal parse to the numbers they
    were written from, a missing component as 0. *)
Theorem parse_printed_version (major minor patch : N) :
  (Z.of_N major ≤ MaxInt)%Z ->
  (Z.of_N minor ≤ MaxInt)%Z ->
  (Z.of_N patch ≤ MaxInt)%Z ->
  parseReleaseVersion (pretty major) = Ok (Z.of_N major, 0, 0)%Z
  /\ parseReleaseVersion (pretty major +:+ "." +:+ pretty minor)
     = Ok (Z.of_N major, Z.of_N minor, 0%Z)
  /\ parseReleaseVersion (pretty major +:+ "+dev." +:+ pretty patch)
     = Ok (Z.of_N major, 0%Z, Z.of_N patch)
  /\ parseReleaseVersion
       (pretty major +:+ "." +:+ pretty minor +:+ "+dev." +:+ pretty patch)
     = Ok (Z.of_N major, Z.of_N minor, Z.of_N patch).
Proof.
  intros Ha Hb Hc.
  destruct (pretty_N_numeral major) as [Hda Hva].
  destruct (pretty_N_numeral minor) as [Hdb Hvb].
  destruct (pretty_N_numeral patch) as [Hdc Hvc].
  assert (Hparse : forall b c,
    (b = EmptyString /\ decimal b = 0%Z \/ b = pretty minor) ->
    (c = EmptyString /\ decimal c = 0%Z \/ c = pretty patch) ->
    parseReleaseVersion (version_text (pretty major) b c)
    = Ok (Z.of_N major, decimal b, decimal c)).
  { intros b c Hb' Hc'.
    assert (b = EmptyString \/ digits b) as Hfb by (destruct Hb' as [[-> _]| ->]; auto).
    assert (c = EmptyString \/ digits c) as Hfc by (destruct Hc' as [[-> _]| ->]; auto).
    assert (decimal b ≤ MaxInt)%Z as Hlb
      by (destruct Hb' as [[_ ->]| ->]; [done|by rewrite Hvb]).
    assert (decimal c ≤ MaxInt)%Z as Hlc
      by (destruct Hc' as [[_ ->]| ->]; [done|by rewrite Hvc]).
    rewrite parseReleaseVersion_fields by done.
    destruct (Atoi_digits _ Hda) as [_ ->]. rewrite Hva.
    destruct (optional_numeral b Hfb) as [_ ->].
    destruct (optional_numeral c Hfc) as [_ ->].
    by repeat case_decide. }
  assert (Hne : forall x : N, pretty x <> EmptyString)
    by (intros x; apply pretty_N_numeral).
  repeat split.
  - pose proof (Hparse EmptyString EmptyString) as H.
    unfold version_text in H. cbn in H. rewrite !append_nil_r in H.
    apply H; by left.
  - pose proof (Hparse (pretty minor) EmptyString) as H.
    unfold version_text in H.
    rewrite (decide_False (P := pretty minor = EmptyString)) in H by apply Hne.
    cbn in H. rewrite append_nil_r, Hvb in H. apply H; [by right|by left].
  - pose proof (Hparse EmptyString (pretty patch)) as H.
    unfold version_text in H.
    rewrite (decide_False (P := pretty patch = EmptyString)) in H by apply Hne.
    cbn in H. rewrite Hvc in H. apply H; [by left|by right].
  - pose proof (Hparse (pretty minor) (pretty patch)) as H.
    unfold version_text in H.
    rewrite (decide_False (P := pretty minor = EmptyString)) in H by apply Hne.
    rewrite (decide_False (P := pretty patch = EmptyString)) in H by apply Hne.
    rewrite Hvb, Hvc in H.
    replace (pretty major +:+ "." +:+ pretty minor +:+ "+dev." +:+ pretty patch)
      with (pretty major +:+ ("." +:+ pretty minor) +:+ "+dev." +:+ pretty patch);
      [apply H; by right|].
    f_equal.
Qed.

(** ** The default password generator *)

Lemma list_ind3 {A} (P : list A -> Prop) :
  P [] -> (forall a, P [a]) -> (forall a b, P [a; b]) ->
  (forall a b c l, P l -> P (a :: b :: c :: l)) ->
  forall l, P l.
Proof.
  intros H0 H1 H2 H3. fix IH 1.
  intros [|a [|b [|c l]]]; [apply H0|apply H1|apply H2|apply H3, IH].
Qed.

Lemma Encode_length (src : list N) :
  String.length (Encode src) = EncodedLen (length src).
Proof.
  induction src as [|a|a b|a b c l IH] using list_ind3; [done..|].
  cbn [Encode String.length length]. rewrite IH. unfold EncodedLen.
  replace (S (S (S (length l))) + 2)%nat with (length l + 2 + 1 * 3)%nat by lia.
  rewrite Nat.div_add by done. lia.
Qed.

Lemma land_63_lt (x : N) : (N.land x 63 < 64)%N.
Proof.
  change 63%N with (N.ones 6). rewrite N.land_ones. by apply N.mod_lt.
Qed.

Lemma encodeStd_index_at (i : N) :
  (i < 64)%N -> encodeStd_index (encodeStd_at i) = Some i.
Proof.
  intros Hi. rewrite <- (N2Nat.id i).
  assert (N.to_nat i < 64)%nat as Hn by lia.
  generalize dependent (N.to_nat i). clear. intros n Hn.
  do 64 (destruct n as [|n]; [vm_compute; reflexivity|]). lia.
Qed.

Lemma encodeStd_at_inj (i j : N) :
  (i < 64)%N -> (j < 64)%N -> encodeStd_at i = encodeStd_at j -> i = j.
Proof.
  intros Hi Hj Heq. apply encodeStd_index_at in Hi, Hj.
  rewrite Heq in Hi. congruence.
Qed.

Lemma encodeStd_at_not_pad (i : N) : (i < 64)%N -> encodeStd_at i <> "="%char.
Proof.
  intros Hi Heq. apply encodeStd_index_at in Hi. rewrite Heq in Hi.
  vm_compute in Hi. discriminate.
Qed.

Lemma lor_add_disjoint (x a n : N) :
  (x mod 2 ^ n = 0)%N -> (a < 2 ^ n)%N -> N.lor x a = (x + a)%N.
Proof.
  intros Hx Ha.
  assert (N.land x a = 0%N) as Hland.
  { apply N.bits_inj. intros m. rewrite N.land_spec, N.bits_0.
    destruct (N.ltb_spec m n) as [Hm|Hm].
    - rewrite <- (N.mod_pow2_bits_low x n m) by done. by rewrite Hx, N.bits_0.
    - rewrite <- (N.mod_small a (2 ^ n)) by done.
      rewrite N.mod_pow2_bits_high by done. apply andb_false_r. }
  rewrite <- N.lxor_lor by done. by rewrite <- N.add_nocarry_lxor.
Qed.

(** The 24 bits of a group of three bytes as a number. *)
Lemma group_value (b1 b2 b3 : N) :
  (b2 < 256)%N -> (b3 < 256)%N ->
  N.lor (N.lor (N.shiftl b1 16) (N.shiftl b2 8)) b3
  = (b1 * 65536 + b2 * 256 + b3)%N.
Proof.
  intros H2 H3. rewrite !N.shiftl_mul_pow2.
  change (2 ^ 16)%N with 65536%N. change (2 ^ 8)%N with 256%N.
  rewrite (lor_add_disjoint (b1 * 65536) (b2 * 256) 16).
  - rewrite (lor_add_disjoint _ b3 8); [done| |done].
    change (2 ^ 8)%N with 256%N.
    replace (b1 * 65536 + b2 * 256)%N with ((b1 * 256 + b2) * 256)%N by lia.
    apply N.Div0.mod_mul.
  - change (2 ^ 16)%N with 65536%N. apply N.Div0.mod_mul.
  - change (2 ^ 16)%N with 65536%N. lia.
Qed.

Lemma sextet_div (val k : N) :
  N.land (N.shiftr val k) 63 = ((val / 2 ^ k) mod 64)%N.
Proof.
  change 63%N with (N.ones 6). by rewrite N.land_ones, N.shiftr_div_pow2.
Qed.

Lemma sextets_value (v : N) :
  (v < 16777216)%N ->
  v = (((v / 262144) mod 64) * 262144 + ((v / 4096) mod 64) * 4096
       + ((v / 64) mod 64) * 64 + v mod 64)%N.
Proof.
  intros Hv.
  replace (v / 4096)%N with (v / 64 / 64)%N by (by rewrite N.Div0.div_div).
  replace (v / 262144)%N with (v / 64 / 64 / 64)%N by (by rewrite !N.Div0.div_div).
  pose proof (N.div_mod v 64). pose proof (N.div_mod (v / 64) 64).
  pose proof (N.div_mod (v / 64 / 64) 64).
  assert (v / 64 / 64 / 64 < 64)%N.
  { rewrite !N.Div0.div_div. by apply N.Div0.div_lt_upper_bound. }
  rewrite (N.mod_small (v / 64 / 64 / 64) 64) by done.
  lia.
Qed.

(** Two numbers of 24 bits with the same four sextets are equal. *)
Lemma sextets_inj (v w : N) :
  (v < 16777216)%N -> (w < 16777216)%N ->
  encodeStd_at (N.land (N.shiftr v 18) 63) = encodeStd_at (N.land (N.shiftr w 18) 63) ->
  encodeStd_at (N.land (N.shiftr v 12) 63) = encodeStd_at (N.land (N.shiftr w 12) 63) ->
  ((v / 64) mod 64 = (w / 64) mod 64)%N ->
  (v mod 64 = w mod 64)%N ->
  v = w.
Proof.
  intros Hv Hw H1 H2 H3 H4.
  apply encodeStd_at_inj in H1, H2; try apply land_63_lt.
  rewrite !sextet_div in H1, H2.
  change (2 ^ 18)%N with 262144%N in H1. change (2 ^ 12)%N with 4096%N in H2.
  rewrite (sextets_value v Hv), (sextets_value w Hw). congruence.
Qed.

Lemma string_cons_inj c s c' s' : String c s = String c' s' -> c = c' /\ s = s'.
Proof. by intros [= -> ->]. Qed.

Ltac pad_contra E :=
  exfalso;
  first [ apply encodeStd_at_not_pad in E; [exact E|apply land_63_lt]
        | symmetry in E; apply encodeStd_at_not_pad in E;
          [exact E|apply land_63_lt] ].

Ltac four_chars Heq E1 E2 E3 E4 :=
  cbn [Encode] in Heq; cbv zeta in Heq;
  apply string_cons_inj in Heq as [E1 Heq];
  apply string_cons_inj in Heq as [E2 Heq];
  apply string_cons_inj in Heq as [E3 Heq];
  apply string_cons_inj in Heq as [E4 Heq].

Lemma Encode_inj_one (a a' : N) :
  (a < 256)%N -> (a' < 256)%N -> Encode [a] = Encode [a'] -> a = a'.
Proof.
  intros Ha Ha' Heq. four_chars Heq E1 E2 E3 E4.
  apply encodeStd_at_inj in E1, E2; try apply land_63_lt.
  rewrite !N.shiftl_mul_pow2, !sextet_div in E1, E2.
  change (2 ^ 16)%N with 65536%N in *. change (2 ^ 18)%N with 262144%N in *.
  change (2 ^ 12)%N with 4096%N in *.
  assert (forall x : N, (x * 65536 / 262144 = x / 4)%N) as Hq.
  { intros x. replace 262144%N with (65536 * 4)%N by done.
    by rewrite <- N.Div0.div_div, N.div_mul. }
  assert (forall x : N, (x * 65536 / 4096 = x * 16)%N) as Hx.
  { intros x. replace (x * 65536)%N with (x * 16 * 4096)%N by lia.
    by rewrite N.div_mul. }
  rewrite !Hq in E1. rewrite !Hx in E2.
  rewrite (N.mod_small (a / 4) 64) in E1
    by (apply N.Div0.div_lt_upper_bound; lia).
  rewrite (N.mod_small (a' / 4) 64) in E1
    by (apply N.Div0.div_lt_upper_bound; lia).
  assert (forall x : N, ((x * 16) mod 64 = (x mod 4) * 16)%N) as Hm.
  { intros x. replace 64%N with (4 * 16)%N by done.
    by rewrite N.Div0.mul_mod_distr_r. }
  rewrite !Hm in E2.
  pose proof (N.div_mod a 4). pose proof (N.div_mod a' 4). lia.
Qed.

Lemma Encode_inj_two (a b a' b' : N) :
  (a < 256)%N -> (b < 256)%N -> (a' < 256)%N -> (b' < 256)%N ->
  Encode [a; b] = Encode [a'; b'] -> a = a' /\ b = b'.
Proof.
  intros Ha Hb Ha' Hb' Heq. four_chars Heq E1 E2 E3 E4.
  assert (Hval : forall x y, (x < 256 -> y < 256 ->
            N.lor (N.shiftl x 16) (N.shiftl y 8) = x * 65536 + y * 256)%N).
  { intros x y Hx Hy. pose proof (group_value x y 0) as Hg.
    rewrite N.lor_0_r, N.add_0_r in Hg. by apply Hg. }
  rewrite !Hval in E1, E2, E3 by done.
  apply encodeStd_at_inj in E3; try apply land_63_lt.
  rewrite !sextet_div in E3. change (2 ^ 6)%N with 64%N in E3.
  assert (a * 65536 + b * 256 = a' * 65536 + b' * 256)%N as Hv.
  { apply sextets_inj; try done; try lia.
    replace (a * 65536 + b * 256)%N with ((a * 1024 + b * 4) * 64)%N by lia.
    replace (a' * 65536 + b' * 256)%N with ((a' * 1024 + b' * 4) * 64)%N by lia.
    by rewrite !N.Div0.mod_mul. }
  lia.
Qed.

Lemma Encode_inj_three (a b c a' b' c' : N) l l' :
  (a < 256)%N -> (b < 256)%N -> (c < 256)%N ->
  (a' < 256)%N -> (b' < 256)%N -> (c' < 256)%N ->
  Encode (a :: b :: c :: l) = Encode (a' :: b' :: c' :: l') ->
  a = a' /\ b = b' /\ c = c' /\ Encode l = Encode l'.
Proof.
  intros Ha Hb Hc Ha' Hb' Hc' Heq. four_chars Heq E1 E2 E3 E4.
  rewrite !group_value in E1, E2, E3, E4 by done.
  apply encodeStd_at_inj in E3, E4; try apply land_63_lt.
  rewrite !sextet_div in E3. change (2 ^ 6)%N with 64%N in E3.
  change 63%N with (N.ones 6) in E4. rewrite !N.land_ones in E4.
  change (2 ^ 6)%N with 64%N in E4.
  assert (a * 65536 + b * 256 + c = a' * 65536 + b' * 256 + c')%N as Hv
    by (apply sextets_inj; try done; lia).
  repeat split; try done; lia.
Qed.

Lemma Encode_inj (src src' : list N) :
  Forall (fun b => b < 256)%N src -> Forall (fun b => b < 256)%N src' ->
  Encode src = Encode src' -> src = src'.
Proof.
  revert src'.
  induction src as [|a|a b|a b c l IH] using list_ind3;
    intros [|a' [|b' [|c' l']]] Hsrc Hsrc' Heq; try done;
    repeat match goal with
           | H : Forall _ (_ :: _) |- _ => apply Forall_cons in H as [? H]
           end.
  - f_equal. by apply Encode_inj_one.
  - four_chars Heq E1 E2 E3 E4. pad_contra E3.
  - four_chars Heq E1 E2 E3 E4. pad_contra E3.
  - four_chars Heq E1 E2 E3 E4. pad_contra E3.
  - destruct (Encode_inj_two a b a' b') as [-> ->]; done.
  - four_chars Heq E1 E2 E3 E4. pad_contra E4.
  - four_chars Heq E1 E2 E3 E4. pad_contra E3.
  - four_chars Heq E1 E2 E3 E4. pad_contra E4.
  - destruct (Encode_inj_three a b c a' b' c' l l') as (-> & -> & -> & Hl); try done.
    do 3 f_equal. by apply IH.
Qed.

(** X20. The default password. When [rand.Read] fills the buffer of 20
    bytes, [randomPasswordGenerator] writes nothing and returns the
    standard base64 encoding of the bytes: 28 characters, 27 of the
    alphabet A-Z, a-z, 0-9, +, / followed by one padding character. When
    [rand.Read] fails, it writes the error to the logger and returns it. *)
Theorem default_password_shape (rand_Read : nat -> outcome (list N)) :
  (forall randomBytes,
     rand_Read 20%nat = Ok randomBytes ->
     length randomBytes = 20%nat ->
     randomPasswordGenerator rand_Read = Run [] (Ok (Encode randomBytes))
     /\ String.length (Encode randomBytes) = 28%nat
     /\ exists body,
          Encode randomBytes = string_of_list_ascii body +:+ "="
          /\ length body = 27%nat
          /\ Forall (fun c => is_Some (encodeStd_index c)) body)
  /\ (forall e,
        rand_Read 20%nat = Err e ->
        randomPasswordGenerator rand_Read
        = Run ["Error generating random bytes, " +:+ e] (Err e)).
Proof.
  split.
  - intros randomBytes Hread Hlen. split; [|split].
    + unfold randomPasswordGenerator. by rewrite Hread.
    + by rewrite Encode_length, Hlen.
    + do 20 (destruct randomBytes as [|? randomBytes]; [done|]).
      destruct randomBytes; [|done].
      exists (take 27 (list_ascii_of_string (Encode [n; n0; n1; n2; n3; n4; n5; n6; n7; n8; n9; n10; n11; n12; n13; n14; n15; n16; n17; n18]))).
      cbn [Encode list_ascii_of_string take string_of_list_ascii]. cbv zeta.
      split; [reflexivity|]. split; [reflexivity|].
      repeat (apply Forall_cons; split;
              [rewrite encodeStd_index_at by apply land_63_lt; by eexists|]).
      apply Forall_nil_2.
  - intros e Hread. unfold randomPasswordGenerator. by rewrite Hread.
Qed.

(** X21. The default password keeps the random bytes: two readings of
    the entropy source give the same password exactly when they give the
    same bytes. *)
Theorem default_password_distinct (rand_Read rand_Read' : nat -> outcome (list N))
    randomBytes randomBytes' :
  rand_Read 20%nat = Ok randomBytes ->
  rand_Read' 20%nat = Ok randomBytes' ->
  Forall (fun b => b < 256)%N randomBytes ->
  Forall (fun b => b < 256)%N randomBytes' ->
  result (randomPasswordGenerator rand_Read)
  = result (randomPasswordGenerator rand_Read')
  <-> randomBytes = randomBytes'.
Proof.
  intros Hread Hread' Hbytes Hbytes'. unfold randomPasswordGenerator.
  rewrite Hread, Hread'. split.
  - intros [= Heq]. by apply Encode_inj.
  - by intros ->.
Qed.

(** ** The generator with its default password generator *)

Section DefaultGenerator.

Variable rand_Read : nat -> outcome (list N).
Variable float64_to_int_unrepresentable : float64 -> Z.

Abbreviation GenerateManifest :=
  (GenerateManifest (result (randomPasswordGenerator rand_Read))
     float64_to_int_unrepresentable).

(** X22. [GenerateManifest] with the default password generator, for a
    new deployment. A manifest that it returns has the base64 encoding of
    the bytes that [rand.Read] gave as its password; when [rand.Read]
    fails, the call fails with the error of [rand.Read], and writes
    nothing to its own logger, once the parameters are legal, the
    instance group found and the persistence property a boolean. *)
Theorem default_generator_on_create ks serviceDeployment plan requestParams
    previousPlan :
  (forall out,
     result (GenerateManifest ks serviceDeployment plan requestParams None
               previousPlan) = Ok out ->
     exists randomBytes props,
       rand_Read 20%nat = Ok randomBytes
       /\ redisPlanProperties out = Ok props
       /\ props !! "password" = Some (VString (Encode randomBytes)))
  /\ (forall e g (b : bool),
        rand_Read 20%nat = Err e ->
        findIllegalArbitraryParams ks
          (RequestParameters.ArbitraryParams requestParams) = [] ->
        findRedisServerInstanceGroup plan = Some g ->
        Plan.Properties plan !! "persistence" = Some (VBool b) ->
        GenerateManifest ks serviceDeployment plan requestParams None previousPlan
        = Run [] (Err e)).
Proof.
  split.
  - intros out Hout.
    apply GenerateManifest_Ok in Hout
      as (_ & _ & ig & props & jobs & g & _ & Hprops & _ & Hgroups & _ & Hg).
    apply redisServerProperties_Ok in Hprops
      as (prevProps & persistence & password & maxClients & Hprev & _ & Hpw & _ & ->).
    subst prevProps. cbn in Hpw. unfold randomPasswordGenerator in Hpw.
    destruct (rand_Read 20%nat) as [randomBytes| |]; try done.
    injection Hpw as <-. exists randomBytes. eexists. split; [done|]. split.
    + unfold redisPlanProperties. rewrite Hgroups, Hg. reflexivity.
    + reflexivity.
  - intros e g b Hread Hill Hfind Hpers.
    rewrite GenerateManifest_steps by done. rewrite Hfind.
    rewrite (redisServerProperties_steps _ _ _ _ _ _ None) by done.
    rewrite Hpers. cbn. unfold randomPasswordGenerator. by rewrite Hread.
Qed.

End DefaultGenerator.

(** * Further worked examples *)

Import Cases.

Lemma missing_instance_group_reported_witness :
  generate [] (deployment "2.5") plan_without_groups (request ∅) None None
  = Run ["no redis-server instance group definition found"]
        (Err "Contact your operator, service configuration issue occurred").
Proof.
  assert (Hill : findIllegalArbitraryParams []
                   (RequestParameters.ArbitraryParams (request ∅)) = [])
    by reflexivity.
  assert (Hup : forall pm, @None BoshManifest.t = Some pm ->
            validUpgradePath pm (ServiceDeployment.Releases (deployment "2.5")) = Ok tt)
    by (intros pm Hpm; discriminate Hpm).
  destruct (missing_instance_group_reported generator unrepresentable []
              (deployment "2.5") plan_without_groups (request ∅) None None Hill Hup)
    as [H _].
  apply H. intros g Hg. inversion Hg.
Defined.

Lemma missing_persistence_reported_witness :
  generate [] (deployment "2.5") plan_without_persistence (request ∅) None None
  = Run ["the plan property 'persistence' is missing"] (Err EmptyString).
Proof.
  assert (Hill : findIllegalArbitraryParams []
                   (RequestParameters.ArbitraryParams (request ∅)) = [])
    by reflexivity.
  assert (Hup : forall pm, @None BoshManifest.t = Some pm ->
            validUpgradePath pm (ServiceDeployment.Releases (deployment "2.5")) = Ok tt
            /\ exists m, redisPlanProperties pm = Ok m)
    by (intros pm Hpm; discriminate Hpm).
  assert (Hfind : findRedisServerInstanceGroup plan_without_persistence
                  = Some server_group) by reflexivity.
  destruct (missing_persistence_reported generator unrepresentable []
              (deployment "2.5") plan_without_persistence (request ∅) None None
              server_group Hill Hup Hfind) as [H _].
  apply H. reflexivity.
Defined.

Lemma generated_properties_schema_witness :
  exists instanceGroup password maxClients,
    BoshManifest.InstanceGroups (created "2.5") = [instanceGroup]
    /\ bosh.InstanceGroup.Properties instanceGroup
       = {[ "redis" :=
              VMap {[ "persistence" := VString "yes";
                      "password" := VString password;
                      "maxclients" := VInt maxClients ]} ]}
    /\ dom (bosh.InstanceGroup.Properties instanceGroup) = {[ "redis" ]}
    /\ BoshManifest.Properties (created "2.5") = ∅.
Proof.
  assert (H : result (generate [] (deployment "2.5") plan (request ∅) None None)
              = Ok (created "2.5")) by (vm_compute; reflexivity).
  destruct (generated_properties_schema generator unrepresentable _ _ _ _ _ _ _ H)
    as (ig & b & pw & n & Hig & Hb & Hprops & Hdom & _ & Hempty).
  assert (b = true) as -> by (vm_compute in Hb; congruence).
  exists ig, pw, n. repeat split; assumption.
Defined.

Lemma generated_manifest_closed_witness :
  BoshManifest.Name (created "2.5") = "redis-1"
  /\ Release.Name <$> BoshManifest.Releases (created "2.5") = ["redis-release"]
  /\ Release.Version <$> BoshManifest.Releases (created "2.5") = ["2.5"]
  /\ exists instanceGroup job,
       BoshManifest.InstanceGroups (created "2.5") = [instanceGroup]
       /\ bosh.InstanceGroup.Jobs instanceGroup = [job]
       /\ Job.Release job ∈ Release.Name <$> BoshManifest.Releases (created "2.5").
Proof.
  assert (H : result (generate [] (deployment "2.5") plan (request ∅) None None)
              = Ok (created "2.5")) by (vm_compute; reflexivity).
  destruct (generated_manifest_closed generator unrepresentable _ _ _ _ _ _ _ H)
    as (Hn & Hr & Hv & st & ig & job & r & _ & _ & _ & Hig & _ & _ & Hjobs & _ & Hin & _).
  split; [exact Hn|]. split; [exact Hr|]. split; [exact Hv|].
  exists ig, job. repeat split; assumption.
Defined.

Lemma placement_and_update_from_plan_witness :
  exists instanceGroup,
    BoshManifest.InstanceGroups (created "2.5") = [instanceGroup]
    /\ bosh.InstanceGroup.Instances instanceGroup = 1%Z
    /\ Network.Name <$> bosh.InstanceGroup.Networks instanceGroup = ["default"]
    /\ BoshManifest.Update (created "2.5")
       = {| bosh.Update.Canaries := 1;
            bosh.Update.CanaryWatchTime := "30000-240000";
            bosh.Update.UpdateWatchTime := "30000-240000";
            bosh.Update.MaxInFlight := VInt 4;
            bosh.Update.Serial := None |}.
Proof.
  assert (H : result (generate [] (deployment "2.5") plan (request ∅) None None)
              = Ok (created "2.5")) by (vm_compute; reflexivity).
  destruct (placement_and_update_from_plan generator unrepresentable _ _ _ _ _ _ _ H)
    as (l1 & g & l2 & ig & Hl & _ & _ & Hig & Hinst & _ & _ & _ & _ & Hnet & Hupd).
  assert (g = server_group) as ->.
  { change (Plan.InstanceGroups plan) with [server_group] in Hl.
    destruct l1 as [|g1 [|g2 l1]]; [by injection Hl|by injection Hl|by injection Hl]. }
  exists ig. split; [exact Hig|]. split; [exact Hinst|]. split; [exact Hnet|exact Hupd].
Defined.

Lemma regenerate_unchanged_witness :
  generate [] (deployment "2.5") plan (request ∅) (Some (created "2.5")) None
  = Run [] (Ok (created "2.5")).
Proof.
  assert (H : result (generate [] (deployment "2.5") plan (request ∅) None None)
              = Ok (created "2.5")) by (vm_compute; reflexivity).
  apply (regenerate_unchanged generator unrepresentable [] (deployment "2.5") plan
           (request ∅) None None None (created "2.5") H).
  - apply NoDup_singleton.
  - intros r Hr. right. vm_compute in Hr. injection Hr as <-.
    exists (2, 5, 0)%Z. vm_compute. reflexivity.
Defined.

Lemma unparsed_version_blocks_update_witness :
  generate [] (deployment "abc") plan (request ∅) (Some (created "abc")) None
  = Run [] (Err "abc is not a valid BOSH release version")
  /\ generate [] (deployment "2.5") plan (request ∅) (Some (created "abc")) None
     = Run [] (Err "abc is not a valid BOSH release version")
  /\ generate [] (deployment "x.y") plan (request ∅) (Some (created "abc")) None
     = Run [] (Err "x.y is not a valid BOSH release version")
  /\ validUpgradePath (created "abc")
       (ServiceDeployment.Releases (deployment "latest")) = Ok tt.
Proof.
  assert (H : result (generate [] (deployment "abc") plan (request ∅) None None)
              = Ok (created "abc")) by (vm_compute; reflexivity).
  assert (Hnd : NoDup (ServiceRelease.Name
                         <$> ServiceDeployment.Releases (deployment "abc")))
    by apply NoDup_singleton.
  assert (Hr : findReleaseForJob RedisServerJobName
                 (ServiceDeployment.Releases (deployment "abc"))
               = Ok (release "abc")) by (vm_compute; reflexivity).
  assert (Hl : ServiceRelease.Version (release "abc") <> "latest") by discriminate.
  assert (Hparse : parseReleaseVersion (ServiceRelease.Version (release "abc"))
                   = Err "abc is not a valid BOSH release version")
    by (vm_compute; reflexivity).
  destruct (unparsed_version_blocks_update generator unrepresentable []
              (deployment "abc") plan (request ∅) None None (created "abc")
              (release "abc") "abc is not a valid BOSH release version"
              H Hnd Hr Hl Hparse) as [Hsame Hlater].
  assert (Hfind : forall v, findReleaseForJob RedisServerJobName
                              (ServiceDeployment.Releases (deployment v))
                            = Ok (release v)).
  { intros v. rewrite findReleaseForJob_matches. reflexivity. }
  split; [apply Hsame|]. split; [|split].
  - destruct (Hlater [] (deployment "2.5") plan (request ∅) None (release "2.5")
                (Hfind "2.5") eq_refl) as [_ Hother].
    assert (Hne : ServiceRelease.Version (release "2.5") <> "latest") by discriminate.
    specialize (Hother Hne). cbv zeta in Hother. destruct Hother as [_ Hgen].
    assert (Hp : parseReleaseVersion (ServiceRelease.Version (release "2.5"))
                 = Ok (2, 5, 0)%Z) by (vm_compute; reflexivity).
    rewrite Hp in Hgen. apply Hgen. reflexivity.
  - destruct (Hlater [] (deployment "x.y") plan (request ∅) None (release "x.y")
                (Hfind "x.y") eq_refl) as [_ Hother].
    assert (Hne : ServiceRelease.Version (release "x.y") <> "latest") by discriminate.
    specialize (Hother Hne). cbv zeta in Hother. destruct Hother as [_ Hgen].
    assert (Hp : parseReleaseVersion (ServiceRelease.Version (release "x.y"))
                 = Err "x.y is not a valid BOSH release version")
      by (vm_compute; reflexivity).
    rewrite Hp in Hgen. apply Hgen. reflexivity.
  - destruct (Hlater [] (deployment "latest") plan (request ∅) None
                (release "latest") (Hfind "latest") eq_refl) as [Hlatest _].
    apply Hlatest. reflexivity.
Defined.

Lemma binding_credentials_witness :
  exists b host password,
    result (bind_to one_host stored None) = Ok b
    /\ Binding.Credentials b
       = {[ "host" := VString host;
            "port" := VInt 6379;
            "generated_secret" := VString EmptyString;
            "password" := VString password;
            "secret" := VString EmptyString ]}
    /\ one_host = {[ "redis-server" := [host] ]}
    /\ stored !! "password" = Some (VString password).
Proof.
  assert (H : exists b, result (bind_to one_host stored None) = Ok b)
    by (eexists; vm_compute; reflexivity).
  destruct H as [b H]. pose proof H as Hb. unfold bind_to in Hb.
  destruct (binding_credentials "binding-1" one_host (manifest "2.5" stored)
              (request ∅) None b Hb)
    as (host & g & pw & s & props & Hc & _ & Htop & Hg & Hprops & Hpw & Hs).
  assert (props = stored) as -> .
  { assert (Hp : redisPlanProperties (manifest "2.5" stored) = Ok stored)
      by reflexivity.
    congruence. }
  rewrite Hg, (Hs eq_refl) in Hc.
  exists b, host, pw. repeat split; assumption.
Defined.

Lemma binding_unreadable_manifest_panics_witness :
  bind_to one_host stored_without_password None
  = Run [] (Panic InterfaceConversion).
Proof.
  assert (Hhost : getRedisHost one_host = Ok "10.0.0.5") by (vm_compute; reflexivity).
  assert (Hsecrets : @None (gmap string string) = None
                     \/ is_Some (secrets_lookup None "secret_pass"))
    by (left; reflexivity).
  pose proof (binding_unreadable_manifest_panics "binding-1" one_host
                (manifest "2.5" stored_without_password) (request ∅) None
                "10.0.0.5" Hhost Hsecrets) as H.
  cbv zeta in H. destruct H as (_ & _ & H).
  assert (Hnotice : platform_notice (request ∅) = []) by (vm_compute; reflexivity).
  rewrite Hnotice in H. unfold bind_to.
  apply (H stored_without_password).
  - reflexivity.
  - reflexivity.
  - intros s Hs. vm_compute in Hs. discriminate Hs.
Defined.

Lemma generated_manifest_binds_witness :
  exists password,
    result (CreateBinding "binding-1" {[ "redis-server" := ["10.0.0.5"] ]}
              (created "2.5") (request ∅) None)
    = Ok {| Binding.Credentials :=
              {[ "host" := VString "10.0.0.5";
                 "port" := VInt 6379;
                 "generated_secret" := VString EmptyString;
                 "password" := VString password;
                 "secret" := VString EmptyString ]} |}.
Proof.
  assert (H : result (generate [] (deployment "2.5") plan (request ∅) None None)
              = Ok (created "2.5")) by (vm_compute; reflexivity).
  destruct (generated_manifest_binds generator unrepresentable [] (deployment "2.5")
              plan (request ∅) None None (created "2.5") "binding-1" "10.0.0.5"
              (request ∅) None EmptyString H eq_refl)
    as (pw & props & _ & _ & Hb).
  exists pw. exact Hb.
Defined.

Lemma renamed_release_refused_witness :
  generate [] fork_deployment plan (request ∅) (Some (manifest "2.5" stored)) None
  = Run [] (Err "no release with name redis-fork found in previous manifest").
Proof.
  assert (Hnew : findReleaseForJob RedisServerJobName
                   (ServiceDeployment.Releases fork_deployment) = Ok other_release)
    by (vm_compute; reflexivity).
  assert (Hnone : forall r, r ∈ BoshManifest.Releases (manifest "2.5" stored) ->
                    Release.Name r <> ServiceRelease.Name other_release).
  { intros r Hr. apply list_elem_of_singleton in Hr. rewrite Hr. discriminate. }
  pose proof (renamed_release_refused generator unrepresentable [] fork_deployment
                plan (request ∅) (manifest "2.5" stored) None other_release
                Hnew Hnone) as H.
  cbv zeta in H. destruct H as [_ H]. apply H. reflexivity.
Defined.

Lemma parse_printed_version_witness :
  parseReleaseVersion (pretty 2%N +:+ "." +:+ pretty 10%N +:+ "+dev." +:+ pretty 3%N)
  = Ok (2, 10, 3)%Z.
Proof.
  assert (H2 : (Z.of_N 2 ≤ MaxInt)%Z) by (unfold MaxInt; lia).
  assert (H10 : (Z.of_N 10 ≤ MaxInt)%Z) by (unfold MaxInt; lia).
  assert (H3 : (Z.of_N 3 ≤ MaxInt)%Z) by (unfold MaxInt; lia).
  destruct (parse_printed_version 2 10 3 H2 H10 H3) as (_ & _ & _ & H).
  exact H.
Defined.

Lemma default_password_shape_witness :
  randomPasswordGenerator counting_Read
  = Run [] (Ok "AAECAwQFBgcICQoLDA0ODxAREhM=")
  /\ randomPasswordGenerator failing_Read
     = Run ["Error generating random bytes, entropy source unavailable"]
           (Err "entropy source unavailable").
Proof.
  destruct (default_password_shape counting_Read) as [Hok _].
  destruct (Hok (N.of_nat <$> seq 0 20) eq_refl eq_refl) as (Hrun & _).
  destruct (default_password_shape failing_Read) as [_ Herr].
  split.
  - etransitivity; [exact Hrun|]. vm_compute. reflexivity.
  - exact (Herr _ eq_refl).
Defined.

Lemma default_password_distinct_witness :
  result (randomPasswordGenerator counting_Read)
  <> result (randomPasswordGenerator ones_Read).
Proof.
  assert (Hc : Forall (fun b => b < 256)%N (N.of_nat <$> seq 0 20))
    by (cbn; repeat (constructor; [reflexivity|]); constructor).
  assert (Ho : Forall (fun b => b < 256)%N (replicate 20 255%N))
    by (cbn; repeat (constructor; [reflexivity|]); constructor).
  intros Heq.
  apply (default_password_distinct counting_Read ones_Read
           (N.of_nat <$> seq 0 20) (replicate 20 255%N) eq_refl eq_refl Hc Ho) in Heq.
  vm_compute in Heq. discriminate Heq.
Defined.

Lemma default_generator_on_create_witness :
  (exists out props,
     result (adapter.GenerateManifest (result (randomPasswordGenerator counting_Read))
               unrepresentable [] (deployment "2.5") plan (request ∅) None None)
     = Ok out
     /\ redisPlanProperties out = Ok props
     /\ props !! "password" = Some (VString "AAECAwQFBgcICQoLDA0ODxAREhM="))
  /\ adapter.GenerateManifest (result (randomPasswordGenerator failing_Read))
       unrepresentable [] (deployment "2.5") plan (request ∅) None None
     = Run [] (Err "entropy source unavailable").
Proof.
  split.
  - assert (H : exists out,
              result (adapter.GenerateManifest
                        (result (randomPasswordGenerator counting_Read))
                        unrepresentable [] (deployment "2.5") plan (request ∅)
                        None None) = Ok out)
      by (eexists; vm_compute; reflexivity).
    destruct H as [out H].
    destruct (default_generator_on_create counting_Read unrepresentable []
                (deployment "2.5") plan (request ∅) None) as [Hok _].
    destruct (Hok out H) as (randomBytes & props & Hread & Hprops & Hpw).
    injection Hread as <-.
    exists out, props. split; [exact H|]. split; [exact Hprops|].
    rewrite Hpw. vm_compute. reflexivity.
  - destruct (default_generator_on_create failing_Read unrepresentable []
                (deployment "2.5") plan (request ∅) None) as [_ Herr].
    apply (Herr "entropy source unavailable" server_group true); reflexivity.
Defined.
